(** * Pupil tracker of [pipeline/utils/eye_tracking.py]

    A shallow embedding of class [PupilTracker] (its constructor,
    [goodness_of_fit], [get_pupil_from_contours], [preprocess_image] and the
    frame loop of [track]) and the properties of its per-frame state machine.

    Conventions.
    - Python [float] / [np.float64] values are idealised as real numbers
      ([R]); Python [int] is [Z]; array extents and pixel coordinates, which
      are never negative, are [nat].
    - An 8-bit image is a list of rows of pixels in [0, 255]; a float image
      is a list of rows of reals.
    - The OpenCV primitives the tracker calls (colour conversion, blur, Otsu
      threshold, contour tracing, erosion, dilation, ellipse drawing and
      ellipse fitting) are not part of the repository: they are the fields of
      the interface [CV2], and every theorem holds for every implementation
      of it.  They are taken to return: [cv2.fitEllipse] raises on fewer than
      five points, which the test on [min_contour_len] is there to prevent.
    - The optional [display] windows, [print] calls and the pandas report of
      failed candidates only produce terminal and screen output; they are
      left out.  [track] is embedded with [display=False]. *)

From Stdlib Require Import String.
From Stdlib Require Import Reals Lra Lia ZArith List Bool Permutation.
Import ListNotations.
Open Scope R_scope.

(** ** Python values *)

(** Outcome of a call that may raise. *)
Inductive exn : Type :=
| PipelineException (msg : string)
| TypeError.

Inductive result (A : Type) : Type :=
| Ok (a : A)
| Raise (e : exn).
Arguments Ok {A} a.
Arguments Raise {A} e.

(** Comparisons of floats, as booleans. *)
Definition Rltb (x y : R) : bool := if Rlt_dec x y then true else false.
Definition Rleb (x y : R) : bool := if Rle_dec x y then true else false.
Definition Rgeb (x y : R) : bool := Rleb y x.
Definition Reqb (x y : R) : bool := if Req_dec_T x y then true else false.

(** [1 * b] for a boolean [b]. *)
Definition int_of_bool (b : bool) : Z := if b then 1%Z else 0%Z.

(** ** numpy *)
Module Np.

Definition image := list (list Z).
Definition fimage := list (list R).

(** [a.shape] of a two-dimensional array: (rows, columns). *)
Definition shape {A} (a : list (list A)) : nat * nat :=
  (length a, length (hd [] a)).

(** [l[a:b]] for non-negative bounds (out-of-range bounds are clipped). *)
Definition slice {A} (ab : nat * nat) (l : list A) : list A :=
  firstn (snd ab - fst ab) (skipn (fst ab) l).

(** The crop [a[r0:r1, c0:c1]] of a two-dimensional array. *)
Definition crop {A} (roi : (nat * nat) * (nat * nat)) (a : list (list A))
  : list (list A) :=
  map (slice (snd roi)) (slice (fst roi) a).

(** [np.ones((r, c), dtype=np.uint8)]. *)
Definition ones (rc : nat * nat) : image :=
  repeat (repeat 1%Z (snd rc)) (fst rc).

Definition map2 {A B C} (f : A -> B -> C) (l : list A) (m : list B) : list C :=
  map (fun ab => f (fst ab) (snd ab)) (combine l m).

(** In-place product [a *= b] of two uint8 images: wraps modulo 256. *)
Definition imul (a b : image) : image :=
  map2 (map2 (fun x y => ((x * y) mod 256)%Z)) a b.

Definition rsum (l : list R) : R := fold_right Rplus 0 l.
Definition mean (l : list R) : R := rsum l / INR (length l).

(** [np.std(a)]: population standard deviation of all the pixels, of an
    array that has some. *)
Definition std (a : image) : R :=
  let xs := map IZR (concat a) in
  let m := mean xs in
  sqrt (mean (map (fun x => (x - m) ^ 2) xs)).

(** [x ** p] for a base [x >= 0] and an exponent [p >= 0]. *)
Definition power (x p : R) : R :=
  if Req_dec_T x 0 then (if Req_dec_T p 0 then 1 else 0) else Rpower x p.

(** Conversion of a float to an integer: truncation towards zero. *)
Definition trunc (x : R) : Z :=
  if Rle_dec 0 x then Int_part x else (- Int_part (- x))%Z.

(** [a.astype(np.uint8)] on one value; the running average stays within
    [0, 255] for a decay rate in [0, 1]. *)
Definition uint8 (x : R) : Z := (trunc x mod 256)%Z.

(** [a.astype(np.int16)] on one value. *)
Definition int16 (z : Z) : Z := ((z + 32768) mod 65536 - 32768)%Z.

(** [a[y, x]] of an image; 0 outside of it. *)
Definition pixel (a : image) (y x : nat) : Z := nth x (nth y a []) 0%Z.

End Np.

(** ** Data model *)

(** A contour point [(x, y)]: column and row of a pixel. *)
Definition point : Type := nat * nat.
Definition contour : Type := list point.

(** A rotated rectangle as [cv2.fitEllipse] returns it:
    [((x, y), (width, height), angle)], the angle in degrees. *)
Definition ellipse : Type := (R * R) * (R * R) * R.

Definition e_center (e : ellipse) : R * R := fst (fst e).
Definition e_axes (e : ellipse) : R * R := snd (fst e).
Definition e_angle (e : ellipse) : R := snd e.

(** The region of interest [[[r0, r1], [c0, c1]]]. *)
Definition roi : Type := (nat * nat) * (nat * nat).

(** The keys of the parameter dictionary that [PupilTracker] reads.
    ['gaussian_blur'] is the value after [int(...)]; ['extreme_meso'] may be
    absent. *)
Record params : Type := {
  relative_area_threshold : R;
  ratio_threshold : R;
  error_threshold : R;
  min_contour_len : Z;
  margin : R;
  contrast_threshold : R;
  speed_threshold : R;
  dr_threshold : R;
  gaussian_blur : Z;
  extreme_meso : option bool;
  running_avg : R;
  exponent : R
}.

(** The attributes of a [PupilTracker] object. *)
Record PupilTracker : Type := {
  _params : params;
  _center : option (R * R);
  _radius : option R;
  _mask : option Np.image;
  _last_detection : Z;
  _last_ellipse : option ellipse;
  _running_avg : option Np.fimage
}.

Definition set_last_detection (n : Z) (s : PupilTracker) : PupilTracker :=
  {| _params := _params s; _center := _center s; _radius := _radius s;
     _mask := _mask s; _last_detection := n;
     _last_ellipse := _last_ellipse s; _running_avg := _running_avg s |}.

Definition set_last_ellipse (e : option ellipse) (s : PupilTracker) : PupilTracker :=
  {| _params := _params s; _center := _center s; _radius := _radius s;
     _mask := _mask s; _last_detection := _last_detection s;
     _last_ellipse := e; _running_avg := _running_avg s |}.

Definition set_center (c : option (R * R)) (s : PupilTracker) : PupilTracker :=
  {| _params := _params s; _center := c; _radius := _radius s;
     _mask := _mask s; _last_detection := _last_detection s;
     _last_ellipse := _last_ellipse s; _running_avg := _running_avg s |}.

Definition set_radius (r : option R) (s : PupilTracker) : PupilTracker :=
  {| _params := _params s; _center := _center s; _radius := r;
     _mask := _mask s; _last_detection := _last_detection s;
     _last_ellipse := _last_ellipse s; _running_avg := _running_avg s |}.

Definition set_running_avg (a : option Np.fimage) (s : PupilTracker) : PupilTracker :=
  {| _params := _params s; _center := _center s; _radius := _radius s;
     _mask := _mask s; _last_detection := _last_detection s;
     _last_ellipse := _last_ellipse s; _running_avg := a |}.

(** [PupilTracker.__init__(param, mask=None)].  The constructor only stores
    its arguments and the initial attributes; it has no [raise]. *)
Definition init (param : params) (mask : option Np.image) : result PupilTracker :=
  Ok {| _params := param;
        _center := None;
        _radius := None;
        _mask := mask;
        _last_detection := 1;
        _last_ellipse := None;
        _running_avg := None |}.

(** ** [goodness_of_fit] *)

Definition px (p : point) : R := INR (fst p).
Definition py (p : point) : R := INR (snd p).

(** One turn of the loop of [goodness_of_fit]; [angle] is in radians. *)
Definition fit_step (center size : R * R) (angle : R) (err : R) (coord : point) : R :=
  let posx := (px coord - fst center) * cos (- angle)
              - (py coord - snd center) * sin (- angle) in
  let posy := (px coord - fst center) * sin (- angle)
              + (py coord - snd center) * cos (- angle) in
  err + ((posx / fst size) ^ 2 + (posy / snd size) ^ 2 - 0.25) ^ 2.

Definition goodness_of_fit (cnt : contour) (e : ellipse) : R :=
  let '(center, size, angle) := e in
  let angle := angle * (PI / 180) in
  let err := fold_left (fit_step center size angle) cnt 0 in
  sqrt (err / INR (length cnt)).

(** ** The OpenCV interface *)

(** The [cv2] calls of the tracker, each with the constant arguments the
    source passes. *)
Class CV2 (frame : Type) : Type := {
  (** [cv2.cvtColor(frame, cv2.COLOR_BGR2GRAY)] *)
  cvtColor : frame -> Np.image;
  (** [cv2.GaussianBlur(img, (k, k), 0)] *)
  GaussianBlur : Np.image -> Z -> Np.image;
  (** second result of [cv2.threshold(img, 0, 255, THRESH_BINARY + THRESH_OTSU)] *)
  threshold : Np.image -> Np.image;
  (** contours of [cv2.findContours(img, RETR_TREE, CHAIN_APPROX_SIMPLE)] *)
  findContours : Np.image -> list contour;
  (** [cv2.erode(img, np.ones((3, 3)), iterations=1)] *)
  erode : Np.image -> Np.image;
  (** [cv2.dilate(img, np.ones((3, 3)), iterations=n)] *)
  dilate : Np.image -> Z -> Np.image;
  (** [cv2.ellipse] drawing a filled ellipse of colour 255 on [np.zeros(shape)] *)
  filled_ellipse : nat * nat -> ellipse -> Np.image;
  (** [cv2.fitEllipse(cnt)] *)
  fitEllipse : contour -> ellipse
}.

(** One [cap.read()] of the video, with the key that [cv2.waitKey(1)] returns
    at the end of that turn of the loop. *)
Record capture (frame : Type) : Type := {
  read : option frame;
  waitKey : Z
}.
Arguments read {frame} c.
Arguments waitKey {frame} c.

(** A [cv2.VideoCapture]: whether it opened, its frame count and what the
    successive reads return. *)
Record video (frame : Type) : Type := {
  isOpened : bool;
  frame_count : Z;
  reads : list (capture frame)
}.
Arguments isOpened {frame} v.
Arguments frame_count {frame} v.
Arguments reads {frame} v.

(** The three dictionaries that [track] appends to [traces]. *)
Inductive trace : Type :=
| Dropped (frame_id : Z)
| Untracked (frame_id : Z) (frame_intensity : R)
| Tracked (center : R * R) (major_r : R) (rotated_rect : list R)
          (cnt : list (Z * Z)) (frame_id : Z) (frame_intensity : R).

(** ** Candidate scoring *)

(** [max(axes) / min(axes)] *)
Definition ratio_of (axes : R * R) : R :=
  Rmax (fst axes) (snd axes) / Rmin (fst axes) (snd axes).

(** [np.prod(ellipse[1]) / np.prod(small_gray.shape)] *)
Definition area_of (axes : R * R) (shape : nat * nat) : R :=
  (fst axes * snd axes) / INR (fst shape * snd shape).

(** [np.array([x / small_gray.shape[1], y / small_gray.shape[0]])] *)
Definition center_of (xy : R * R) (shape : nat * nat) : R * R :=
  (fst xy / INR (snd shape), snd xy / INR (fst shape)).

(** [0 if self._radius is None else np.abs(r - self._radius) / self._radius] *)
Definition dr_of (self : PupilTracker) (r : R) : R :=
  match _radius self with
  | None => 0
  | Some radius => Rabs (r - radius) / radius
  end.

(** [0 if self._center is None else np.sqrt(np.sum((center - self._center) ** 2))] *)
Definition dx_of (self : PupilTracker) (center : R * R) : R :=
  match _center self with
  | None => 0
  | Some c => sqrt ((fst center - fst c) ^ 2 + (snd center - snd c) ^ 2)
  end.

(** The sum [matching_conditions] of the seven tests. *)
Definition matching_conditions (self : PupilTracker) (shape : nat * nat)
    (cnt : contour) (e : ellipse) : Z :=
  let p := _params self in
  let axes := e_axes e in
  let ratio := ratio_of axes in
  let area := area_of axes shape in
  let curr_err := goodness_of_fit cnt e in
  let center := center_of (e_center e) shape in
  let r := Rmax (fst axes) (snd axes) in
  let dr := dr_of self r in
  let dx := dx_of self center in
  (int_of_bool (Rleb ratio (ratio_threshold p))
   + int_of_bool (Rgeb area (relative_area_threshold p))
   + int_of_bool (Rltb curr_err (error_threshold p))
   + int_of_bool (Rltb (margin p) (fst center) && Rltb (fst center) (1 - margin p))
   + int_of_bool (Rltb (margin p) (snd center) && Rltb (snd center) (1 - margin p))
   + int_of_bool (Rltb dx (speed_threshold p * IZR (_last_detection self)))
   + int_of_bool (Rltb dr (dr_threshold p * IZR (_last_detection self))))%Z.

(** [curr_err < err], where [err] starts as [np.inf] ([None]). *)
Definition lt_err (curr_err : R) (err : option R) : bool :=
  match err with
  | None => true
  | Some e => Rltb curr_err e
  end.

Section Tracker.

Context {frame : Type} {cv : CV2 frame}.

(** Head of the loop body of [get_pupil_from_contours]: the contour
    restricted to the eroded mask and its fitted ellipse, or [None] where
    the source says [continue]. *)
Definition fit_contour (self : PupilTracker) (mask : Np.image) (cnt : contour)
  : option (contour * ellipse) :=
  let mask2 := erode mask in
  let cnt := filter (fun p => (0 <? Np.pixel mask2 (snd p) (fst p))%Z) cnt in
  if (Z.of_nat (length cnt) <? min_contour_len (_params self))%Z then None
  else
    let e := fitEllipse cnt in
    if Reqb (Rmin (fst (e_axes e)) (snd (e_axes e))) 0 then None
    else Some (cnt, e).

(** The loop variables [err], [best_ellipse], [best_contour]. *)
Definition best : Type := option R * option ellipse * option contour.

(** One turn of the loop over the contours. *)
Definition scan (self : PupilTracker) (shape : nat * nat) (mask : Np.image)
    (acc : best) (cnt : contour) : best :=
  match fit_contour self mask cnt with
  | None => acc
  | Some (cnt, e) =>
      let curr_err := goodness_of_fit cnt e in
      if lt_err curr_err (fst (fst acc))
         && (matching_conditions self shape cnt e =? 7)%Z
      then (Some curr_err, Some e, Some cnt)
      else acc
  end.

(** [get_pupil_from_contours(contours, small_gray, mask)]: the updated
    tracker and the pair [(best_contour, best_ellipse)]. *)
Definition get_pupil_from_contours (self : PupilTracker)
    (contours : list contour) (small_gray mask : Np.image)
  : PupilTracker * (option contour * option ellipse) :=
  let '(err, best_ellipse, best_contour) :=
    fold_left (scan self (Np.shape small_gray) mask) contours (None, None, None) in
  let self :=
    match best_ellipse with
    | None => set_last_detection (_last_detection self + 1) self
    | Some _ => set_last_detection 1 self
    end in
  (self, (best_contour, best_ellipse)).

(** ** Preprocessing *)

(** The running average of the 'extreme meso' mode, on its first use:
    [np.array(small_gray / 255) ** p * 255]. *)
Definition running_avg_first (p : R) (small_gray : Np.image) : Np.fimage :=
  map (map (fun v => Np.power (IZR v / 255) p * 255)) small_gray.

(** ... and afterwards:
    [c * np.array(small_gray / 255) ** p * 255 + (1 - c) * self._running_avg]. *)
Definition running_avg_next (c p : R) (small_gray : Np.image) (avg : Np.fimage)
  : Np.fimage :=
  Np.map2 (Np.map2 (fun v a => c * Np.power (IZR v / 255) p * 255 + (1 - c) * a))
          small_gray avg.

(** [preprocess_image(frame, eye_roi)]: the updated tracker and
    [(gray, small_gray, img_std, thres, blur)]. *)
Definition preprocess_image (self : PupilTracker) (fr : frame) (eye_roi : roi)
  : PupilTracker * (Np.image * Np.image * R * Np.image * Np.image) :=
  let h := gaussian_blur (_params self) in
  let gray := cvtColor fr in
  let img_std := Np.std gray in
  let small_gray := Np.crop eye_roi gray in
  let '(self, small_gray) :=
    match extreme_meso (_params self) with
    | Some true =>
        let c := running_avg (_params self) in
        let p := exponent (_params self) in
        match _running_avg self with
        | None =>
            (set_running_avg (Some (running_avg_first p small_gray)) self,
             small_gray)
        | Some avg =>
            let avg := running_avg_next c p small_gray avg in
            (set_running_avg (Some avg) self, map (map Np.uint8) avg)
        end
    | _ => (self, small_gray)
    end in
  let blur := GaussianBlur small_gray (2 * h + 1) in
  let thres := threshold blur in
  (self, (gray, small_gray, img_std, thres, blur)).

(** ** The frame loop *)

(** The search restriction of [track]: the thresholded image times the
    dilated filled last ellipse, when there is one, times the static mask. *)
Definition apply_masks (self : PupilTracker) (small_mask thres : Np.image)
  : Np.image :=
  let dilation_iter := 10%Z in
  let thres :=
    match _last_ellipse self with
    | Some last =>
        let mask := filled_ellipse (Np.shape small_mask) last in
        let mask := dilate mask dilation_iter in
        Np.imul thres mask
    | None => thres
    end in
  Np.imul thres small_mask.

(** The body of the [while] loop of [track] from [cap.read()] on, for the
    frame numbered [fr_count] (already incremented).  The result is the
    tracker after the frame and either the dictionary appended to [traces]
    or the exception that ends the run.  Subscripting a missing ellipse
    would be a [TypeError]; [get_pupil_from_contours_cases] shows that the
    contour and the ellipse are always returned together. *)
Definition track_frame (self : PupilTracker) (small_mask : Np.image)
    (eye_roi : roi) (fr_count : Z) (cap : capture frame)
  : PupilTracker * result trace :=
  let contrast_low := contrast_threshold (_params self) in
  match read cap with
  | None => (self, Ok (Dropped fr_count))
  | Some fr =>
      let '(self, (gray, small_gray, img_std, thres, blur)) :=
        preprocess_image self fr eye_roi in
      if Rltb img_std contrast_low then (self, Ok (Untracked fr_count img_std))
      else
        let thres := apply_masks self small_mask thres in
        let contours := findContours thres in
        let '(self, (cnt, e)) :=
          get_pupil_from_contours self contours blur small_mask in
        let self := set_last_ellipse e self in
        let '(self, rec) :=
          match cnt, e with
          | None, _ => (self, Ok (Untracked fr_count img_std))
          | Some cnt, Some e =>
              let eye_center :=
                (INR (fst (snd eye_roi)) + fst (e_center e),
                 INR (fst (fst eye_roi)) + snd (e_center e)) in
              let sh := Np.shape small_gray in
              let self :=
                set_center (Some (fst (e_center e) / INR (snd sh),
                                  snd (e_center e) / INR (fst sh))) self in
              let self :=
                set_radius (Some (Rmax (fst (e_axes e)) (snd (e_axes e)))) self in
              (self,
               Ok (Tracked eye_center
                       (Rmax (fst (e_axes e)) (snd (e_axes e)))
                       [fst (e_center e); snd (e_center e);
                        fst (e_axes e); snd (e_axes e); e_angle e]
                       (map (fun p => (Np.int16 (Z.of_nat (fst p)),
                                       Np.int16 (Z.of_nat (snd p)))) cnt)
                       fr_count img_std))
          | Some _, None => (self, Raise TypeError)
          end in
        match rec with
        | Ok rec =>
            if (Z.land (waitKey cap) 255 =? 113)%Z
            then (self, Raise (PipelineException "Tracking aborted"))
            else (self, Ok rec)
        | Raise err => (self, Raise err)
        end
  end.

(** The [while] loop over the reads that remain. *)
Fixpoint track_loop (self : PupilTracker) (small_mask : Np.image)
    (eye_roi : roi) (fr_count : Z) (caps : list (capture frame))
    (traces : list trace) : PupilTracker * result (list trace) :=
  match caps with
  | [] => (self, Ok traces)
  | cap :: caps =>
      let fr_count := (fr_count + 1)%Z in
      match track_frame self small_mask eye_roi fr_count cap with
      | (self, Ok rec) =>
          track_loop self small_mask eye_roi fr_count caps (traces ++ [rec])
      | (self, Raise e) => (self, Raise e)
      end
  end.

(** The reads the loop performs: [frame_count] of them, a read past the
    end of the stream returning no frame. *)
Definition performed_reads (v : video frame) : list (capture frame) :=
  if isOpened v then
    map (fun i => nth i (reads v) {| read := None; waitKey := (-1)%Z |})
        (seq 0 (Z.to_nat (frame_count v)))
  else [].

(** [self._mask[slice(...), slice(...)]], or an all-ones mask of the size
    of the region of interest. *)
Definition small_mask_of (self : PupilTracker) (eye_roi : roi) : Np.image :=
  match _mask self with
  | Some m => Np.crop eye_roi m
  | None => Np.ones (snd (fst eye_roi) - fst (fst eye_roi),
                     snd (snd eye_roi) - fst (snd eye_roi))%nat
  end.

(** [track(videofile, eye_roi)]. *)
Definition track (self : PupilTracker) (v : video frame) (eye_roi : roi)
  : PupilTracker * result (list trace) :=
  track_loop self (small_mask_of self eye_roi) eye_roi 0
             (performed_reads v) [].

End Tracker.

(** ** Vocabulary of the properties *)

Section Frames.

Context {frame : Type} {cv : CV2 frame}.

Definition preprocessed : Type :=
  (PupilTracker * (Np.image * Np.image * R * Np.image * Np.image))%type.

Definition small_gray_of (r : preprocessed) : Np.image := snd (fst (fst (fst (snd r)))).
Definition img_std_of (r : preprocessed) : R := snd (fst (fst (snd r))).
Definition thres_of (r : preprocessed) : Np.image := snd (fst (snd r)).
Definition blur_of (r : preprocessed) : Np.image := snd (snd r).

(** The call of [get_pupil_from_contours] that [track] makes on a frame
    that passed the contrast gate. *)
Definition scoring (self : PupilTracker) (small_mask : Np.image) (eye_roi : roi)
    (fr : frame) : PupilTracker * (option contour * option ellipse) :=
  let pre := preprocess_image self fr eye_roi in
  get_pupil_from_contours (fst pre)
    (findContours (apply_masks (fst pre) small_mask (thres_of pre)))
    (blur_of pre) small_mask.

(** The frame was read and its contrast is below the threshold. *)
Definition low_contrast (self : PupilTracker) (eye_roi : roi) (cap : capture frame)
  : Prop :=
  exists fr, read cap = Some fr
    /\ img_std_of (preprocess_image self fr eye_roi)
       < contrast_threshold (_params self).

(** The frame was read and passed the contrast gate: contour scoring runs. *)
Definition scored (self : PupilTracker) (eye_roi : roi) (cap : capture frame)
    (fr : frame) : Prop :=
  read cap = Some fr
  /\ ~ img_std_of (preprocess_image self fr eye_roi)
       < contrast_threshold (_params self).

(** Contour scoring runs and returns no best ellipse. *)
Definition no_detection (self : PupilTracker) (small_mask : Np.image)
    (eye_roi : roi) (cap : capture frame) : Prop :=
  exists fr, scored self eye_roi cap fr
    /\ snd (snd (scoring self small_mask eye_roi fr)) = None.

(** Contour scoring runs and selects the ellipse [e]. *)
Definition detection (self : PupilTracker) (small_mask : Np.image)
    (eye_roi : roi) (cap : capture frame) (e : ellipse) : Prop :=
  exists fr, scored self eye_roi cap fr
    /\ snd (snd (scoring self small_mask eye_roi fr)) = Some e.

(** The tracker after the frames [caps], numbered from [fr_count + 1]. *)
Definition after_frames (self : PupilTracker) (small_mask : Np.image)
    (eye_roi : roi) (fr_count : Z) (caps : list (capture frame)) : PupilTracker :=
  fst (track_loop self small_mask eye_roi fr_count caps []).

(** The key read at the end of the frame is not [q]. *)
Definition uninterrupted (cap : capture frame) : Prop :=
  Z.land (waitKey cap) 255 <> 113%Z.

(** Every frame of [caps], processed in turn from [self], is a
    no-detection frame, and none is interrupted. *)
Fixpoint no_detection_run (self : PupilTracker) (small_mask : Np.image)
    (eye_roi : roi) (fr_count : Z) (caps : list (capture frame)) : Prop :=
  match caps with
  | [] => True
  | cap :: caps =>
      no_detection self small_mask eye_roi cap
      /\ uninterrupted cap
      /\ no_detection_run
           (fst (track_frame self small_mask eye_roi (fr_count + 1) cap))
           small_mask eye_roi (fr_count + 1) caps
  end.

(** No frame of [caps], processed in turn from [self], has a detection. *)
Fixpoint no_success_run (self : PupilTracker) (small_mask : Np.image)
    (eye_roi : roi) (fr_count : Z) (caps : list (capture frame)) : Prop :=
  match caps with
  | [] => True
  | cap :: caps =>
      (forall e, ~ detection self small_mask eye_roi cap e)
      /\ no_success_run
           (fst (track_frame self small_mask eye_roi (fr_count + 1) cap))
           small_mask eye_roi (fr_count + 1) caps
  end.

(** The three loop variables of [get_pupil_from_contours] are set
    together. *)
Definition together (acc : best) : Prop :=
  acc = (None, None, None)
  \/ exists r e c, acc = (Some r, Some e, Some c).

(** The scored candidates of a call of [get_pupil_from_contours], in
    evaluation order. *)
Definition candidates (self : PupilTracker) (mask : Np.image)
    (contours : list contour) : list (contour * ellipse) :=
  flat_map (fun cnt => match fit_contour self mask cnt with
                       | Some ce => [ce]
                       | None => []
                       end) contours.

End Frames.

Definition rmse (ce : contour * ellipse) : R := goodness_of_fit (fst ce) (snd ce).

Definition full_match (self : PupilTracker) (shape : nat * nat)
    (ce : contour * ellipse) : Prop :=
  matching_conditions self shape (fst ce) (snd ce) = 7%Z.

(** What the loop variables of [get_pupil_from_contours] hold once the
    candidates [seen] have been visited: nothing when none of them is a full
    match, otherwise the first of the full matches of least [rmse]. *)
Definition selection (self : PupilTracker) (shape : nat * nat)
    (seen : list (contour * ellipse))
    (acc : option R * option ellipse * option contour) : Prop :=
  (acc = (None, None, None)
   /\ forall ce, In ce seen -> ~ full_match self shape ce)
  \/ (exists i ce,
        nth_error seen i = Some ce
        /\ full_match self shape ce
        /\ acc = (Some (rmse ce), Some (snd ce), Some (fst ce))
        /\ forall j ce', nth_error seen j = Some ce' ->
             full_match self shape ce' ->
             rmse ce <= rmse ce' /\ ((j < i)%nat -> rmse ce < rmse ce')).

(** The seven acceptance tests, as propositions. *)
Definition all_criteria (self : PupilTracker) (shape : nat * nat)
    (cnt : contour) (e : ellipse) : Prop :=
  let p := _params self in
  let axes := e_axes e in
  let center := center_of (e_center e) shape in
  ratio_of axes <= ratio_threshold p
  /\ relative_area_threshold p <= area_of axes shape
  /\ goodness_of_fit cnt e < error_threshold p
  /\ (margin p < fst center /\ fst center < 1 - margin p)
  /\ (margin p < snd center /\ snd center < 1 - margin p)
  /\ dx_of self center < speed_threshold p * IZR (_last_detection self)
  /\ dr_of self (Rmax (fst axes) (snd axes))
     < dr_threshold p * IZR (_last_detection self).

(** *** Wording of the specification, for comparison *)

(** A contour point in the local frame of the ellipse: translated by
    [-center], rotated by [-angle] (degrees). *)
Definition local_frame (center : R * R) (angle : R) (p : point) : R * R :=
  let a := - (angle * (PI / 180)) in
  let tx := px p - fst center in
  let ty := py p - snd center in
  (tx * cos a - ty * sin a, tx * sin a + ty * cos a).

(** The normalized conic residual of a local point for divisors [a], [b]. *)
Definition conic_residual (a b : R) (xy : R * R) : R :=
  ((fst xy / a) ^ 2 + (snd xy / b) ^ 2 - 0.25) ^ 2.

(** Square root of the mean residual over the points of the contour. *)
Definition rms_residual (a b : R) (cnt : contour) (e : ellipse) : R :=
  sqrt (Np.mean (map (fun p => conic_residual a b
                                 (local_frame (e_center e) (e_angle e) p)) cnt)).


(** The area of the ellipse, [pi * major * minor / 4], over the area of the
    crop. *)
Definition geometric_relative_area (axes : R * R) (shape : nat * nat) : R :=
  (PI * Rmax (fst axes) (snd axes) * Rmin (fst axes) (snd axes) / 4)
  / INR (fst shape * snd shape).

(** A configuration that the specification calls malformed. *)
Definition malformed (p : params) : Prop :=
  (min_contour_len p < 5)%Z
  \/ (gaussian_blur p <= 0)%Z
  \/ ~ (0 < margin p < 1 / 2).

(** ** A concrete OpenCV, for examples *)

Module Demo.

(** Five pixels of the circle of centre (5, 5) and diameter 10. *)
Definition ring : contour := [(5, 0); (0, 5); (2, 1); (8, 1); (1, 2)]%nat.

Definition circle : ellipse := ((5, 5), (10, 10), 0).

(** Frames are gray already; blur and threshold change nothing; one
    contour is found when the top-left pixel is lit; every fit is
    [circle]. *)
Definition cv : CV2 Np.image := {|
  cvtColor := fun fr => fr;
  GaussianBlur := fun img _ => img;
  threshold := fun img => img;
  findContours := fun img => if (0 <? Np.pixel img 0 0)%Z then [ring] else [];
  erode := fun img => img;
  dilate := fun img _ => img;
  filled_ellipse := fun sh _ => Np.ones sh;
  fitEllipse := fun _ => circle
|}.

Definition lit : Np.image := Np.ones (10, 10)%nat.
Definition dark : Np.image := repeat (repeat 0%Z 10) 10.

Definition whole : roi := ((0, 10), (0, 10))%nat.

Definition p0 : params := {|
  relative_area_threshold := 1 / 2;
  ratio_threshold := 2;
  error_threshold := 1 / 10;
  min_contour_len := 5;
  margin := 1 / 10;
  contrast_threshold := 0;
  speed_threshold := 1 / 10;
  dr_threshold := 1 / 10;
  gaussian_blur := 1;
  extreme_meso := None;
  running_avg := 1 / 2;
  exponent := 2
|}.

(** A freshly constructed tracker. *)
Definition fresh : PupilTracker :=
  {| _params := p0; _center := None; _radius := None; _mask := None;
     _last_detection := 1; _last_ellipse := None; _running_avg := None |}.

(** The tracker after a detection of [circle]. *)
Definition locked : PupilTracker :=
  {| _params := p0; _center := Some (1 / 2, 1 / 2); _radius := Some 10;
     _mask := None; _last_detection := 1; _last_ellipse := Some circle;
     _running_avg := None |}.

Definition shot (img : Np.image) : capture Np.image :=
  {| read := Some img; waitKey := (-1)%Z |}.

(** The same configuration with a contrast threshold of 5. *)
Definition p5 : params := {|
  relative_area_threshold := 1 / 2;
  ratio_threshold := 2;
  error_threshold := 1 / 10;
  min_contour_len := 5;
  margin := 1 / 10;
  contrast_threshold := 5;
  speed_threshold := 1 / 10;
  dr_threshold := 1 / 10;
  gaussian_blur := 1;
  extreme_meso := None;
  running_avg := 1 / 2;
  exponent := 2
|}.

Definition gated : PupilTracker :=
  {| _params := p5; _center := Some (1 / 2, 1 / 2); _radius := Some 10;
     _mask := None; _last_detection := 3; _last_ellipse := Some circle;
     _running_avg := None |}.

(** A frame of two pixels, black and white, and its left pixel as region
    of interest. *)
Definition half_lit : Np.image := [[0; 255]]%Z.
Definition left_pixel : roi := ((0, 1), (0, 1))%nat.

(** A configuration with a contour length below 5, a blur half-width of 0
    and a margin above 1/2. *)
Definition bad : params := {|
  relative_area_threshold := 1 / 2;
  ratio_threshold := 2;
  error_threshold := 1 / 10;
  min_contour_len := 4;
  margin := 7 / 10;
  contrast_threshold := 5;
  speed_threshold := 1 / 10;
  dr_threshold := 1 / 10;
  gaussian_blur := 0;
  extreme_meso := None;
  running_avg := 1 / 2;
  exponent := 2
|}.


(** The 'extreme meso' mode, with exponent 2 and decay 1/2. *)
Definition p_meso : params := {|
  relative_area_threshold := 1 / 2;
  ratio_threshold := 2;
  error_threshold := 1 / 10;
  min_contour_len := 5;
  margin := 1 / 10;
  contrast_threshold := 0;
  speed_threshold := 1 / 10;
  dr_threshold := 1 / 10;
  gaussian_blur := 1;
  extreme_meso := Some true;
  running_avg := 1 / 2;
  exponent := 2
|}.

Definition meso : PupilTracker :=
  {| _params := p_meso; _center := None; _radius := None; _mask := None;
     _last_detection := 1; _last_ellipse := None; _running_avg := None |}.

(** A frame of one pixel of value 51. *)
Definition dim : Np.image := [[51]]%Z.

End Demo.

(** ** Further vocabulary *)

(** The ['frame_id'] entry of a dictionary of [traces]. *)
Definition frame_id (t : trace) : Z :=
  match t with
  | Dropped n => n
  | Untracked n _ => n
  | Tracked _ _ _ _ n _ => n
  end.

(** The dictionary is the one of a detection. *)
Definition is_tracked (t : trace) : bool :=
  match t with
  | Tracked _ _ _ _ _ _ => true
  | _ => false
  end.

(** The frame numbers [n + 1, ..., n + k]. *)
Definition frame_ids (n : Z) (k : nat) : list Z :=
  map (fun i => (n + 1 + Z.of_nat i)%Z) (seq 0 k).

(** An array whose entries are 8-bit values. *)
Definition image_ok (a : Np.image) : Prop :=
  Forall (Forall (fun v => (0 <= v <= 255)%Z)) a.

(** A float array whose entries lie between 0 and 255. *)
Definition in_range (a : Np.fimage) : Prop :=
  Forall (Forall (fun x => 0 <= x <= 255)) a.

(** A two-dimensional array of [h] rows of [w] entries. *)
Definition rectangular {A : Type} (h w : nat) (a : list (list A)) : Prop :=
  length a = h /\ Forall (fun row => length row = w) a.

(** The entry of row [i] and column [j] of an array is [v]. *)
Definition entry {A : Type} (a : list (list A)) (i j : nat) (v : A) : Prop :=
  exists row, nth_error a i = Some row /\ nth_error row j = Some v.

(** The tracker with its failure counter set to [k]. *)
Definition with_counter (k : Z) (self : PupilTracker) : PupilTracker :=
  set_last_detection k self.

Module Sample.

(** The configuration of [Demo.p0] with a speed threshold of 0. *)
Definition p_still : params := {|
  relative_area_threshold := 1 / 2;
  ratio_threshold := 2;
  error_threshold := 1 / 10;
  min_contour_len := 5;
  margin := 1 / 10;
  contrast_threshold := 0;
  speed_threshold := 0;
  dr_threshold := 1 / 10;
  gaussian_blur := 1;
  extreme_meso := None;
  running_avg := 1 / 2;
  exponent := 2
|}.

Definition still : PupilTracker :=
  {| _params := p_still; _center := None; _radius := None; _mask := None;
     _last_detection := 1; _last_ellipse := None; _running_avg := None |}.


(** A read that returns no frame. *)
Definition no_frame : capture Np.image :=
  {| read := None; waitKey := (-1)%Z |}.

(** A video of a lit and a dark frame that announces four frames. *)
Definition clip : video Np.image :=
  {| isOpened := true; frame_count := 4;
     reads := [Demo.shot Demo.lit; Demo.shot Demo.dark] |}.

(** A video that opens, announces three frames and yields none. *)
Definition blank : video Np.image :=
  {| isOpened := true; frame_count := 3; reads := [] |}.

(** A tracker in the 'extreme meso' mode that holds an average. *)
Definition warm : PupilTracker :=
  {| _params := Demo.p_meso; _center := None; _radius := None; _mask := None;
     _last_detection := 1; _last_ellipse := None;
     _running_avg := Some [[51 / 5]] |}.

End Sample.

(** ** Errors of the helpers and of the manual tracker *)

Inductive error : Type :=
| ZeroDivisionError
| IndexError
| AttributeError
| ValueError.

Inductive outcome (A : Type) : Type :=
| Returns (a : A)
| Raises (e : error).
Arguments Returns {A} a.
Arguments Raises {A} e.

(** ** [restrict_to_long_axis] *)

(** The body of [restrict_to_long_axis] on an array of rows: the contour
    in the frame of the ellipse ([np.dot(contour - center, R.T)]), the
    points whose first local coordinate is within the corridor, and these
    taken back ([np.dot(contour, R) + center]) and cast to integers. *)
Definition restrict_rows (cnt : contour) (e : ellipse) (corridor : R)
  : list (Z * Z) :=
  let '(center, size, angle) := e in
  let angle := angle * (PI / 180) in
  let R00 := cos (- angle) in
  let R01 := - sin (- angle) in
  let R10 := sin (- angle) in
  let R11 := cos (- angle) in
  let local :=
    map (fun p => let vx := px p - fst center in
                  let vy := py p - snd center in
                  (vx * R00 + vy * R01, vx * R10 + vy * R11)) cnt in
  let kept :=
    filter (fun q => Rltb (Rabs (fst q)) (corridor * snd size / 2)) local in
  map (fun q => (Np.trunc (fst q * R00 + snd q * R10 + fst center),
                 Np.trunc (fst q * R01 + snd q * R11 + snd center))) kept.

(** [PupilTracker.restrict_to_long_axis(contour, ellipse, corridor)].
    [contour.squeeze()] turns a contour of one point into a vector of two
    numbers, on which the row selection [contour[:, 0]] raises
    [IndexError]; any other contour stays an array of rows. *)
Definition restrict_to_long_axis (cnt : contour) (e : ellipse) (corridor : R)
  : outcome (list (Z * Z)) :=
  match cnt with
  | [_] => Raises IndexError
  | _ => Returns (restrict_rows cnt e corridor)
  end.

(** *** Wording of the property, for comparison *)

(** The first local coordinate of a contour point. *)
Definition across (e : ellipse) (p : point) : R :=
  fst (local_frame (e_center e) (e_angle e) p).

(** ** [adjust_gamma] *)

(** The lookup table of [adjust_gamma]: entry [i] is
    [((i / 255.0) ** invGamma) * 255] as 8 bits, for [i] from 0 to 255. *)
Definition gamma_table (invGamma : R) : list Z :=
  map (fun i => Np.uint8 (Np.power (IZR (Z.of_nat i) / 255) invGamma * 255))
      (seq 0 256).

(** [cv2.LUT(image, table)] on an 8-bit image. *)
Definition LUT (image : Np.image) (table : list Z) : Np.image :=
  map (map (fun v => nth (Z.to_nat v) table 0%Z)) image.

(** [adjust_gamma(image, gamma)]; [1.0 / gamma] raises for a zero
    [gamma]. *)
Definition adjust_gamma (image : Np.image) (gamma : R) : outcome Np.image :=
  if Reqb gamma 0 then Raises ZeroDivisionError
  else
    let invGamma := 1 / gamma in
    Returns (LUT image (gamma_table invGamma)).

(** ** Regions of interest from a drag *)

(** The region of interest that [CVROIGrabber.__call__] and
    [ManualTracker.mouse_callback] compute from the two corners of a drag:
    [tmp = (min x, min y, max x, max y)] and
    [[[tmp[1], tmp[3]], [tmp[0], tmp[2]]] + 1]. *)
Definition drag_roi (start end_ : Z * Z) : (Z * Z) * (Z * Z) :=
  let tmp0 := Z.min (fst start) (fst end_) in
  let tmp1 := Z.min (snd start) (snd end_) in
  let tmp2 := Z.max (fst start) (fst end_) in
  let tmp3 := Z.max (snd start) (snd end_) in
  ((tmp1 + 1, tmp3 + 1), (tmp0 + 1, tmp2 + 1))%Z.

(** The property [ROIGrabber.roi], whose corners are floats: the same
    array, cast with [dtype=int] before 1 is added. *)
Definition float_roi (start end_ : R * R) : (Z * Z) * (Z * Z) :=
  let tmp0 := Rmin (fst start) (fst end_) in
  let tmp1 := Rmin (snd start) (snd end_) in
  let tmp2 := Rmax (fst start) (fst end_) in
  let tmp3 := Rmax (snd start) (snd end_) in
  ((Np.trunc tmp1 + 1, Np.trunc tmp3 + 1),
   (Np.trunc tmp0 + 1, Np.trunc tmp2 + 1))%Z.

(** The two ranges as slice bounds. *)
Definition as_roi (r : (Z * Z) * (Z * Z)) : roi :=
  ((Z.to_nat (fst (fst r)), Z.to_nat (snd (fst r))),
   (Z.to_nat (fst (snd r)), Z.to_nat (snd (snd r)))).

(** ** Assignments into numpy arrays *)

Fixpoint update_nth {A : Type} (i : nat) (v : A) (l : list A) : list A :=
  match l, i with
  | [], _ => []
  | _ :: l, O => v :: l
  | x :: l, S i => x :: update_nth i v l
  end.

(** [a[i] = v]: a negative index counts from the end, an index outside of
    the array is an [IndexError] ([None]). *)
Definition np_setitem {A : Type} (l : list A) (i : Z) (v : A) : option (list A) :=
  let n := Z.of_nat (length l) in
  if ((0 <=? i) && (i <? n))%Z then Some (update_nth (Z.to_nat i) v l)
  else if ((- n <=? i) && (i <? 0))%Z then Some (update_nth (Z.to_nat (n + i)) v l)
  else None.

(** [a[lo:hi] = v] for bounds that are not negative. *)
Definition np_setslice {A : Type} (l : list A) (lo hi : Z) (v : A) : list A :=
  map (fun ix => if ((lo <=? Z.of_nat (fst ix)) && (Z.of_nat (fst ix) <? hi))%Z
                 then v else snd ix)
      (combine (seq 0 (length l)) l).

(** ** The manual tracker *)

(** The drawing calls of [ManualTracker] on its mask. *)
Class Canvas (M : Type) : Type := {
  (** [cv2.circle(mask, centre, radius, (v, v, v), -1)] *)
  circle : M -> Z * Z -> Z -> Z -> M;
  (** [np.ones_like(mask) * 255] *)
  ones_like_255 : option M -> option M
}.

(** The events that the mouse callbacks tell apart. *)
Inductive mouse_event : Type :=
| EVENT_LBUTTONDOWN
| EVENT_RBUTTONDOWN
| EVENT_MBUTTONDOWN
| EVENT_LBUTTONUP
| EVENT_RBUTTONUP
| EVENT_OTHER.

Module Manual.

(** The attributes of a [ManualTracker] inside [run], that the key, mouse
    and trackbar callbacks read or write.  [_cap_pos] is the position last
    given to [self._cap.set(cv2.CAP_PROP_POS_FRAMES, ...)]; [t0_tmp] and
    [del_tmp] do not exist before their first assignment. *)
Record ManualTracker (M : Type) : Type := {
  pause : bool;
  step : Z;
  _frame_number : Z;
  _n_frames : Z;
  _cap_pos : Z;
  _mask : option M;
  brush : Z;
  jump_frame : Z;
  start : option (Z * Z);
  end_ : option (Z * Z);
  roi : option ((Z * Z) * (Z * Z));
  t0 : Z;
  t1 : Z;
  blur : Z;
  power : Z;
  dilation_iter : Z;
  histogram_equalize : bool;
  min_contour_len : Z;
  skip : bool;
  help : bool;
  _scale_factor : option R;
  update_frame : bool;
  contours_detected : list bool;
  contours : list (option contour);
  t0_tmp : option Z;
  del_tmp : option Z
}.
Arguments pause {M} m.
Arguments step {M} m.
Arguments _frame_number {M} m.
Arguments _n_frames {M} m.
Arguments _cap_pos {M} m.
Arguments _mask {M} m.
Arguments brush {M} m.
Arguments jump_frame {M} m.
Arguments start {M} m.
Arguments end_ {M} m.
Arguments roi {M} m.
Arguments t0 {M} m.
Arguments t1 {M} m.
Arguments blur {M} m.
Arguments power {M} m.
Arguments dilation_iter {M} m.
Arguments histogram_equalize {M} m.
Arguments min_contour_len {M} m.
Arguments skip {M} m.
Arguments help {M} m.
Arguments _scale_factor {M} m.
Arguments update_frame {M} m.
Arguments contours_detected {M} m.
Arguments contours {M} m.
Arguments t0_tmp {M} m.
Arguments del_tmp {M} m.

Section Callbacks.

Context {M : Type} {canvas : Canvas M}.

Definition with_pause (v : bool) (s : ManualTracker M) : ManualTracker M :=
  {| pause := v; step := step s; _frame_number := _frame_number s;
     _n_frames := _n_frames s; _cap_pos := _cap_pos s; _mask := _mask s;
     brush := brush s; jump_frame := jump_frame s; start := start s;
     end_ := end_ s; roi := roi s; t0 := t0 s; t1 := t1 s; blur := blur s;
     power := power s; dilation_iter := dilation_iter s;
     histogram_equalize := histogram_equalize s;
     min_contour_len := min_contour_len s; skip := skip s; help := help s;
     _scale_factor := _scale_factor s; update_frame := update_frame s;
     contours_detected := contours_detected s; contours := contours s;
     t0_tmp := t0_tmp s; del_tmp := del_tmp s |}.

Definition with_step (v : Z) (s : ManualTracker M) : ManualTracker M :=
  {| pause := pause s; step := v; _frame_number := _frame_number s;
     _n_frames := _n_frames s; _cap_pos := _cap_pos s; _mask := _mask s;
     brush := brush s; jump_frame := jump_frame s; start := start s;
     end_ := end_ s; roi := roi s; t0 := t0 s; t1 := t1 s; blur := blur s;
     power := power s; dilation_iter := dilation_iter s;
     histogram_equalize := histogram_equalize s;
     min_contour_len := min_contour_len s; skip := skip s; help := help s;
     _scale_factor := _scale_factor s; update_frame := update_frame s;
     contours_detected := contours_detected s; contours := contours s;
     t0_tmp := t0_tmp s; del_tmp := del_tmp s |}.

Definition with_frame_number (v : Z) (s : ManualTracker M) : ManualTracker M :=
  {| pause := pause s; step := step s; _frame_number := v;
     _n_frames := _n_frames s; _cap_pos := _cap_pos s; _mask := _mask s;
     brush := brush s; jump_frame := jump_frame s; start := start s;
     end_ := end_ s; roi := roi s; t0 := t0 s; t1 := t1 s; blur := blur s;
     power := power s; dilation_iter := dilation_iter s;
     histogram_equalize := histogram_equalize s;
     min_contour_len := min_contour_len s; skip := skip s; help := help s;
     _scale_factor := _scale_factor s; update_frame := update_frame s;
     contours_detected := contours_detected s; contours := contours s;
     t0_tmp := t0_tmp s; del_tmp := del_tmp s |}.

Definition with_n_frames (v : Z) (s : ManualTracker M) : ManualTracker M :=
  {| pause := pause s; step := step s; _frame_number := _frame_number s;
     _n_frames := v; _cap_pos := _cap_pos s; _mask := _mask s;
     brush := brush s; jump_frame := jump_frame s; start := start s;
     end_ := end_ s; roi := roi s; t0 := t0 s; t1 := t1 s; blur := blur s;
     power := power s; dilation_iter := dilation_iter s;
     histogram_equalize := histogram_equalize s;
     min_contour_len := min_contour_len s; skip := skip s; help := help s;
     _scale_factor := _scale_factor s; update_frame := update_frame s;
     contours_detected := contours_detected s; contours := contours s;
     t0_tmp := t0_tmp s; del_tmp := del_tmp s |}.

Definition with_cap_pos (v : Z) (s : ManualTracker M) : ManualTracker M :=
  {| pause := pause s; step := step s; _frame_number := _frame_number s;
     _n_frames := _n_frames s; _cap_pos := v; _mask := _mask s;
     brush := brush s; jump_frame := jump_frame s; start := start s;
     end_ := end_ s; roi := roi s; t0 := t0 s; t1 := t1 s; blur := blur s;
     power := power s; dilation_iter := dilation_iter s;
     histogram_equalize := histogram_equalize s;
     min_contour_len := min_contour_len s; skip := skip s; help := help s;
     _scale_factor := _scale_factor s; update_frame := update_frame s;
     contours_detected := contours_detected s; contours := contours s;
     t0_tmp := t0_tmp s; del_tmp := del_tmp s |}.

Definition with_mask (v : option M) (s : ManualTracker M) : ManualTracker M :=
  {| pause := pause s; step := step s; _frame_number := _frame_number s;
     _n_frames := _n_frames s; _cap_pos := _cap_pos s; _mask := v;
     brush := brush s; jump_frame := jump_frame s; start := start s;
     end_ := end_ s; roi := roi s; t0 := t0 s; t1 := t1 s; blur := blur s;
     power := power s; dilation_iter := dilation_iter s;
     histogram_equalize := histogram_equalize s;
     min_contour_len := min_contour_len s; skip := skip s; help := help s;
     _scale_factor := _scale_factor s; update_frame := update_frame s;
     contours_detected := contours_detected s; contours := contours s;
     t0_tmp := t0_tmp s; del_tmp := del_tmp s |}.

Definition with_brush (v : Z) (s : ManualTracker M) : ManualTracker M :=
  {| pause := pause s; step := step s; _frame_number := _frame_number s;
     _n_frames := _n_frames s; _cap_pos := _cap_pos s; _mask := _mask s;
     brush := v; jump_frame := jump_frame s; start := start s;
     end_ := end_ s; roi := roi s; t0 := t0 s; t1 := t1 s; blur := blur s;
     power := power s; dilation_iter := dilation_iter s;
     histogram_equalize := histogram_equalize s;
     min_contour_len := min_contour_len s; skip := skip s; help := help s;
     _scale_factor := _scale_factor s; update_frame := update_frame s;
     contours_detected := contours_detected s; contours := contours s;
     t0_tmp := t0_tmp s; del_tmp := del_tmp s |}.

Definition with_jump_frame (v : Z) (s : ManualTracker M) : ManualTracker M :=
  {| pause := pause s; step := step s; _frame_number := _frame_number s;
     _n_frames := _n_frames s; _cap_pos := _cap_pos s; _mask := _mask s;
     brush := brush s; jump_frame := v; start := start s; end_ := end_ s;
     roi := roi s; t0 := t0 s; t1 := t1 s; blur := blur s; power := power s;
     dilation_iter := dilation_iter s;
     histogram_equalize := histogram_equalize s;
     min_contour_len := min_contour_len s; skip := skip s; help := help s;
     _scale_factor := _scale_factor s; update_frame := update_frame s;
     contours_detected := contours_detected s; contours := contours s;
     t0_tmp := t0_tmp s; del_tmp := del_tmp s |}.

Definition with_start (v : option (Z * Z)) (s : ManualTracker M) : ManualTracker M :=
  {| pause := pause s; step := step s; _frame_number := _frame_number s;
     _n_frames := _n_frames s; _cap_pos := _cap_pos s; _mask := _mask s;
     brush := brush s; jump_frame := jump_frame s; start := v;
     end_ := end_ s; roi := roi s; t0 := t0 s; t1 := t1 s; blur := blur s;
     power := power s; dilation_iter := dilation_iter s;
     histogram_equalize := histogram_equalize s;
     min_contour_len := min_contour_len s; skip := skip s; help := help s;
     _scale_factor := _scale_factor s; update_frame := update_frame s;
     contours_detected := contours_detected s; contours := contours s;
     t0_tmp := t0_tmp s; del_tmp := del_tmp s |}.

Definition with_end_ (v : option (Z * Z)) (s : ManualTracker M) : ManualTracker M :=
  {| pause := pause s; step := step s; _frame_number := _frame_number s;
     _n_frames := _n_frames s; _cap_pos := _cap_pos s; _mask := _mask s;
     brush := brush s; jump_frame := jump_frame s; start := start s;
     end_ := v; roi := roi s; t0 := t0 s; t1 := t1 s; blur := blur s;
     power := power s; dilation_iter := dilation_iter s;
     histogram_equalize := histogram_equalize s;
     min_contour_len := min_contour_len s; skip := skip s; help := help s;
     _scale_factor := _scale_factor s; update_frame := update_frame s;
     contours_detected := contours_detected s; contours := contours s;
     t0_tmp := t0_tmp s; del_tmp := del_tmp s |}.

Definition with_roi (v : option ((Z * Z) * (Z * Z))) (s : ManualTracker M) : ManualTracker M :=
  {| pause := pause s; step := step s; _frame_number := _frame_number s;
     _n_frames := _n_frames s; _cap_pos := _cap_pos s; _mask := _mask s;
     brush := brush s; jump_frame := jump_frame s; start := start s;
     end_ := end_ s; roi := v; t0 := t0 s; t1 := t1 s; blur := blur s;
     power := power s; dilation_iter := dilation_iter s;
     histogram_equalize := histogram_equalize s;
     min_contour_len := min_contour_len s; skip := skip s; help := help s;
     _scale_factor := _scale_factor s; update_frame := update_frame s;
     contours_detected := contours_detected s; contours := contours s;
     t0_tmp := t0_tmp s; del_tmp := del_tmp s |}.

Definition with_t0 (v : Z) (s : ManualTracker M) : ManualTracker M :=
  {| pause := pause s; step := step s; _frame_number := _frame_number s;
     _n_frames := _n_frames s; _cap_pos := _cap_pos s; _mask := _mask s;
     brush := brush s; jump_frame := jump_frame s; start := start s;
     end_ := end_ s; roi := roi s; t0 := v; t1 := t1 s; blur := blur s;
     power := power s; dilation_iter := dilation_iter s;
     histogram_equalize := histogram_equalize s;
     min_contour_len := min_contour_len s; skip := skip s; help := help s;
     _scale_factor := _scale_factor s; update_frame := update_frame s;
     contours_detected := contours_detected s; contours := contours s;
     t0_tmp := t0_tmp s; del_tmp := del_tmp s |}.

Definition with_t1 (v : Z) (s : ManualTracker M) : ManualTracker M :=
  {| pause := pause s; step := step s; _frame_number := _frame_number s;
     _n_frames := _n_frames s; _cap_pos := _cap_pos s; _mask := _mask s;
     brush := brush s; jump_frame := jump_frame s; start := start s;
     end_ := end_ s; roi := roi s; t0 := t0 s; t1 := v; blur := blur s;
     power := power s; dilation_iter := dilation_iter s;
     histogram_equalize := histogram_equalize s;
     min_contour_len := min_contour_len s; skip := skip s; help := help s;
     _scale_factor := _scale_factor s; update_frame := update_frame s;
     contours_detected := contours_detected s; contours := contours s;
     t0_tmp := t0_tmp s; del_tmp := del_tmp s |}.

Definition with_blur (v : Z) (s : ManualTracker M) : ManualTracker M :=
  {| pause := pause s; step := step s; _frame_number := _frame_number s;
     _n_frames := _n_frames s; _cap_pos := _cap_pos s; _mask := _mask s;
     brush := brush s; jump_frame := jump_frame s; start := start s;
     end_ := end_ s; roi := roi s; t0 := t0 s; t1 := t1 s; blur := v;
     power := power s; dilation_iter := dilation_iter s;
     histogram_equalize := histogram_equalize s;
     min_contour_len := min_contour_len s; skip := skip s; help := help s;
     _scale_factor := _scale_factor s; update_frame := update_frame s;
     contours_detected := contours_detected s; contours := contours s;
     t0_tmp := t0_tmp s; del_tmp := del_tmp s |}.

Definition with_power (v : Z) (s : ManualTracker M) : ManualTracker M :=
  {| pause := pause s; step := step s; _frame_number := _frame_number s;
     _n_frames := _n_frames s; _cap_pos := _cap_pos s; _mask := _mask s;
     brush := brush s; jump_frame := jump_frame s; start := start s;
     end_ := end_ s; roi := roi s; t0 := t0 s; t1 := t1 s; blur := blur s;
     power := v; dilation_iter := dilation_iter s;
     histogram_equalize := histogram_equalize s;
     min_contour_len := min_contour_len s; skip := skip s; help := help s;
     _scale_factor := _scale_factor s; update_frame := update_frame s;
     contours_detected := contours_detected s; contours := contours s;
     t0_tmp := t0_tmp s; del_tmp := del_tmp s |}.

Definition with_dilation_iter (v : Z) (s : ManualTracker M) : ManualTracker M :=
  {| pause := pause s; step := step s; _frame_number := _frame_number s;
     _n_frames := _n_frames s; _cap_pos := _cap_pos s; _mask := _mask s;
     brush := brush s; jump_frame := jump_frame s; start := start s;
     end_ := end_ s; roi := roi s; t0 := t0 s; t1 := t1 s; blur := blur s;
     power := power s; dilation_iter := v;
     histogram_equalize := histogram_equalize s;
     min_contour_len := min_contour_len s; skip := skip s; help := help s;
     _scale_factor := _scale_factor s; update_frame := update_frame s;
     contours_detected := contours_detected s; contours := contours s;
     t0_tmp := t0_tmp s; del_tmp := del_tmp s |}.

Definition with_histogram_equalize (v : bool) (s : ManualTracker M) : ManualTracker M :=
  {| pause := pause s; step := step s; _frame_number := _frame_number s;
     _n_frames := _n_frames s; _cap_pos := _cap_pos s; _mask := _mask s;
     brush := brush s; jump_frame := jump_frame s; start := start s;
     end_ := end_ s; roi := roi s; t0 := t0 s; t1 := t1 s; blur := blur s;
     power := power s; dilation_iter := dilation_iter s;
     histogram_equalize := v; min_contour_len := min_contour_len s;
     skip := skip s; help := help s; _scale_factor := _scale_factor s;
     update_frame := update_frame s;
     contours_detected := contours_detected s; contours := contours s;
     t0_tmp := t0_tmp s; del_tmp := del_tmp s |}.

Definition with_min_contour_len (v : Z) (s : ManualTracker M) : ManualTracker M :=
  {| pause := pause s; step := step s; _frame_number := _frame_number s;
     _n_frames := _n_frames s; _cap_pos := _cap_pos s; _mask := _mask s;
     brush := brush s; jump_frame := jump_frame s; start := start s;
     end_ := end_ s; roi := roi s; t0 := t0 s; t1 := t1 s; blur := blur s;
     power := power s; dilation_iter := dilation_iter s;
     histogram_equalize := histogram_equalize s; min_contour_len := v;
     skip := skip s; help := help s; _scale_factor := _scale_factor s;
     update_frame := update_frame s;
     contours_detected := contours_detected s; contours := contours s;
     t0_tmp := t0_tmp s; del_tmp := del_tmp s |}.

Definition with_skip (v : bool) (s : ManualTracker M) : ManualTracker M :=
  {| pause := pause s; step := step s; _frame_number := _frame_number s;
     _n_frames := _n_frames s; _cap_pos := _cap_pos s; _mask := _mask s;
     brush := brush s; jump_frame := jump_frame s; start := start s;
     end_ := end_ s; roi := roi s; t0 := t0 s; t1 := t1 s; blur := blur s;
     power := power s; dilation_iter := dilation_iter s;
     histogram_equalize := histogram_equalize s;
     min_contour_len := min_contour_len s; skip := v; help := help s;
     _scale_factor := _scale_factor s; update_frame := update_frame s;
     contours_detected := contours_detected s; contours := contours s;
     t0_tmp := t0_tmp s; del_tmp := del_tmp s |}.

Definition with_help (v : bool) (s : ManualTracker M) : ManualTracker M :=
  {| pause := pause s; step := step s; _frame_number := _frame_number s;
     _n_frames := _n_frames s; _cap_pos := _cap_pos s; _mask := _mask s;
     brush := brush s; jump_frame := jump_frame s; start := start s;
     end_ := end_ s; roi := roi s; t0 := t0 s; t1 := t1 s; blur := blur s;
     power := power s; dilation_iter := dilation_iter s;
     histogram_equalize := histogram_equalize s;
     min_contour_len := min_contour_len s; skip := skip s; help := v;
     _scale_factor := _scale_factor s; update_frame := update_frame s;
     contours_detected := contours_detected s; contours := contours s;
     t0_tmp := t0_tmp s; del_tmp := del_tmp s |}.

Definition with_scale_factor (v : option R) (s : ManualTracker M) : ManualTracker M :=
  {| pause := pause s; step := step s; _frame_number := _frame_number s;
     _n_frames := _n_frames s; _cap_pos := _cap_pos s; _mask := _mask s;
     brush := brush s; jump_frame := jump_frame s; start := start s;
     end_ := end_ s; roi := roi s; t0 := t0 s; t1 := t1 s; blur := blur s;
     power := power s; dilation_iter := dilation_iter s;
     histogram_equalize := histogram_equalize s;
     min_contour_len := min_contour_len s; skip := skip s; help := help s;
     _scale_factor := v; update_frame := update_frame s;
     contours_detected := contours_detected s; contours := contours s;
     t0_tmp := t0_tmp s; del_tmp := del_tmp s |}.

Definition with_update_frame (v : bool) (s : ManualTracker M) : ManualTracker M :=
  {| pause := pause s; step := step s; _frame_number := _frame_number s;
     _n_frames := _n_frames s; _cap_pos := _cap_pos s; _mask := _mask s;
     brush := brush s; jump_frame := jump_frame s; start := start s;
     end_ := end_ s; roi := roi s; t0 := t0 s; t1 := t1 s; blur := blur s;
     power := power s; dilation_iter := dilation_iter s;
     histogram_equalize := histogram_equalize s;
     min_contour_len := min_contour_len s; skip := skip s; help := help s;
     _scale_factor := _scale_factor s; update_frame := v;
     contours_detected := contours_detected s; contours := contours s;
     t0_tmp := t0_tmp s; del_tmp := del_tmp s |}.

Definition with_contours_detected (v : list bool) (s : ManualTracker M) : ManualTracker M :=
  {| pause := pause s; step := step s; _frame_number := _frame_number s;
     _n_frames := _n_frames s; _cap_pos := _cap_pos s; _mask := _mask s;
     brush := brush s; jump_frame := jump_frame s; start := start s;
     end_ := end_ s; roi := roi s; t0 := t0 s; t1 := t1 s; blur := blur s;
     power := power s; dilation_iter := dilation_iter s;
     histogram_equalize := histogram_equalize s;
     min_contour_len := min_contour_len s; skip := skip s; help := help s;
     _scale_factor := _scale_factor s; update_frame := update_frame s;
     contours_detected := v; contours := contours s; t0_tmp := t0_tmp s;
     del_tmp := del_tmp s |}.

Definition with_contours (v : list (option contour)) (s : ManualTracker M) : ManualTracker M :=
  {| pause := pause s; step := step s; _frame_number := _frame_number s;
     _n_frames := _n_frames s; _cap_pos := _cap_pos s; _mask := _mask s;
     brush := brush s; jump_frame := jump_frame s; start := start s;
     end_ := end_ s; roi := roi s; t0 := t0 s; t1 := t1 s; blur := blur s;
     power := power s; dilation_iter := dilation_iter s;
     histogram_equalize := histogram_equalize s;
     min_contour_len := min_contour_len s; skip := skip s; help := help s;
     _scale_factor := _scale_factor s; update_frame := update_frame s;
     contours_detected := contours_detected s; contours := v;
     t0_tmp := t0_tmp s; del_tmp := del_tmp s |}.

Definition with_t0_tmp (v : option Z) (s : ManualTracker M) : ManualTracker M :=
  {| pause := pause s; step := step s; _frame_number := _frame_number s;
     _n_frames := _n_frames s; _cap_pos := _cap_pos s; _mask := _mask s;
     brush := brush s; jump_frame := jump_frame s; start := start s;
     end_ := end_ s; roi := roi s; t0 := t0 s; t1 := t1 s; blur := blur s;
     power := power s; dilation_iter := dilation_iter s;
     histogram_equalize := histogram_equalize s;
     min_contour_len := min_contour_len s; skip := skip s; help := help s;
     _scale_factor := _scale_factor s; update_frame := update_frame s;
     contours_detected := contours_detected s; contours := contours s;
     t0_tmp := v; del_tmp := del_tmp s |}.

Definition with_del_tmp (v : option Z) (s : ManualTracker M) : ManualTracker M :=
  {| pause := pause s; step := step s; _frame_number := _frame_number s;
     _n_frames := _n_frames s; _cap_pos := _cap_pos s; _mask := _mask s;
     brush := brush s; jump_frame := jump_frame s; start := start s;
     end_ := end_ s; roi := roi s; t0 := t0 s; t1 := t1 s; blur := blur s;
     power := power s; dilation_iter := dilation_iter s;
     histogram_equalize := histogram_equalize s;
     min_contour_len := min_contour_len s; skip := skip s; help := help s;
     _scale_factor := _scale_factor s; update_frame := update_frame s;
     contours_detected := contours_detected s; contours := contours s;
     t0_tmp := t0_tmp s; del_tmp := v |}.

(** [goto_frame(no)] *)
Definition goto_frame (no : Z) (s : ManualTracker M) : ManualTracker M :=
  let fn := Z.min (Z.max no 0) (_n_frames s - 1) in
  with_update_frame true (with_cap_pos fn (with_frame_number fn s)).

(** The trackbar callbacks. *)
Definition set_brush (v : Z) (s : ManualTracker M) : ManualTracker M :=
  with_brush v s.

Definition set_blur (v : Z) (s : ManualTracker M) : ManualTracker M :=
  with_blur v s.

Definition set_power (v : Z) (s : ManualTracker M) : ManualTracker M :=
  with_power v s.

Definition set_dilation (d : Z) (s : ManualTracker M) : ManualTracker M :=
  with_dilation_iter d s.

Definition set_min_contour (m : Z) (s : ManualTracker M) : ManualTracker M :=
  with_min_contour_len (Z.max m 5) s.

(** [process_key(key)]: the tracker after the key and the returned
    boolean.  The keys are compared with [ord('q')] = 113, [ord(' ')] = 32,
    [ord('s')] = 115, [ord('a')] = 97, [ord('b')] = 98, [ord('n')] = 110,
    [ord('e')] = 101, [ord('r')] = 114, [ord('d')] = 100, [ord('c')] = 99,
    [ord('f')] = 102, the digits 48 to 57, [ord('j')] = 106 and
    [ord('h')] = 104. *)
Definition process_key (key : Z) (s : ManualTracker M)
  : ManualTracker M * outcome bool :=
  if (key =? 113)%Z then (s, Returns false)
  else if (key =? 32)%Z then (with_pause (negb (pause s)) s, Returns true)
  else if (key =? 115)%Z then (with_skip (negb (skip s)) s, Returns true)
  else if (key =? 97)%Z then (with_t1 (_n_frames s) (with_t0 0 s), Returns true)
  else if (key =? 98)%Z then
    (goto_frame (_frame_number s - step s) s, Returns true)
  else if (key =? 110)%Z then
    (goto_frame (_frame_number s + 1) s, Returns true)
  else if (key =? 101)%Z then
    (with_histogram_equalize (negb (histogram_equalize s)) s, Returns true)
  else if (key =? 114)%Z then
    (with_roi None (with_end_ None (with_start None s)), Returns true)
  else if (key =? 100)%Z then
    match np_setitem (contours_detected s) (_frame_number s) false with
    | None => (s, Raises IndexError)
    | Some cd =>
        let s := with_contours_detected cd s in
        match np_setitem (contours s) (_frame_number s) None with
        | None => (s, Raises IndexError)
        | Some cs =>
            let s := with_contours cs s in
            (goto_frame (_frame_number s + 1) s, Returns true)
        end
    end
  else if (key =? 99)%Z then
    (with_mask (ones_like_255 (_mask s)) s, Returns true)
  else if (key =? 102)%Z then (with_jump_frame 0 s, Returns true)
  else if ((48 <=? key) && (key <? 58))%Z then
    let j := (jump_frame s * 10)%Z in
    let j := (j + (key - 48))%Z in
    (with_jump_frame (Z.min (_n_frames s) j) s, Returns true)
  else if (key =? 106)%Z then (goto_frame (jump_frame s) s, Returns true)
  else if (key =? 104)%Z then (with_help (negb (help s)) s, Returns true)
  else (s, Returns true).

(** [self._progress_len], set to 800 by [__init__] and not assigned again. *)
Definition _progress_len : Z := 800.

(** [sanitize = lambda t: int(max(min(t, self._n_frames - 1), 0))] *)
Definition sanitize (s : ManualTracker M) (t : R) : Z :=
  Np.trunc (Rmax (Rmin t (IZR (_n_frames s - 1))) 0).

(** [graph_mouse_callback(event, x, y, flags, param)]; only [event] and [x]
    are read. *)
Definition graph_mouse_callback (event : mouse_event) (x : Z)
    (s : ManualTracker M) : ManualTracker M * outcome unit :=
  let dt := (t1 s - t0 s)%Z in
  let here := sanitize s (IZR (t0 s) + IZR x / IZR _progress_len * IZR dt) in
  match event with
  | EVENT_MBUTTONDOWN => (goto_frame here s, Returns tt)
  | EVENT_LBUTTONDOWN => (with_t0_tmp (Some here) s, Returns tt)
  | EVENT_LBUTTONUP =>
      match t0_tmp s with
      | None => (s, Raises AttributeError)
      | Some tmp =>
          if (here <? tmp)%Z then (with_t1 tmp (with_t0 here s), Returns tt)
          else if (tmp =? here)%Z then
            (with_t1 (tmp + 1) (with_t0 tmp s), Returns tt)
          else (with_t1 here (with_t0 tmp s), Returns tt)
      end
  | EVENT_RBUTTONDOWN => (with_del_tmp (Some here) s, Returns tt)
  | EVENT_RBUTTONUP =>
      match del_tmp s with
      | None => (s, Raises AttributeError)
      | Some tmp =>
          let '(lo, hi) := if (here <? tmp)%Z then (here, tmp) else (tmp, here) in
          let s :=
            with_contours_detected
              (np_setslice (contours_detected s) lo hi false) s in
          (with_contours (np_setslice (contours s) lo hi None) s, Returns tt)
      end
  | EVENT_OTHER => (s, Returns tt)
  end.

(** [mouse_callback(event, x, y, flags, param)] *)
Definition mouse_callback (event : mouse_event) (x y : Z) (s : ManualTracker M)
  : ManualTracker M * outcome unit :=
  let scaled :=
    match _scale_factor s with
    | None => Returns (x, y)
    | Some f =>
        if Reqb f 0 then Raises ZeroDivisionError
        else Returns (Np.trunc (IZR x / f), Np.trunc (IZR y / f))
    end in
  match scaled with
  | Raises e => (s, Raises e)
  | Returns (x, y) =>
      match event with
      | EVENT_MBUTTONDOWN =>
          match _mask s with
          | Some m => (with_mask (Some (circle m (x, y) (brush s) 0)) s, Returns tt)
          | None => (s, Returns tt)
          end
      | EVENT_RBUTTONDOWN =>
          match _mask s with
          | Some m => (with_mask (Some (circle m (x, y) (brush s) 255)) s, Returns tt)
          | None => (s, Returns tt)
          end
      | EVENT_LBUTTONDOWN => (with_start (Some (x, y)) s, Returns tt)
      | EVENT_LBUTTONUP =>
          let s := with_end_ (Some (x, y)) s in
          match start s with
          | None => (s, Raises ValueError)
          | Some st => (with_roi (Some (drag_roi st (x, y))) s, Returns tt)
          end
      | _ => (s, Returns tt)
      end
  end.

(** The tracker when [run] enters its loop on a video of [n] frames, if no
    trackbar was moved: the values of [reset], of [__init__] and of the head
    of [run]. *)
Definition run_start (n : Z) : ManualTracker M :=
  {| pause := false; step := 50; _frame_number := 0; _n_frames := n;
     _cap_pos := 0; _mask := None; brush := 20; jump_frame := 0;
     start := None; end_ := None; roi := None; t0 := 0; t1 := n;
     blur := 3; power := 3; dilation_iter := 7; histogram_equalize := false;
     min_contour_len := 10; skip := false; help := true;
     _scale_factor := None; update_frame := true;
     contours_detected := repeat false (Z.to_nat n);
     contours := repeat None (Z.to_nat n);
     t0_tmp := None; del_tmp := None |}.

(** *** Vocabulary of the properties *)

(** The frame under the column [x] of the progress graph. *)
Definition frame_at (x : Z) (s : ManualTracker M) : Z :=
  sanitize s (IZR (t0 s) + IZR x / IZR _progress_len * IZR (t1 s - t0 s)).

(** The keys [keys] pressed one after the other. *)
Definition press (keys : list Z) (s : ManualTracker M) : ManualTracker M :=
  fold_left (fun s key => fst (process_key key s)) keys s.

(** What holds of the tracker while [run] loops over a video with frames:
    the frame number is one of its frames, the per-frame arrays have one
    entry per frame and the jump frame is between 0 and the frame count. *)
Definition in_run (s : ManualTracker M) : Prop :=
  (1 <= _n_frames s)%Z
  /\ (0 <= _frame_number s <= _n_frames s - 1)%Z
  /\ Z.of_nat (length (contours_detected s)) = _n_frames s
  /\ Z.of_nat (length (contours s)) = _n_frames s
  /\ (0 <= jump_frame s <= _n_frames s)%Z.

End Callbacks.

End Manual.

(** The number that a list of decimal digits writes. *)
Definition decimal (ds : list Z) : Z :=
  fold_left (fun a d => (10 * a + d)%Z) ds 0%Z.

(** A canvas of single values, for examples: [circle] paints the value. *)
Definition dot_canvas : Canvas Z := {|
  circle := fun _ _ _ v => v;
  ones_like_255 := fun _ => Some 255%Z
|}.

(** * Properties *)

(** ** Comparisons *)

Lemma Rltb_true (x y : R) : Rltb x y = true <-> x < y.
Proof. unfold Rltb. destruct (Rlt_dec x y); split; intros; try easy. Qed.

Lemma Rltb_false (x y : R) : Rltb x y = false <-> ~ x < y.
Proof. unfold Rltb. destruct (Rlt_dec x y); split; intros; try easy. Qed.

Lemma Rleb_true (x y : R) : Rleb x y = true <-> x <= y.
Proof. unfold Rleb. destruct (Rle_dec x y); split; intros; try easy. Qed.

Lemma Rgeb_true (x y : R) : Rgeb x y = true <-> y <= x.
Proof. apply Rleb_true. Qed.

Lemma Reqb_false (x y : R) : Reqb x y = false <-> x <> y.
Proof. unfold Reqb. destruct (Req_dec_T x y); split; intros; try easy. Qed.

Lemma seven_tests (b1 b2 b3 b4 b5 b6 b7 : bool) :
  (int_of_bool b1 + int_of_bool b2 + int_of_bool b3 + int_of_bool b4
   + int_of_bool b5 + int_of_bool b6 + int_of_bool b7)%Z = 7%Z
  <-> b1 = true /\ b2 = true /\ b3 = true /\ b4 = true
      /\ b5 = true /\ b6 = true /\ b7 = true.
Proof.
  destruct b1, b2, b3, b4, b5, b6, b7; cbn; split; intros H;
    try discriminate H; try (repeat split; reflexivity);
    decompose [and] H; discriminate.
Qed.

(** A candidate reaches seven matching conditions exactly when it passes
    the seven tests. *)
Lemma matching_conditions_7 (self : PupilTracker) (shape : nat * nat)
    (cnt : contour) (e : ellipse) :
  matching_conditions self shape cnt e = 7%Z <-> all_criteria self shape cnt e.
Proof.
  unfold matching_conditions, all_criteria. cbv zeta.
  rewrite seven_tests, !andb_true_iff, !Rltb_true, Rleb_true, Rgeb_true.
  tauto.
Qed.

Section TrackerFacts.

Context {frame : Type} {cv : CV2 frame}.

(** *** [preprocess_image] *)

Lemma preprocess_image_keeps (self : PupilTracker) (fr : frame) (eye_roi : roi) :
  let s := fst (preprocess_image self fr eye_roi) in
  _params s = _params self /\ _center s = _center self
  /\ _radius s = _radius self /\ _mask s = _mask self
  /\ _last_detection s = _last_detection self
  /\ _last_ellipse s = _last_ellipse self.
Proof.
  unfold preprocess_image.
  destruct (extreme_meso (_params self)) as [[|]|];
    try destruct (_running_avg self); cbn; repeat split.
Qed.

Lemma preprocess_image_std (self : PupilTracker) (fr : frame) (eye_roi : roi) :
  img_std_of (preprocess_image self fr eye_roi) = Np.std (cvtColor fr).
Proof.
  unfold preprocess_image, img_std_of.
  destruct (extreme_meso (_params self)) as [[|]|];
    try destruct (_running_avg self); reflexivity.
Qed.

(** *** [get_pupil_from_contours] *)

Lemma scan_together self shape mask acc cnt :
  together acc -> together (scan self shape mask acc cnt).
Proof.
  intros H. unfold scan.
  destruct (fit_contour self mask cnt) as [[c e]|]; [|exact H].
  destruct (lt_err _ _ && _); [|exact H].
  right. eauto.
Qed.

Lemma fold_scan_together self shape mask contours :
  forall acc, together acc ->
  together (fold_left (scan self shape mask) contours acc).
Proof.
  induction contours as [|cnt contours IH]; intros acc H; cbn; [exact H|].
  apply IH, scan_together, H.
Qed.

(** The call either fails, returning [(None, None)] and incrementing the
    counter, or succeeds, returning a pair and resetting the counter. *)
Lemma get_pupil_from_contours_cases self contours small_gray mask :
  let r := get_pupil_from_contours self contours small_gray mask in
  (snd r = (None, None)
   /\ fst r = set_last_detection (_last_detection self + 1) self)
  \/ (exists c e, snd r = (Some c, Some e)
      /\ fst r = set_last_detection 1 self).
Proof.
  unfold get_pupil_from_contours.
  destruct (fold_scan_together self (Np.shape small_gray) mask contours
              (None, None, None)) as [-> | (r & e & c & ->)].
  - left. reflexivity.
  - left. split; reflexivity.
  - right. exists c, e. split; reflexivity.
Qed.

End TrackerFacts.

Section FrameFacts.

Context {frame : Type} {cv : CV2 frame}.

(** *** One frame of [track] *)

Lemma track_frame_dropped self small_mask eye_roi n (cap : capture frame) :
  read cap = None ->
  track_frame self small_mask eye_roi n cap = (self, Ok (Dropped n)).
Proof. intros H. unfold track_frame. rewrite H. reflexivity. Qed.

Lemma track_frame_low_contrast self small_mask eye_roi n (cap : capture frame) fr :
  read cap = Some fr ->
  img_std_of (preprocess_image self fr eye_roi) < contrast_threshold (_params self) ->
  track_frame self small_mask eye_roi n cap
  = (fst (preprocess_image self fr eye_roi),
     Ok (Untracked n (img_std_of (preprocess_image self fr eye_roi)))).
Proof.
  intros Hr Hlt. unfold track_frame. rewrite Hr.
  destruct (preprocess_image self fr eye_roi) as [s1 [[[[g sg] sd] th] bl]].
  cbn in *. apply Rltb_true in Hlt. rewrite Hlt. reflexivity.
Qed.

(** The tracker after a frame that passed the contrast gate. *)
Lemma track_frame_scored self small_mask eye_roi n (cap : capture frame) fr :
  scored self eye_roi cap fr ->
  let pre := preprocess_image self fr eye_roi in
  fst (track_frame self small_mask eye_roi n cap)
  = match snd (snd (scoring self small_mask eye_roi fr)) with
    | None =>
        set_last_ellipse None
          (set_last_detection (_last_detection self + 1) (fst pre))
    | Some e =>
        set_radius (Some (Rmax (fst (e_axes e)) (snd (e_axes e))))
          (set_center
             (Some (fst (e_center e) / INR (snd (Np.shape (small_gray_of pre))),
                    snd (e_center e) / INR (fst (Np.shape (small_gray_of pre)))))
             (set_last_ellipse (Some e) (set_last_detection 1 (fst pre))))
    end.
Proof.
  intros [Hr Hge] pre.
  pose proof (preprocess_image_keeps self fr eye_roi) as (_ & _ & _ & _ & Hk & _).
  unfold track_frame, scoring. rewrite Hr. fold pre in Hge, Hk |- *.
  destruct pre as [s1 [[[[g sg] sd] th] bl]].
  cbn [fst snd img_std_of thres_of blur_of small_gray_of] in *.
  apply Rltb_false in Hge. rewrite Hge.
  destruct (get_pupil_from_contours_cases s1
              (findContours (apply_masks s1 small_mask th)) bl small_mask)
    as [[H1 H2] | (c & e & H1 & H2)];
    destruct (get_pupil_from_contours s1 _ bl small_mask) as [s2 [oc oe]];
    cbn [fst snd] in *; inversion H1; subst; rewrite ?Hk.
  - destruct (Z.land (waitKey cap) 255 =? 113)%Z; reflexivity.
  - destruct (Z.land (waitKey cap) 255 =? 113)%Z; reflexivity.
Qed.

(** The dictionary appended for a frame that passed the contrast gate and
    was not interrupted. *)
Lemma track_frame_scored_trace self small_mask eye_roi n (cap : capture frame) fr rec :
  scored self eye_roi cap fr ->
  snd (track_frame self small_mask eye_roi n cap) = Ok rec ->
  match snd (snd (scoring self small_mask eye_roi fr)) with
  | None => rec = Untracked n (Np.std (cvtColor fr))
  | Some e => exists c k, rec = Tracked c (Rmax (fst (e_axes e)) (snd (e_axes e)))
                                  [fst (e_center e); snd (e_center e);
                                   fst (e_axes e); snd (e_axes e); e_angle e]
                                  k n (Np.std (cvtColor fr))
  end.
Proof.
  intros [Hr Hge].
  pose proof (preprocess_image_std self fr eye_roi) as Hs.
  unfold track_frame, scoring. rewrite Hr.
  destruct (preprocess_image self fr eye_roi) as [s1 [[[[g sg] sd] th] bl]].
  cbn [fst snd img_std_of thres_of blur_of small_gray_of] in *.
  apply Rltb_false in Hge. rewrite Hge. subst sd.
  destruct (get_pupil_from_contours_cases s1
              (findContours (apply_masks s1 small_mask th)) bl small_mask)
    as [[H1 H2] | (c & e & H1 & H2)];
    destruct (get_pupil_from_contours s1 _ bl small_mask) as [s2 [oc oe]];
    cbn [fst snd] in *; inversion H1; subst;
    destruct (Z.land (waitKey cap) 255 =? 113)%Z; cbn; intros H;
    inversion H; subst; eauto.
Qed.

End FrameFacts.

(** ** Selection of the best candidate *)

Section Selection.

Context {frame : Type} {cv : CV2 frame}.

Lemma selection_start self shape : selection self shape [] (None, None, None).
Proof. left. split; [reflexivity | intros ce []]. Qed.

(** A candidate that is not taken leaves the invariant in place. *)
Lemma selection_skip self shape seen acc ce :
  selection self shape seen acc ->
  (full_match self shape ce ->
   exists r, fst (fst acc) = Some r /\ r <= rmse ce) ->
  selection self shape (seen ++ [ce]) acc.
Proof.
  intros [[-> Hno] | (i & b & Hi & Hb & -> & Hmin)] Hce.
  - left. split; [reflexivity|]. intros x Hx Hf.
    apply in_app_or in Hx as [Hx | [<- | []]].
    + exact (Hno x Hx Hf).
    + destruct (Hce Hf) as (r & Hr & _). discriminate Hr.
  - right. exists i, b.
    assert (Hlt : (i < length seen)%nat)
      by (apply nth_error_Some; rewrite Hi; discriminate).
    split; [rewrite nth_error_app1; assumption|].
    split; [exact Hb|]. split; [reflexivity|].
    intros j ce' Hn Hf.
    destruct (Nat.lt_ge_cases j (length seen)) as [Hj | Hj].
    + rewrite nth_error_app1 in Hn by assumption. exact (Hmin j ce' Hn Hf).
    + rewrite nth_error_app2 in Hn by assumption.
      split; [|intros Hji; lia].
      destruct (j - length seen)%nat as [|k]; cbn in Hn.
      * inversion Hn; subst ce'. destruct (Hce Hf) as (r & Hr & Hle).
        cbn in Hr. inversion Hr; subst r. exact Hle.
      * destruct k; discriminate Hn.
Qed.

(** A full match strictly better than the current best replaces it. *)
Lemma selection_take self shape seen acc ce :
  selection self shape seen acc ->
  full_match self shape ce ->
  lt_err (rmse ce) (fst (fst acc)) = true ->
  selection self shape (seen ++ [ce]) (Some (rmse ce), Some (snd ce), Some (fst ce)).
Proof.
  intros Hsel Hf Hlt. right. exists (length seen), ce.
  assert (Hold : forall j ce', (j < length seen)%nat ->
            nth_error seen j = Some ce' -> full_match self shape ce' ->
            rmse ce < rmse ce').
  { intros j ce' Hj Hn Hf'.
    destruct Hsel as [[-> Hno] | (i & b & Hi & Hb & -> & Hmin)].
    - exfalso. apply (Hno ce'); [eapply nth_error_In; eassumption | assumption].
    - cbn in Hlt. apply Rltb_true in Hlt.
      destruct (Hmin j ce' Hn Hf') as [Hle _]. lra. }
  split; [rewrite nth_error_app2, Nat.sub_diag by lia; reflexivity|].
  split; [exact Hf|]. split; [reflexivity|].
  intros j ce' Hn Hf'.
  destruct (Nat.lt_ge_cases j (length seen)) as [Hj | Hj].
  - rewrite nth_error_app1 in Hn by assumption.
    pose proof (Hold j ce' Hj Hn Hf'). split; [lra | intros _; assumption].
  - rewrite nth_error_app2 in Hn by assumption.
    split; [|intros Hji; lia].
    destruct (j - length seen)%nat as [|k]; cbn in Hn.
    + inversion Hn. lra.
    + destruct k; discriminate Hn.
Qed.

Lemma scan_selection self shape mask seen acc cnt :
  selection self shape seen acc ->
  selection self shape
    (seen ++ match fit_contour self mask cnt with
             | Some ce => [ce]
             | None => []
             end)
    (scan self shape mask acc cnt).
Proof.
  intros Hsel. unfold scan.
  destruct (fit_contour self mask cnt) as [[c e]|];
    [|rewrite app_nil_r; exact Hsel].
  destruct (lt_err (goodness_of_fit c e) (fst (fst acc))) eqn:Hlt;
    destruct (matching_conditions self shape c e =? 7)%Z eqn:H7; cbn [andb].
  - apply Z.eqb_eq in H7.
    apply (selection_take self shape seen acc (c, e) Hsel H7 Hlt).
  - apply Z.eqb_neq in H7. apply selection_skip; [exact Hsel|].
    intros Hf. contradiction.
  - apply selection_skip; [exact Hsel|]. intros _.
    unfold lt_err in Hlt. destruct (fst (fst acc)) as [r|]; [|discriminate].
    exists r. split; [reflexivity|]. apply Rltb_false in Hlt.
    unfold rmse. cbn [fst snd]. lra.
  - apply Z.eqb_neq in H7. apply selection_skip; [exact Hsel|].
    intros Hf. contradiction.
Qed.

Lemma fold_scan_selection self shape mask contours :
  forall seen acc,
  selection self shape seen acc ->
  selection self shape (seen ++ candidates self mask contours)
    (fold_left (scan self shape mask) contours acc).
Proof.
  induction contours as [|cnt contours IH]; intros seen acc Hsel; cbn.
  - rewrite app_nil_r. exact Hsel.
  - rewrite app_assoc. apply IH, scan_selection, Hsel.
Qed.

Lemma get_pupil_from_contours_selection self contours small_gray mask :
  exists err,
  selection self (Np.shape small_gray) (candidates self mask contours)
    (err,
     snd (snd (get_pupil_from_contours self contours small_gray mask)),
     fst (snd (get_pupil_from_contours self contours small_gray mask))).
Proof.
  pose proof (fold_scan_selection self (Np.shape small_gray) mask contours
                [] (None, None, None) (selection_start _ _)) as H.
  cbn [app] in H. unfold get_pupil_from_contours.
  destruct (fold_left (scan self (Np.shape small_gray) mask) contours
              (None, None, None)) as [[err be] bc].
  exists err. exact H.
Qed.

(** C2: among the scored candidates of a call, in evaluation order, the
    call returns the contour and ellipse of the first full match of least
    rmse when there is a full match (seven matching conditions), and
    [(None, None)] when there is none. *)
Theorem C2_best_of_full_matches (self : PupilTracker)
    (contours : list contour) (small_gray mask : Np.image) :
  let cs := candidates self mask contours in
  let sh := Np.shape small_gray in
  let r := snd (get_pupil_from_contours self contours small_gray mask) in
  ((exists ce, In ce cs /\ full_match self sh ce) ->
   exists i ce,
     nth_error cs i = Some ce
     /\ full_match self sh ce
     /\ r = (Some (fst ce), Some (snd ce))
     /\ forall j ce', nth_error cs j = Some ce' -> full_match self sh ce' ->
          rmse ce <= rmse ce' /\ ((j < i)%nat -> rmse ce < rmse ce'))
  /\ ((forall ce, In ce cs -> ~ full_match self sh ce) -> r = (None, None)).
Proof.
  intros cs sh r.
  destruct (get_pupil_from_contours_selection self contours small_gray mask)
    as (err & Hsel).
  change (selection self sh cs (err, snd r, fst r)) in Hsel.
  clearbody r. destruct r as [rc re]. cbn [fst snd] in Hsel.
  destruct Hsel as [[Heq Hno] | (i & b & Hi & Hb & Heq & Hmin)];
    inversion Heq; subst.
  - split; [|reflexivity].
    intros (ce & Hin & Hf). destruct (Hno ce Hin Hf).
  - split.
    + intros _. exists i, b.
      split; [exact Hi|]. split; [exact Hb|]. split; [reflexivity | exact Hmin].
    + intros Hno. destruct (Hno b); [eapply nth_error_In; eassumption | exact Hb].
Qed.

End Selection.

(** ** The four kinds of frames *)

Section Runs.

Context {frame : Type} {cv : CV2 frame}.

Lemma frame_cases self small_mask eye_roi (cap : capture frame) :
  read cap = None
  \/ low_contrast self eye_roi cap
  \/ no_detection self small_mask eye_roi cap
  \/ exists e, detection self small_mask eye_roi cap e.
Proof.
  destruct (read cap) as [fr|] eqn:Hr; [right | left; reflexivity].
  destruct (Rlt_dec (img_std_of (preprocess_image self fr eye_roi))
                    (contrast_threshold (_params self))) as [Hlt | Hge].
  - left. exists fr. split; assumption.
  - right.
    destruct (snd (snd (scoring self small_mask eye_roi fr))) as [e|] eqn:Hs.
    + right. exists e, fr. repeat split; assumption.
    + left. exists fr. repeat split; assumption.
Qed.

Lemma dropped_state self small_mask eye_roi n (cap : capture frame) :
  read cap = None ->
  fst (track_frame self small_mask eye_roi n cap) = self.
Proof. intros H. rewrite track_frame_dropped by exact H. reflexivity. Qed.

Lemma low_contrast_state self small_mask eye_roi n (cap : capture frame) :
  low_contrast self eye_roi cap ->
  let s := fst (track_frame self small_mask eye_roi n cap) in
  _last_ellipse s = _last_ellipse self /\ _center s = _center self
  /\ _radius s = _radius self /\ _last_detection s = _last_detection self.
Proof.
  intros (fr & Hr & Hlt). cbv zeta.
  rewrite (track_frame_low_contrast _ _ _ _ _ fr Hr Hlt). cbn [fst].
  pose proof (preprocess_image_keeps self fr eye_roi) as H. cbv zeta in H.
  tauto.
Qed.

Lemma no_detection_state self small_mask eye_roi n (cap : capture frame) :
  no_detection self small_mask eye_roi cap ->
  let s := fst (track_frame self small_mask eye_roi n cap) in
  _last_ellipse s = None /\ _center s = _center self
  /\ _radius s = _radius self
  /\ _last_detection s = (_last_detection self + 1)%Z.
Proof.
  intros (fr & Hsc & Hnone). cbv zeta.
  rewrite (track_frame_scored _ _ _ n _ fr Hsc), Hnone.
  pose proof (preprocess_image_keeps self fr eye_roi) as H. cbv zeta in H.
  cbn. tauto.
Qed.

Lemma detection_state self small_mask eye_roi n (cap : capture frame) e :
  detection self small_mask eye_roi cap e ->
  exists fr, read cap = Some fr /\
  let s := fst (track_frame self small_mask eye_roi n cap) in
  let sh := Np.shape (small_gray_of (preprocess_image self fr eye_roi)) in
  _last_ellipse s = Some e
  /\ _center s = Some (fst (e_center e) / INR (snd sh),
                       snd (e_center e) / INR (fst sh))
  /\ _radius s = Some (Rmax (fst (e_axes e)) (snd (e_axes e)))
  /\ _last_detection s = 1%Z.
Proof.
  intros (fr & Hsc & Hsome). exists fr. split; [apply Hsc|]. cbv zeta.
  rewrite (track_frame_scored _ _ _ n _ fr Hsc), Hsome.
  cbn. tauto.
Qed.

(** A frame that is not interrupted appends its dictionary. *)
Lemma track_frame_ok self small_mask eye_roi n (cap : capture frame) :
  uninterrupted cap ->
  exists rec, snd (track_frame self small_mask eye_roi n cap) = Ok rec.
Proof.
  intros Hk. apply Z.eqb_neq in Hk. unfold track_frame.
  destruct (read cap) as [fr|]; [|eexists; reflexivity].
  destruct (preprocess_image self fr eye_roi) as [s1 [[[[g sg] sd] th] bl]].
  destruct (Rltb sd _); [eexists; reflexivity|].
  destruct (get_pupil_from_contours_cases s1
              (findContours (apply_masks s1 small_mask th)) bl small_mask)
    as [[H1 H2] | (c & e & H1 & H2)];
    destruct (get_pupil_from_contours s1 _ bl small_mask) as [s2 [oc oe]];
    cbn [fst snd] in *; inversion H1; subst; rewrite Hk;
    eexists; reflexivity.
Qed.

(** No frame changes the configuration. *)
Lemma track_frame_params self small_mask eye_roi n (cap : capture frame) :
  _params (fst (track_frame self small_mask eye_roi n cap)) = _params self.
Proof.
  destruct (frame_cases self small_mask eye_roi cap)
    as [Hd | [(fr & Hr & Hlt) | [(fr & Hsc & Hs) | [e (fr & Hsc & Hs)]]]].
  - rewrite dropped_state by exact Hd. reflexivity.
  - rewrite (track_frame_low_contrast _ _ _ _ _ fr Hr Hlt).
    apply preprocess_image_keeps.
  - rewrite (track_frame_scored _ _ _ n _ fr Hsc), Hs.
    apply preprocess_image_keeps.
  - rewrite (track_frame_scored _ _ _ n _ fr Hsc), Hs.
    apply preprocess_image_keeps.
Qed.

(** *** Runs of frames *)

Lemma track_loop_state small_mask eye_roi (caps : list (capture frame)) :
  forall self n tr tr',
  fst (track_loop self small_mask eye_roi n caps tr)
  = fst (track_loop self small_mask eye_roi n caps tr').
Proof.
  induction caps as [|cap caps IH]; intros s n tr tr'; cbn; [reflexivity|].
  destruct (track_frame s small_mask eye_roi (n + 1) cap) as [s1 [rec|err]].
  - apply IH.
  - reflexivity.
Qed.

Lemma after_frames_nil self small_mask eye_roi n :
  after_frames self small_mask eye_roi n ([] : list (capture frame)) = self.
Proof. reflexivity. Qed.

(** The tracker that [track] leaves behind. *)
Lemma track_after_frames self (v : video frame) eye_roi :
  fst (track self v eye_roi)
  = after_frames self (small_mask_of self eye_roi) eye_roi 0 (performed_reads v).
Proof. reflexivity. Qed.

Lemma after_frames_cons self small_mask eye_roi n (cap : capture frame) caps :
  after_frames self small_mask eye_roi n (cap :: caps)
  = match snd (track_frame self small_mask eye_roi (n + 1) cap) with
    | Ok _ => after_frames (fst (track_frame self small_mask eye_roi (n + 1) cap))
                small_mask eye_roi (n + 1) caps
    | Raise _ => fst (track_frame self small_mask eye_roi (n + 1) cap)
    end.
Proof.
  unfold after_frames. cbn.
  destruct (track_frame self small_mask eye_roi (n + 1) cap) as [s1 [rec|err]];
    cbn [fst snd]; [apply track_loop_state | reflexivity].
Qed.

(** A property of the tracker that every frame preserves holds after
    every run. *)
Lemma after_frames_preserves (P : PupilTracker -> Prop) small_mask eye_roi :
  (forall s n (cap : capture frame),
     P s -> P (fst (track_frame s small_mask eye_roi n cap))) ->
  forall caps self n, P self -> P (after_frames self small_mask eye_roi n caps).
Proof.
  intros Hstep. induction caps as [|cap caps IH]; intros s n Hs.
  - exact Hs.
  - rewrite after_frames_cons.
    destruct (snd (track_frame s small_mask eye_roi (n + 1) cap)).
    + apply IH, Hstep, Hs.
    + apply Hstep, Hs.
Qed.

Lemma counter_step self small_mask eye_roi n (cap : capture frame) :
  (1 <= _last_detection self)%Z ->
  (1 <= _last_detection (fst (track_frame self small_mask eye_roi n cap)))%Z.
Proof.
  intros H.
  destruct (frame_cases self small_mask eye_roi cap)
    as [Hd | [Hl | [Hn | [e He]]]].
  - rewrite dropped_state by exact Hd. exact H.
  - destruct (low_contrast_state _ small_mask _ n _ Hl) as (_ & _ & _ & ->).
    exact H.
  - destruct (no_detection_state _ _ _ n _ Hn) as (_ & _ & _ & ->). lia.
  - destruct (detection_state _ _ _ n _ _ He) as (fr & _ & _ & _ & _ & ->). lia.
Qed.

Lemma no_detection_run_firstn small_mask eye_roi (caps : list (capture frame)) :
  forall self n i,
  no_detection_run self small_mask eye_roi n caps ->
  no_detection_run self small_mask eye_roi n (firstn i caps).
Proof.
  induction caps as [|cap caps IH]; intros s n [|i] H; cbn; trivial.
  destruct H as (H1 & H2 & H3). repeat split; trivial. apply IH, H3.
Qed.

Lemma no_detection_run_counter small_mask eye_roi (caps : list (capture frame)) :
  forall self n,
  no_detection_run self small_mask eye_roi n caps ->
  _last_detection (after_frames self small_mask eye_roi n caps)
  = (_last_detection self + Z.of_nat (length caps))%Z.
Proof.
  induction caps as [|cap caps IH]; intros s n H.
  - cbn. lia.
  - destruct H as (H1 & H2 & H3). rewrite after_frames_cons.
    destruct (track_frame_ok s small_mask eye_roi (n + 1) cap H2) as [rec ->].
    rewrite (IH _ _ H3).
    destruct (no_detection_state _ _ _ (n + 1)%Z _ H1) as (_ & _ & _ & ->).
    cbn [length]. lia.
Qed.

(** A frame without detection leaves the anchors of the continuity tests. *)
Lemma anchors_step self small_mask eye_roi n (cap : capture frame) :
  (forall e, ~ detection self small_mask eye_roi cap e) ->
  let s := fst (track_frame self small_mask eye_roi n cap) in
  _center s = _center self /\ _radius s = _radius self.
Proof.
  intros Hno. cbv zeta.
  destruct (frame_cases self small_mask eye_roi cap)
    as [Hd | [Hl | [Hn | [e He]]]].
  - rewrite dropped_state by exact Hd. split; reflexivity.
  - destruct (low_contrast_state _ small_mask _ n _ Hl) as (_ & -> & -> & _).
    split; reflexivity.
  - destruct (no_detection_state _ _ _ n _ Hn) as (_ & -> & -> & _).
    split; reflexivity.
  - destruct (Hno e He).
Qed.

Lemma no_success_run_anchors small_mask eye_roi (caps : list (capture frame)) :
  forall self n,
  no_success_run self small_mask eye_roi n caps ->
  let s := after_frames self small_mask eye_roi n caps in
  _center s = _center self /\ _radius s = _radius self.
Proof.
  induction caps as [|cap caps IH]; intros s n H; cbv zeta.
  - split; reflexivity.
  - destruct H as (H1 & H2). rewrite after_frames_cons.
    destruct (anchors_step _ _ _ (n + 1)%Z _ H1) as [Hc Hr].
    destruct (snd (track_frame s small_mask eye_roi (n + 1) cap)).
    + destruct (IH _ _ H2) as [Hc' Hr']. rewrite Hc', Hr'. split; assumption.
    + split; assumption.
Qed.

(** Once set, the anchors stay set, whatever the frame. *)
Lemma anchors_set_step self small_mask eye_roi n (cap : capture frame) :
  _center self <> None /\ _radius self <> None ->
  let s := fst (track_frame self small_mask eye_roi n cap) in
  _center s <> None /\ _radius s <> None.
Proof.
  intros [Hc Hr]. cbv zeta.
  destruct (frame_cases self small_mask eye_roi cap)
    as [Hd | [Hl | [Hn | [e He]]]].
  - rewrite dropped_state by exact Hd. split; assumption.
  - destruct (low_contrast_state _ small_mask _ n _ Hl) as (_ & -> & -> & _).
    split; assumption.
  - destruct (no_detection_state _ _ _ n _ Hn) as (_ & -> & -> & _).
    split; assumption.
  - destruct (detection_state _ _ _ n _ _ He) as (fr & _ & _ & -> & -> & _).
    split; discriminate.
Qed.

End Runs.

(** ** The example tracker *)

Section DemoFacts.

Lemma std_nonneg (a : Np.image) : 0 <= Np.std a.
Proof. apply sqrt_pos. Qed.

Lemma demo_preprocess (s : PupilTracker) (fr : Np.image) (eye_roi : roi) :
  extreme_meso (_params s) = None ->
  preprocess_image (cv := Demo.cv) s fr eye_roi
  = (s, (fr, Np.crop eye_roi fr, Np.std fr, Np.crop eye_roi fr, Np.crop eye_roi fr)).
Proof. intros H. unfold preprocess_image. rewrite H. reflexivity. Qed.

Lemma demo_scored (s : PupilTracker) (fr : Np.image) (eye_roi : roi) :
  contrast_threshold (_params s) = 0 ->
  scored (cv := Demo.cv) s eye_roi (Demo.shot fr) fr.
Proof.
  intros H. split; [reflexivity|].
  rewrite preprocess_image_std, H. intros Hlt.
  pose proof (std_nonneg (cvtColor (CV2 := Demo.cv) fr)). lra.
Qed.

Lemma demo_dark_scoring (s : PupilTracker) :
  extreme_meso (_params s) = None ->
  snd (snd (scoring (cv := Demo.cv) s (Np.ones (10, 10)%nat) Demo.whole Demo.dark))
  = None.
Proof.
  intros H. unfold scoring. rewrite (demo_preprocess _ _ _ H).
  cbn [fst snd thres_of blur_of].
  unfold apply_masks. destruct (_last_ellipse s); reflexivity.
Qed.

Lemma demo_no_detection (s : PupilTracker) :
  _params s = Demo.p0 ->
  no_detection (cv := Demo.cv) s (Np.ones (10, 10)%nat) Demo.whole
    (Demo.shot Demo.dark).
Proof.
  intros H. exists Demo.dark. split.
  - apply demo_scored. rewrite H. reflexivity.
  - apply demo_dark_scoring. rewrite H. reflexivity.
Qed.

Lemma demo_no_success (s : PupilTracker) e :
  _params s = Demo.p0 ->
  ~ detection (cv := Demo.cv) s (Np.ones (10, 10)%nat) Demo.whole
      (Demo.shot Demo.dark) e.
Proof.
  intros H (fr & [Hr _] & Hs). cbn in Hr. inversion Hr; subst fr.
  rewrite demo_dark_scoring in Hs by (rewrite H; reflexivity). discriminate Hs.
Qed.

Lemma demo_uninterrupted (fr : Np.image) : uninterrupted (Demo.shot fr).
Proof. unfold uninterrupted. cbn. discriminate. Qed.

Lemma demo_rmse : goodness_of_fit Demo.ring Demo.circle = 0.
Proof.
  unfold goodness_of_fit, Demo.circle, Demo.ring.
  cbn [fold_left length]. unfold fit_step, px, py. cbn [fst snd INR].
  rewrite Rmult_0_l, Ropp_0, cos_0, sin_0.
  match goal with |- sqrt (?e / _) = _ => replace e with 0 by lra end.
  unfold Rdiv. rewrite Rmult_0_l. apply sqrt_0.
Qed.

Lemma demo_fit (s : PupilTracker) :
  min_contour_len (_params s) = 5%Z ->
  fit_contour (cv := Demo.cv) s (Np.ones (10, 10)%nat) Demo.ring
  = Some (Demo.ring, Demo.circle).
Proof.
  intros H. unfold fit_contour. rewrite H.
  replace (filter _ Demo.ring) with Demo.ring by reflexivity.
  replace (Z.of_nat (length Demo.ring) <? 5)%Z with false by reflexivity.
  cbn [fitEllipse Demo.cv Demo.circle e_axes fst snd].
  rewrite (proj2 (Reqb_false _ _)); [reflexivity|].
  unfold Rmin. destruct (Rle_dec 10 10); lra.
Qed.

Lemma demo_criteria :
  all_criteria Demo.fresh (10, 10)%nat Demo.ring Demo.circle.
Proof.
  unfold all_criteria. cbv zeta. rewrite demo_rmse.
  unfold ratio_of, area_of, center_of, dx_of, dr_of, Demo.circle, Demo.fresh,
    e_axes, e_center.
  cbn [fst snd _params _center _radius _last_detection Demo.p0
       ratio_threshold relative_area_threshold error_threshold margin
       speed_threshold dr_threshold].
  rewrite !INR_IZR_INZ.
  replace (Z.of_nat (10 * 10)) with 100%Z by reflexivity.
  replace (Z.of_nat 10) with 10%Z by reflexivity.
  unfold Rmax, Rmin. destruct (Rle_dec 10 10); repeat split; lra.
Qed.

Lemma demo_lit_scoring :
  snd (scoring (cv := Demo.cv) Demo.fresh (Np.ones (10, 10)%nat) Demo.whole Demo.lit)
  = (Some Demo.ring, Some Demo.circle).
Proof.
  unfold scoring. rewrite demo_preprocess by reflexivity.
  cbn [fst snd thres_of blur_of].
  replace (findContours _) with [Demo.ring] by reflexivity.
  replace (Np.crop Demo.whole Demo.lit) with Demo.lit by reflexivity.
  unfold get_pupil_from_contours. cbn [fold_left]. unfold scan.
  rewrite demo_fit by reflexivity. cbn [fst snd lt_err andb].
  replace (Np.shape Demo.lit) with (10, 10)%nat by reflexivity.
  rewrite (proj2 (matching_conditions_7 _ _ _ _) demo_criteria).
  reflexivity.
Qed.

Lemma demo_detection :
  detection (cv := Demo.cv) Demo.fresh (Np.ones (10, 10)%nat) Demo.whole
    (Demo.shot Demo.lit) Demo.circle.
Proof.
  exists Demo.lit. split.
  - apply demo_scored. reflexivity.
  - rewrite demo_lit_scoring. reflexivity.
Qed.

Lemma std_dark : Np.std Demo.dark = 0.
Proof.
  unfold Np.std, Np.mean, Np.rsum, Demo.dark.
  cbn [repeat concat app map fold_right length].
  rewrite INR_IZR_INZ. replace (Z.of_nat 100) with 100%Z by reflexivity.
  match goal with |- sqrt ?e = _ => replace e with 0 by lra end.
  apply sqrt_0.
Qed.

Lemma std_half_lit : Np.std Demo.half_lit = 255 / 2.
Proof.
  unfold Np.std, Np.mean, Np.rsum, Demo.half_lit.
  cbn [concat app map fold_right length INR].
  apply sqrt_lem_1; lra.
Qed.

Lemma std_left_pixel : Np.std (Np.crop Demo.left_pixel Demo.half_lit) = 0.
Proof.
  replace (Np.crop Demo.left_pixel Demo.half_lit) with [[0%Z]] by reflexivity.
  unfold Np.std, Np.mean, Np.rsum.
  cbn [concat app map fold_right length INR].
  match goal with |- sqrt ?e = _ => replace e with 0 by lra end.
  apply sqrt_0.
Qed.

Lemma demo_low_contrast :
  low_contrast (cv := Demo.cv) Demo.gated Demo.whole (Demo.shot Demo.dark).
Proof.
  exists Demo.dark. split; [reflexivity|].
  rewrite preprocess_image_std. cbn [cvtColor Demo.cv].
  rewrite std_dark. cbn. lra.
Qed.

End DemoFacts.

(** ** The tracker state across frames *)

(** C1 (amended): on a frame on which contour scoring runs and finds no
    full match, [_center] and [_radius] keep their values and the failure
    counter [_last_detection] grows by one, but [_last_ellipse] is set to
    [None]: the spatial prior is dropped, only the anchors of the continuity
    tests are kept. *)
Theorem C1_failure_keeps_center_and_radius {frame : Type} {cv : CV2 frame}
    (self : PupilTracker) (small_mask : Np.image) (eye_roi : roi) (n : Z)
    (cap : capture frame) :
  no_detection self small_mask eye_roi cap ->
  let s := fst (track_frame self small_mask eye_roi n cap) in
  _last_ellipse s = None
  /\ _center s = _center self
  /\ _radius s = _radius self
  /\ _last_detection s = (_last_detection self + 1)%Z.
Proof.
  intros (fr & Hsc & Hnone). cbv zeta.
  rewrite (track_frame_scored _ _ _ n _ fr Hsc), Hnone.
  destruct (preprocess_image_keeps self fr eye_roi) as (_ & Hc & Hr & _).
  cbn. rewrite Hc, Hr. repeat split.
Qed.

Lemma C1_witness :
  no_detection (cv := Demo.cv) Demo.locked (Np.ones (10, 10)%nat) Demo.whole
    (Demo.shot Demo.dark)
  /\ (let s := fst (track_frame (cv := Demo.cv) Demo.locked
                      (Np.ones (10, 10)%nat) Demo.whole 1 (Demo.shot Demo.dark)) in
      _last_ellipse s = None
      /\ _center s = _center Demo.locked
      /\ _radius s = _radius Demo.locked
      /\ _last_detection s = (_last_detection Demo.locked + 1)%Z).
Proof.
  split.
  - apply demo_no_detection. reflexivity.
  - apply (C1_failure_keeps_center_and_radius (cv := Demo.cv)).
    apply demo_no_detection. reflexivity.
Defined.

(** C1 as stated fails: a tracker holding a last ellipse loses it on a
    no-detection frame. *)
Lemma C1_last_ellipse_cleared :
  no_detection (cv := Demo.cv) Demo.locked (Np.ones (10, 10)%nat) Demo.whole
    (Demo.shot Demo.dark)
  /\ _last_ellipse (fst (track_frame (cv := Demo.cv) Demo.locked
                           (Np.ones (10, 10)%nat) Demo.whole 1
                           (Demo.shot Demo.dark)))
     <> _last_ellipse Demo.locked.
Proof.
  assert (H : no_detection (cv := Demo.cv) Demo.locked (Np.ones (10, 10)%nat)
                Demo.whole (Demo.shot Demo.dark))
    by (apply demo_no_detection; reflexivity).
  split; [exact H|].
  destruct (no_detection_state _ _ _ 1%Z _ H) as (-> & _).
  discriminate.
Qed.

(** C4: a frame whose measured contrast is below [contrast_threshold]
    appends the dictionary of its frame id and frame intensity, and leaves
    [_last_ellipse], [_center], [_radius] and [_last_detection] as they
    were. *)
Theorem C4_low_contrast_frame {frame : Type} {cv : CV2 frame}
    (self : PupilTracker) (small_mask : Np.image) (eye_roi : roi) (n : Z)
    (cap : capture frame) :
  low_contrast self eye_roi cap ->
  (exists fr, read cap = Some fr
     /\ snd (track_frame self small_mask eye_roi n cap)
        = Ok (Untracked n (img_std_of (preprocess_image self fr eye_roi))))
  /\ (let s := fst (track_frame self small_mask eye_roi n cap) in
      _last_ellipse s = _last_ellipse self
      /\ _center s = _center self
      /\ _radius s = _radius self
      /\ _last_detection s = _last_detection self).
Proof.
  intros H. split.
  - destruct H as (fr & Hr & Hlt). exists fr. split; [exact Hr|].
    rewrite (track_frame_low_contrast _ _ _ _ _ fr Hr Hlt). reflexivity.
  - apply low_contrast_state, H.
Qed.

Lemma C4_witness :
  low_contrast (cv := Demo.cv) Demo.gated Demo.whole (Demo.shot Demo.dark)
  /\ _last_detection (fst (track_frame (cv := Demo.cv) Demo.gated
                             (Np.ones (10, 10)%nat) Demo.whole 7
                             (Demo.shot Demo.dark)))
     = 3%Z.
Proof.
  split; [exact demo_low_contrast|].
  apply (C4_low_contrast_frame (cv := Demo.cv) Demo.gated (Np.ones (10, 10)%nat)
           Demo.whole 7 (Demo.shot Demo.dark) demo_low_contrast).
Defined.

(** C3: the failure counter is 1 after construction; a frame with a
    detection sets it to 1; a frame on which scoring runs without a full
    match adds 1; so after the first [i] frames of a run of no-detection
    frames begun at [k] it is [k + i]; and it is at least 1 after any run
    of frames of a tracker in which it was at least 1. *)
Theorem C3_failure_counter {frame : Type} {cv : CV2 frame} :
  (forall p m s, init p m = Ok s -> _last_detection s = 1%Z)
  /\ (forall self small_mask eye_roi n (cap : capture frame) e,
        detection self small_mask eye_roi cap e ->
        _last_detection (fst (track_frame self small_mask eye_roi n cap)) = 1%Z)
  /\ (forall self small_mask eye_roi n (cap : capture frame),
        no_detection self small_mask eye_roi cap ->
        _last_detection (fst (track_frame self small_mask eye_roi n cap))
        = (_last_detection self + 1)%Z)
  /\ (forall self small_mask eye_roi n (caps : list (capture frame)) i,
        no_detection_run self small_mask eye_roi n caps ->
        (i <= length caps)%nat ->
        _last_detection (after_frames self small_mask eye_roi n (firstn i caps))
        = (_last_detection self + Z.of_nat i)%Z)
  /\ (forall self small_mask eye_roi n (caps : list (capture frame)),
        (1 <= _last_detection self)%Z ->
        (1 <= _last_detection (after_frames self small_mask eye_roi n caps))%Z).
Proof.
  repeat split.
  - intros p m s H. inversion H. reflexivity.
  - intros self small_mask eye_roi n cap e H.
    destruct (detection_state _ _ _ n _ _ H) as (fr & _ & _ & _ & _ & ->).
    reflexivity.
  - intros self small_mask eye_roi n cap H.
    apply (no_detection_state _ _ _ n _ H).
  - intros self small_mask eye_roi n caps i H Hi.
    rewrite (no_detection_run_counter small_mask eye_roi (firstn i caps) self n)
      by (apply no_detection_run_firstn, H).
    rewrite length_firstn, Nat.min_l by exact Hi. reflexivity.
  - intros self small_mask eye_roi n caps H.
    apply (after_frames_preserves (fun s => (1 <= _last_detection s)%Z));
      [|exact H].
    intros s k cap Hs. apply counter_step, Hs.
Qed.

Lemma demo_dark_run (s : PupilTracker) (n : Z) (k : nat) :
  _params s = Demo.p0 ->
  no_detection_run (cv := Demo.cv) s (Np.ones (10, 10)%nat) Demo.whole n
    (repeat (Demo.shot Demo.dark) k).
Proof.
  revert s n. induction k as [|k IH]; intros s n H;
    cbn [repeat no_detection_run]; [exact I|].
  split; [apply demo_no_detection, H|].
  split; [apply demo_uninterrupted|].
  apply IH. rewrite track_frame_params. exact H.
Qed.

Lemma C3_witness :
  no_detection_run (cv := Demo.cv) Demo.fresh (Np.ones (10, 10)%nat) Demo.whole 0
    (repeat (Demo.shot Demo.dark) 3)
  /\ _last_detection
       (after_frames (cv := Demo.cv) Demo.fresh (Np.ones (10, 10)%nat) Demo.whole 0
          (firstn 2 (repeat (Demo.shot Demo.dark) 3)))
     = (_last_detection Demo.fresh + 2)%Z.
Proof.
  split.
  - apply demo_dark_run. reflexivity.
  - apply (proj1 (proj2 (proj2 (proj2 (C3_failure_counter (cv := Demo.cv)))))
             Demo.fresh (Np.ones (10, 10)%nat) Demo.whole 0%Z
             (repeat (Demo.shot Demo.dark) 3) 2%nat).
    + apply demo_dark_run. reflexivity.
    + cbn. lia.
Defined.

(** C10: once [_center] and [_radius] are set they are never [None]
    again, whatever frames follow; after a detection and any further frames
    without a detection they still hold the normalized centre and the
    larger axis of the ellipse of that detection, and [dx] and [dr] of any
    candidate are measured from them; a no-detection frame clears
    [_last_ellipse] and not these anchors. *)
Theorem C10_anchors_persist {frame : Type} {cv : CV2 frame} :
  (forall self small_mask eye_roi n (caps : list (capture frame)),
     _center self <> None /\ _radius self <> None ->
     let s := after_frames self small_mask eye_roi n caps in
     _center s <> None /\ _radius s <> None)
  /\ (forall self small_mask eye_roi n (cap : capture frame) e caps,
        detection self small_mask eye_roi cap e ->
        uninterrupted cap ->
        no_success_run (fst (track_frame self small_mask eye_roi (n + 1) cap))
          small_mask eye_roi (n + 1) caps ->
        exists fr, read cap = Some fr /\
        let s := after_frames self small_mask eye_roi n (cap :: caps) in
        let sh := Np.shape (small_gray_of (preprocess_image self fr eye_roi)) in
        let c0 := (fst (e_center e) / INR (snd sh),
                   snd (e_center e) / INR (fst sh)) in
        let r0 := Rmax (fst (e_axes e)) (snd (e_axes e)) in
        _center s = Some c0
        /\ _radius s = Some r0
        /\ (forall c, dx_of s c
                      = sqrt ((fst c - fst c0) ^ 2 + (snd c - snd c0) ^ 2))
        /\ (forall r, dr_of s r = Rabs (r - r0) / r0))
  /\ (forall self small_mask eye_roi n (cap : capture frame),
        no_detection self small_mask eye_roi cap ->
        let s := fst (track_frame self small_mask eye_roi n cap) in
        _last_ellipse s = None
        /\ _center s = _center self /\ _radius s = _radius self).
Proof.
  split; [|split].
  - intros self small_mask eye_roi n caps H.
    apply (after_frames_preserves
             (fun s => _center s <> None /\ _radius s <> None)); [|exact H].
    intros s k cap Hs. apply anchors_set_step, Hs.
  - intros self small_mask eye_roi n cap e caps Hd Hk Hrun.
    destruct (detection_state _ _ _ (n + 1)%Z _ _ Hd)
      as (fr & Hr & _ & Hc & Hrad & _).
    exists fr. split; [exact Hr|]. cbv zeta.
    rewrite after_frames_cons.
    destruct (track_frame_ok self small_mask eye_roi (n + 1) cap Hk) as [rec ->].
    destruct (no_success_run_anchors _ _ _ _ _ Hrun) as [Hc' Hr'].
    rewrite Hc, Hrad in *.
    unfold dx_of, dr_of. rewrite Hc', Hr'. cbn [fst snd].
    repeat split; reflexivity.
  - intros self small_mask eye_roi n cap H.
    destruct (no_detection_state _ _ _ n _ H) as (H1 & H2 & H3 & _).
    cbv zeta. repeat split; assumption.
Qed.

Lemma demo_no_success_run (s : PupilTracker) (n : Z) (k : nat) :
  _params s = Demo.p0 ->
  no_success_run (cv := Demo.cv) s (Np.ones (10, 10)%nat) Demo.whole n
    (repeat (Demo.shot Demo.dark) k).
Proof.
  revert s n. induction k as [|k IH]; intros s n H;
    cbn [repeat no_success_run]; [exact I|].
  split; [intros e; apply demo_no_success, H|].
  apply IH. rewrite track_frame_params. exact H.
Qed.

Lemma C10_witness :
  detection (cv := Demo.cv) Demo.fresh (Np.ones (10, 10)%nat) Demo.whole
    (Demo.shot Demo.lit) Demo.circle
  /\ uninterrupted (Demo.shot Demo.lit)
  /\ no_success_run (cv := Demo.cv)
       (fst (track_frame (cv := Demo.cv) Demo.fresh (Np.ones (10, 10)%nat)
               Demo.whole (0 + 1) (Demo.shot Demo.lit)))
       (Np.ones (10, 10)%nat) Demo.whole (0 + 1)
       (repeat (Demo.shot Demo.dark) 2)
  /\ _radius
       (after_frames (cv := Demo.cv) Demo.fresh (Np.ones (10, 10)%nat) Demo.whole 0
          (Demo.shot Demo.lit :: repeat (Demo.shot Demo.dark) 2))
     = Some (Rmax 10 10).
Proof.
  assert (Hrun : no_success_run (cv := Demo.cv)
            (fst (track_frame (cv := Demo.cv) Demo.fresh (Np.ones (10, 10)%nat)
                    Demo.whole (0 + 1) (Demo.shot Demo.lit)))
            (Np.ones (10, 10)%nat) Demo.whole (0 + 1)
            (repeat (Demo.shot Demo.dark) 2))
    by (apply demo_no_success_run; rewrite track_frame_params; reflexivity).
  split; [exact demo_detection|].
  split; [apply demo_uninterrupted|].
  split; [exact Hrun|].
  destruct (proj1 (proj2 (C10_anchors_persist (cv := Demo.cv)))
              Demo.fresh (Np.ones (10, 10)%nat) Demo.whole 0%Z
              (Demo.shot Demo.lit) Demo.circle (repeat (Demo.shot Demo.dark) 2)
              demo_detection (demo_uninterrupted Demo.lit) Hrun)
    as (fr & _ & _ & H & _).
  exact H.
Defined.

Lemma C2_witness :
  (exists ce, In ce (candidates (cv := Demo.cv) Demo.fresh (Np.ones (10, 10)%nat)
                       [Demo.ring])
              /\ full_match Demo.fresh (Np.shape Demo.lit) ce)
  /\ exists i ce,
       nth_error (candidates (cv := Demo.cv) Demo.fresh (Np.ones (10, 10)%nat)
                    [Demo.ring]) i = Some ce
       /\ full_match Demo.fresh (Np.shape Demo.lit) ce
       /\ snd (get_pupil_from_contours (cv := Demo.cv) Demo.fresh [Demo.ring]
                 Demo.lit (Np.ones (10, 10)%nat))
          = (Some (fst ce), Some (snd ce))
       /\ forall j ce',
            nth_error (candidates (cv := Demo.cv) Demo.fresh
                         (Np.ones (10, 10)%nat) [Demo.ring]) j = Some ce' ->
            full_match Demo.fresh (Np.shape Demo.lit) ce' ->
            rmse ce <= rmse ce' /\ ((j < i)%nat -> rmse ce < rmse ce').
Proof.
  assert (H : exists ce,
            In ce (candidates (cv := Demo.cv) Demo.fresh (Np.ones (10, 10)%nat)
                     [Demo.ring])
            /\ full_match Demo.fresh (Np.shape Demo.lit) ce).
  { exists (Demo.ring, Demo.circle). split.
    - unfold candidates. cbn [flat_map]. rewrite demo_fit by reflexivity.
      left. reflexivity.
    - apply matching_conditions_7. exact demo_criteria. }
  split; [exact H|].
  exact (proj1 (C2_best_of_full_matches (cv := Demo.cv) Demo.fresh [Demo.ring]
                  Demo.lit (Np.ones (10, 10)%nat)) H).
Defined.

(** ** The relative area *)

Lemma PI_lt_4 : PI < 4.
Proof.
  pose proof (PI_ineq 1) as [_ H].
  unfold sum_f_R0, tg_alt, PI_tg in H. cbn [Nat.mul Nat.add INR pow] in H. lra.
Qed.

Lemma Rmax_Rmin_mult (a b : R) : Rmax a b * Rmin a b = a * b.
Proof. unfold Rmax, Rmin. destruct (Rle_dec a b); ring. Qed.

(** C5 (amended): the relative area tested against
    [relative_area_threshold] is the product of the two axis lengths, that
    is the area of the rotated rectangle enclosing the ellipse, over the
    area of the crop; the geometric area of the ellipse over the area of the
    crop is pi/4 times it. *)
Theorem C5_relative_area_of_enclosing_rectangle (self : PupilTracker)
    (shape : nat * nat) (cnt : contour) (e : ellipse) :
  let axes := e_axes e in
  let area := fst axes * snd axes / INR (fst shape * snd shape) in
  area_of axes shape = area
  /\ geometric_relative_area axes shape = PI / 4 * area
  /\ (matching_conditions self shape cnt e = 7%Z ->
      relative_area_threshold (_params self) <= area)
  /\ (area < relative_area_threshold (_params self) ->
      matching_conditions self shape cnt e <> 7%Z).
Proof.
  cbv zeta. split; [reflexivity|]. split.
  - unfold geometric_relative_area.
    replace (PI * Rmax (fst (e_axes e)) (snd (e_axes e))
             * Rmin (fst (e_axes e)) (snd (e_axes e)))
      with (PI * (Rmax (fst (e_axes e)) (snd (e_axes e))
                  * Rmin (fst (e_axes e)) (snd (e_axes e)))) by ring.
    rewrite Rmax_Rmin_mult. unfold Rdiv. ring.
  - assert (H7 : matching_conditions self shape cnt e = 7%Z ->
                 relative_area_threshold (_params self)
                 <= fst (e_axes e) * snd (e_axes e) / INR (fst shape * snd shape)).
    { intros H. apply matching_conditions_7 in H.
      destruct H as (_ & H & _). exact H. }
    split; [exact H7|]. intros Hlt H. apply H7 in H. lra.
Qed.

Lemma C5_witness :
  matching_conditions Demo.fresh (10, 10)%nat Demo.ring Demo.circle = 7%Z
  /\ relative_area_threshold (_params Demo.fresh)
     <= fst (e_axes Demo.circle) * snd (e_axes Demo.circle)
        / INR (fst (10, 10)%nat * snd (10, 10)%nat).
Proof.
  assert (H : matching_conditions Demo.fresh (10, 10)%nat Demo.ring Demo.circle
              = 7%Z)
    by (apply matching_conditions_7, demo_criteria).
  split; [exact H|].
  exact (proj1 (proj2 (proj2 (C5_relative_area_of_enclosing_rectangle
                                Demo.fresh (10, 10)%nat Demo.ring Demo.circle)))
           H).
Defined.

(** C5 as stated fails: for a circle of diameter 10 in a crop of 10 by 10
    the tested area is 1 and passes a threshold of 1, the geometric
    relative area is pi/4 and does not. *)
Lemma C5_area_is_not_geometric :
  area_of (e_axes Demo.circle) (10, 10)%nat
  <> geometric_relative_area (e_axes Demo.circle) (10, 10)%nat
  /\ Rgeb (area_of (e_axes Demo.circle) (10, 10)%nat) 1 = true
  /\ Rgeb (geometric_relative_area (e_axes Demo.circle) (10, 10)%nat) 1 = false.
Proof.
  pose proof PI_lt_4 as Hpi.
  assert (Ha : area_of (e_axes Demo.circle) (10, 10)%nat = 1).
  { unfold area_of, Demo.circle, e_axes. cbn [fst snd].
    rewrite INR_IZR_INZ. replace (Z.of_nat (10 * 10)) with 100%Z by reflexivity.
    lra. }
  assert (Hg : geometric_relative_area (e_axes Demo.circle) (10, 10)%nat = PI / 4).
  { unfold geometric_relative_area, Demo.circle, e_axes. cbn [fst snd].
    rewrite INR_IZR_INZ. replace (Z.of_nat (10 * 10)) with 100%Z by reflexivity.
    unfold Rmax, Rmin. destruct (Rle_dec 10 10); lra. }
  rewrite Ha, Hg. split; [lra|]. split.
  - apply Rgeb_true. lra.
  - unfold Rgeb, Rleb. destruct (Rle_dec 1 (PI / 4)); [lra | reflexivity].
Qed.

(** ** The contrast gate *)

(** C6 (amended): the contrast compared against [contrast_threshold] is the
    standard deviation of the whole gray frame, whatever the region of
    interest: below the threshold the frame is skipped, otherwise contour
    scoring runs and its ellipse becomes [_last_ellipse]. *)
Theorem C6_contrast_of_full_frame {frame : Type} {cv : CV2 frame}
    (self : PupilTracker) (small_mask : Np.image) (eye_roi : roi) (n : Z)
    (cap : capture frame) (fr : frame) :
  img_std_of (preprocess_image self fr eye_roi) = Np.std (cvtColor fr)
  /\ (read cap = Some fr ->
      Np.std (cvtColor fr) < contrast_threshold (_params self) ->
      track_frame self small_mask eye_roi n cap
      = (fst (preprocess_image self fr eye_roi),
         Ok (Untracked n (Np.std (cvtColor fr)))))
  /\ (read cap = Some fr ->
      ~ Np.std (cvtColor fr) < contrast_threshold (_params self) ->
      _last_ellipse (fst (track_frame self small_mask eye_roi n cap))
      = snd (snd (scoring self small_mask eye_roi fr))).
Proof.
  pose proof (preprocess_image_std self fr eye_roi) as Hs.
  split; [exact Hs|]. split.
  - intros Hr Hlt. rewrite <- Hs in Hlt |- *.
    apply track_frame_low_contrast; assumption.
  - intros Hr Hge. rewrite <- Hs in Hge.
    rewrite (track_frame_scored _ _ _ n _ fr (conj Hr Hge)).
    destruct (snd (snd (scoring self small_mask eye_roi fr))); reflexivity.
Qed.

Lemma C6_witness :
  read (Demo.shot Demo.dark) = Some Demo.dark
  /\ Np.std (cvtColor (CV2 := Demo.cv) Demo.dark)
     < contrast_threshold (_params Demo.gated)
  /\ track_frame (cv := Demo.cv) Demo.gated (Np.ones (10, 10)%nat) Demo.whole 7
       (Demo.shot Demo.dark)
     = (fst (preprocess_image (cv := Demo.cv) Demo.gated Demo.dark Demo.whole),
        Ok (Untracked 7 (Np.std (cvtColor (CV2 := Demo.cv) Demo.dark)))).
Proof.
  assert (H : Np.std (cvtColor (CV2 := Demo.cv) Demo.dark)
              < contrast_threshold (_params Demo.gated)).
  { cbn [cvtColor Demo.cv]. rewrite std_dark. cbn. lra. }
  split; [reflexivity|]. split; [exact H|].
  exact (proj1 (proj2 (C6_contrast_of_full_frame (cv := Demo.cv) Demo.gated
                         (Np.ones (10, 10)%nat) Demo.whole 7
                         (Demo.shot Demo.dark) Demo.dark))
           eq_refl H).
Defined.

(** C6 as stated fails: for a frame of a black and a white pixel whose
    region of interest is the black pixel, the crop has no contrast, yet the
    measured contrast is 255/2, the frame passes a threshold of 5 and is
    scored, which raises the failure counter. *)
Lemma C6_crop_contrast_ignored :
  img_std_of (preprocess_image (cv := Demo.cv) Demo.gated Demo.half_lit
                Demo.left_pixel)
  <> Np.std (Np.crop Demo.left_pixel (cvtColor (CV2 := Demo.cv) Demo.half_lit))
  /\ Np.std (Np.crop Demo.left_pixel (cvtColor (CV2 := Demo.cv) Demo.half_lit))
     < contrast_threshold (_params Demo.gated)
  /\ ~ img_std_of (preprocess_image (cv := Demo.cv) Demo.gated Demo.half_lit
                     Demo.left_pixel)
       < contrast_threshold (_params Demo.gated)
  /\ _last_detection
       (fst (track_frame (cv := Demo.cv) Demo.gated (Np.ones (1, 1)%nat)
               Demo.left_pixel 1 (Demo.shot Demo.half_lit)))
     = (_last_detection Demo.gated + 1)%Z.
Proof.
  assert (Hge : ~ img_std_of (preprocess_image (cv := Demo.cv) Demo.gated
                                Demo.half_lit Demo.left_pixel)
                  < contrast_threshold (_params Demo.gated)).
  { rewrite preprocess_image_std. cbn [cvtColor Demo.cv].
    rewrite std_half_lit. cbn. lra. }
  split; [|split; [|split; [exact Hge|]]].
  - rewrite preprocess_image_std. cbn [cvtColor Demo.cv].
    rewrite std_half_lit, std_left_pixel. lra.
  - cbn [cvtColor Demo.cv]. rewrite std_left_pixel. cbn. lra.
  - assert (Hn : no_detection (cv := Demo.cv) Demo.gated (Np.ones (1, 1)%nat)
                   Demo.left_pixel (Demo.shot Demo.half_lit)).
    { exists Demo.half_lit. split; [split; [reflexivity | exact Hge]|].
      unfold scoring. rewrite demo_preprocess by reflexivity. reflexivity. }
    apply (no_detection_state _ _ _ 1%Z _ Hn).
Qed.

(** ** Construction *)

(** C7 (amended): the constructor never fails and checks nothing: for
    every configuration, malformed or not, it returns a tracker that holds
    the configuration and the mask as given, no centre, radius or last
    ellipse, and a failure counter of 1. *)
Theorem C7_construction_never_fails (p : params) (m : option Np.image) :
  (forall e, init p m <> Raise e)
  /\ exists s, init p m = Ok s
       /\ _params s = p /\ _mask s = m
       /\ _center s = None /\ _radius s = None /\ _last_ellipse s = None
       /\ _last_detection s = 1%Z.
Proof.
  split; [intros e; discriminate|].
  eexists. split; [reflexivity|]. repeat split.
Qed.

(** C7 as stated fails: a configuration with a contour length of 4, a
    blur half-width of 0 and a margin of 7/10 constructs a tracker, with
    these values unchanged. *)
Lemma C7_malformed_accepted :
  malformed Demo.bad
  /\ ((min_contour_len Demo.bad < 5)%Z
      /\ (gaussian_blur Demo.bad <= 0)%Z
      /\ ~ (0 < margin Demo.bad < 1 / 2))
  /\ exists s, init Demo.bad None = Ok s /\ _params s = Demo.bad.
Proof.
  split; [left; cbn; lia|]. split.
  - cbn. repeat split; try lia. intros [_ H]. lra.
  - eexists. split; reflexivity.
Qed.

(** ** Goodness of fit *)

Lemma fit_step_residual (center size : R * R) (angle err : R) (coord : point) :
  fit_step center size (angle * (PI / 180)) err coord
  = err + conic_residual (fst size) (snd size) (local_frame center angle coord).
Proof. reflexivity. Qed.

(** The accumulating loop computes the sum of the residuals. *)
Lemma fold_fit_step (center size : R * R) (angle : R) (cnt : contour) :
  forall err,
  fold_left (fit_step center size (angle * (PI / 180))) cnt err
  = err + Np.rsum (map (fun p => conic_residual (fst size) (snd size)
                                   (local_frame center angle p)) cnt).
Proof.
  induction cnt as [|p cnt IH]; intros err; cbn [fold_left map Np.rsum fold_right].
  - ring.
  - rewrite IH, fit_step_residual. unfold Np.rsum. ring.
Qed.

Lemma goodness_of_fit_rms (cnt : contour) (e : ellipse) :
  goodness_of_fit cnt e = rms_residual (fst (e_axes e)) (snd (e_axes e)) cnt e.
Proof.
  destruct e as [[center size] angle].
  unfold goodness_of_fit, rms_residual, Np.mean, e_axes, e_center, e_angle.
  cbn [fst snd]. rewrite fold_fit_step, length_map, Rplus_0_l. reflexivity.
Qed.




(** ** The running average *)

Lemma nth_error_map2 {A B C : Type} (f : A -> B -> C) (l : list A) :
  forall (m : list B) j x y,
  nth_error l j = Some x -> nth_error m j = Some y ->
  nth_error (Np.map2 f l m) j = Some (f x y).
Proof.
  induction l as [|a l IH]; intros [|b m] [|j] x y Hx Hy; try discriminate.
  - inversion Hx; inversion Hy; reflexivity.
  - cbn in *. apply (IH m j x y Hx Hy).
Qed.

(** Each pixel of the updated running average. *)
Lemma running_avg_next_pixel (c p : R)
    (small_gray : Np.image) (avg : Np.fimage) i j row arow v a :
  nth_error small_gray i = Some row -> nth_error avg i = Some arow ->
  nth_error row j = Some v -> nth_error arow j = Some a ->
  exists row',
    nth_error (running_avg_next c p small_gray avg) i = Some row'
    /\ nth_error row' j
       = Some (c * Np.power (IZR v / 255) p * 255 + (1 - c) * a).
Proof.
  intros Hrow Harow Hv Ha. unfold running_avg_next.
  eexists. split.
  - apply nth_error_map2; eassumption.
  - apply (nth_error_map2
             (fun v a => c * Np.power (IZR v / 255) p * 255 + (1 - c) * a));
      assumption.
Qed.

(** C9 (amended): in the 'extreme meso' mode the blur is fed the running
    average cast to 8 bits, updated pixel by pixel as
    c (crop/255)^p 255 + (1 - c) R_prev, on every frame but the first; on
    the first frame, where there is no average yet, the average is set to
    (crop/255)^p 255 and the blur is fed the raw gray crop. *)
Theorem C9_running_average {frame : Type} {cv : CV2 frame}
    (self : PupilTracker) (fr : frame) (eye_roi : roi) :
  extreme_meso (_params self) = Some true ->
  let pre := preprocess_image self fr eye_roi in
  let crop := Np.crop eye_roi (cvtColor fr) in
  let c := running_avg (_params self) in
  let p := exponent (_params self) in
  blur_of pre = GaussianBlur (small_gray_of pre) (2 * gaussian_blur (_params self) + 1)
  /\ match _running_avg self with
     | None =>
         small_gray_of pre = crop
         /\ _running_avg (fst pre)
            = Some (map (map (fun v => Np.power (IZR v / 255) p * 255)) crop)
     | Some avg =>
         exists avg',
           _running_avg (fst pre) = Some avg'
           /\ small_gray_of pre = map (map Np.uint8) avg'
           /\ forall i j row arow v a,
                nth_error crop i = Some row -> nth_error avg i = Some arow ->
                nth_error row j = Some v -> nth_error arow j = Some a ->
                exists row',
                  nth_error avg' i = Some row'
                  /\ nth_error row' j
                     = Some (c * Np.power (IZR v / 255) p * 255 + (1 - c) * a)
     end.
Proof.
  intros H. cbv zeta. unfold preprocess_image. rewrite H.
  destruct (_running_avg self) as [avg|]; cbn [fst snd blur_of small_gray_of].
  - split; [reflexivity|].
    eexists. split; [reflexivity|]. split; [reflexivity|].
    intros i j row arow v a. apply running_avg_next_pixel.
  - split; [reflexivity|]. split; reflexivity.
Qed.

Lemma C9_witness :
  extreme_meso (_params Demo.meso) = Some true
  /\ blur_of (preprocess_image (cv := Demo.cv) Demo.meso Demo.dim Demo.left_pixel)
     = GaussianBlur (CV2 := Demo.cv)
         (small_gray_of (preprocess_image (cv := Demo.cv) Demo.meso Demo.dim
                           Demo.left_pixel))
         (2 * gaussian_blur (_params Demo.meso) + 1).
Proof.
  split; [reflexivity|].
  apply (C9_running_average (cv := Demo.cv) Demo.meso Demo.dim Demo.left_pixel).
  reflexivity.
Defined.

Lemma power_dim : Np.power (IZR 51 / 255) 2 * 255 = 51 / 5.
Proof.
  unfold Np.power. destruct (Req_dec_T (51 / 255) 0) as [H | _]; [lra|].
  replace 2 with (INR 2) by (cbn; lra).
  rewrite Rpower_pow by lra. cbn [pow]. lra.
Qed.

Lemma uint8_dim : Np.uint8 (51 / 5) = 10%Z.
Proof.
  unfold Np.uint8, Np.trunc. destruct (Rle_dec 0 (51 / 5)) as [_ | H]; [|lra].
  rewrite <- (Int_part_spec (51 / 5) 10) by lra. reflexivity.
Qed.

(** C9 as stated fails on the first frame: with exponent 2 and a crop of
    one pixel of value 51 the running average becomes 10.2, that is 10 as
    8 bits, and the blur is fed the raw crop, 51. *)
Lemma C9_first_frame_is_raw :
  let pre := preprocess_image (cv := Demo.cv) Demo.meso Demo.dim Demo.left_pixel in
  extreme_meso (_params Demo.meso) = Some true
  /\ _running_avg Demo.meso = None
  /\ small_gray_of pre = [[51%Z]]
  /\ blur_of pre = GaussianBlur (CV2 := Demo.cv) [[51%Z]] 3
  /\ exists avg,
       _running_avg (fst pre) = Some avg
       /\ map (map Np.uint8) avg = [[10%Z]]
       /\ small_gray_of pre <> map (map Np.uint8) avg.
Proof.
  cbv zeta. split; [reflexivity|]. split; [reflexivity|].
  split; [reflexivity|]. split; [reflexivity|].
  eexists. split; [reflexivity|].
  assert (H : map (map Np.uint8)
                (running_avg_first (exponent (_params Demo.meso))
                   (Np.crop Demo.left_pixel (cvtColor (CV2 := Demo.cv) Demo.dim)))
              = [[10%Z]]).
  { replace (Np.crop Demo.left_pixel (cvtColor (CV2 := Demo.cv) Demo.dim))
      with [[51%Z]] by reflexivity.
    cbn [Demo.meso _params exponent Demo.p_meso].
    unfold running_avg_first. cbn [map].
    rewrite power_dim, uint8_dim. reflexivity. }
  split; [exact H|].
  change (small_gray_of (preprocess_image (cv := Demo.cv) Demo.meso Demo.dim
                           Demo.left_pixel)) with [[51%Z]].
  intros E.
  match type of E with
  | _ = ?r =>
      change r with
        (map (map Np.uint8)
           (running_avg_first (exponent (_params Demo.meso))
              (Np.crop Demo.left_pixel (cvtColor (CV2 := Demo.cv) Demo.dim)))) in E
  end.
  rewrite H in E. discriminate E.
Qed.

(** * Further properties *)

(** ** Admissible detections *)

Section Admissible.

Context {frame : Type} {cv : CV2 frame}.

Lemma candidates_in self mask contours ce :
  In ce (candidates self mask contours) ->
  exists cnt, In cnt contours /\ fit_contour self mask cnt = Some ce.
Proof.
  unfold candidates. intros H. apply in_flat_map in H as (cnt & Hin & H).
  exists cnt. split; [exact Hin|].
  destruct (fit_contour self mask cnt) as [ce'|]; [|destruct H].
  destruct H as [<- | []]. reflexivity.
Qed.

Lemma fit_contour_some self mask cnt c e :
  fit_contour self mask cnt = Some (c, e) ->
  c = filter (fun p => (0 <? Np.pixel (erode mask) (snd p) (fst p))%Z) cnt
  /\ (min_contour_len (_params self) <= Z.of_nat (length c))%Z
  /\ e = fitEllipse c
  /\ Rmin (fst (e_axes e)) (snd (e_axes e)) <> 0.
Proof.
  unfold fit_contour.
  destruct (Z.of_nat _ <? _)%Z eqn:Hlen; [discriminate|].
  destruct (Reqb _ 0) eqn:Hz; [discriminate|].
  intros H. inversion H; subst. apply Z.ltb_ge in Hlen. apply Reqb_false in Hz.
  repeat split; assumption.
Qed.

Lemma get_pupil_from_contours_some self contours small_gray mask c e :
  snd (get_pupil_from_contours self contours small_gray mask) = (Some c, Some e) ->
  In (c, e) (candidates self mask contours)
  /\ full_match self (Np.shape small_gray) (c, e).
Proof.
  intros H.
  destruct (get_pupil_from_contours_selection self contours small_gray mask)
    as (err & [[Heq _] | (i & b & Hi & Hb & Heq & _)]);
    rewrite H in Heq; cbn [fst snd] in Heq; inversion Heq; subst.
  destruct b as [c' e']. cbn [fst snd] in *.
  split; [eapply nth_error_In; eassumption | exact Hb].
Qed.

(** X1: a contour and ellipse returned by [get_pupil_from_contours] pass the
    seven tests in the state of the call; the contour is one of the input
    contours restricted to the eroded mask, has at least [min_contour_len]
    points, and the ellipse is its fit, with no zero axis. *)
Theorem X1_detection_is_admissible (self : PupilTracker)
    (contours : list contour) (small_gray mask : Np.image)
    (c : contour) (e : ellipse) :
  snd (get_pupil_from_contours self contours small_gray mask) = (Some c, Some e) ->
  all_criteria self (Np.shape small_gray) c e
  /\ (exists cnt, In cnt contours
        /\ c = filter (fun p => (0 <? Np.pixel (erode mask) (snd p) (fst p))%Z) cnt)
  /\ (min_contour_len (_params self) <= Z.of_nat (length c))%Z
  /\ e = fitEllipse c
  /\ Rmin (fst (e_axes e)) (snd (e_axes e)) <> 0.
Proof.
  intros H. apply get_pupil_from_contours_some in H as [Hin Hf].
  apply candidates_in in Hin as (cnt & Hcnt & Hfit).
  apply fit_contour_some in Hfit as (Hc & Hlen & He & Hax).
  split; [apply matching_conditions_7; exact Hf|].
  split; [exists cnt; split; assumption|].
  repeat split; assumption.
Qed.

End Admissible.

Lemma demo_get_pupil :
  snd (get_pupil_from_contours (cv := Demo.cv) Demo.fresh [Demo.ring] Demo.lit
         (Np.ones (10, 10)%nat))
  = (Some Demo.ring, Some Demo.circle).
Proof.
  unfold get_pupil_from_contours. cbn [fold_left]. unfold scan.
  rewrite demo_fit by reflexivity. cbn [fst snd lt_err andb].
  replace (Np.shape Demo.lit) with (10, 10)%nat by reflexivity.
  rewrite (proj2 (matching_conditions_7 _ _ _ _) demo_criteria).
  reflexivity.
Qed.

Lemma X1_witness :
  snd (get_pupil_from_contours (cv := Demo.cv) Demo.fresh [Demo.ring] Demo.lit
         (Np.ones (10, 10)%nat))
  = (Some Demo.ring, Some Demo.circle)
  /\ all_criteria Demo.fresh (Np.shape Demo.lit) Demo.ring Demo.circle.
Proof.
  split; [exact demo_get_pupil|].
  apply (X1_detection_is_admissible (cv := Demo.cv) Demo.fresh [Demo.ring]
           Demo.lit (Np.ones (10, 10)%nat) Demo.ring Demo.circle demo_get_pupil).
Defined.

(** ** Relaxation of the continuity tests *)

Lemma dx_of_nonneg (self : PupilTracker) (c : R * R) : 0 <= dx_of self c.
Proof.
  unfold dx_of. destruct (_center self); [apply sqrt_pos | lra].
Qed.

(** X2: when the speed and radius thresholds are not negative, a candidate
    that passes the seven tests at a failure counter [k] passes them at
    every larger counter: the continuity tests only get looser as failures
    accumulate. *)
Theorem X2_failures_relax_continuity (self : PupilTracker) (shape : nat * nat)
    (cnt : contour) (e : ellipse) (k k' : Z) :
  0 <= speed_threshold (_params self) ->
  0 <= dr_threshold (_params self) ->
  (k <= k')%Z ->
  matching_conditions (with_counter k self) shape cnt e = 7%Z ->
  matching_conditions (with_counter k' self) shape cnt e = 7%Z.
Proof.
  intros Hs Hd Hk H. apply matching_conditions_7 in H. apply matching_conditions_7.
  unfold all_criteria, with_counter, dx_of, dr_of in *.
  cbn [set_last_detection _params _center _radius _last_detection] in *.
  destruct H as (H1 & H2 & H3 & H4 & H5 & H6 & H7).
  apply IZR_le in Hk.
  repeat (split; [assumption|]). split.
  - eapply Rlt_le_trans; [exact H6|]. apply Rmult_le_compat_l; assumption.
  - eapply Rlt_le_trans; [exact H7|]. apply Rmult_le_compat_l; assumption.
Qed.

Lemma X2_witness :
  0 <= speed_threshold (_params Demo.fresh)
  /\ 0 <= dr_threshold (_params Demo.fresh)
  /\ (1 <= 4)%Z
  /\ matching_conditions (with_counter 1 Demo.fresh) (10, 10)%nat Demo.ring
       Demo.circle = 7%Z
  /\ matching_conditions (with_counter 4 Demo.fresh) (10, 10)%nat Demo.ring
       Demo.circle = 7%Z.
Proof.
  assert (H : matching_conditions (with_counter 1 Demo.fresh) (10, 10)%nat
                Demo.ring Demo.circle = 7%Z)
    by (apply matching_conditions_7; exact demo_criteria).
  assert (Hs : 0 <= speed_threshold (_params Demo.fresh)) by (cbn; lra).
  assert (Hd : 0 <= dr_threshold (_params Demo.fresh)) by (cbn; lra).
  assert (Hk : (1 <= 4)%Z) by lia.
  repeat (split; [assumption|]).
  exact (X2_failures_relax_continuity Demo.fresh (10, 10)%nat Demo.ring
           Demo.circle 1 4 Hs Hd Hk H).
Defined.

(** ** The records of a run *)

Section Records.

Context {frame : Type} {cv : CV2 frame}.


(** The dictionaries gathered before a run stay in front of its own. *)
Lemma track_loop_traces small_mask eye_roi (caps : list (capture frame)) :
  forall self n tr,
  snd (track_loop self small_mask eye_roi n caps tr)
  = match snd (track_loop self small_mask eye_roi n caps []) with
    | Ok recs => Ok (tr ++ recs)
    | Raise e => Raise e
    end.
Proof.
  induction caps as [|cap caps IH]; intros s n tr; cbn.
  - rewrite app_nil_r. reflexivity.
  - destruct (track_frame s small_mask eye_roi (n + 1) cap) as [s1 [rec|err]];
      [|reflexivity].
    rewrite (IH s1 (n + 1)%Z (tr ++ [rec])), (IH s1 (n + 1)%Z [rec]).
    destruct (snd (track_loop s1 small_mask eye_roi (n + 1) caps [])); [|reflexivity].
    rewrite <- app_assoc. reflexivity.
Qed.

Lemma track_loop_cons self small_mask eye_roi n (cap : capture frame) caps :
  snd (track_loop self small_mask eye_roi n (cap :: caps) [])
  = match snd (track_frame self small_mask eye_roi (n + 1) cap) with
    | Ok rec =>
        match snd (track_loop (fst (track_frame self small_mask eye_roi (n + 1) cap))
                     small_mask eye_roi (n + 1) caps []) with
        | Ok recs => Ok (rec :: recs)
        | Raise e => Raise e
        end
    | Raise e => Raise e
    end.
Proof.
  cbn [track_loop].
  destruct (track_frame self small_mask eye_roi (n + 1) cap) as [s1 [rec|err]];
    cbn [fst snd]; [|reflexivity].
  rewrite track_loop_traces. reflexivity.
Qed.

Lemma frame_ids_cons (n : Z) (k : nat) :
  frame_ids n (S k) = (n + 1)%Z :: frame_ids (n + 1) k.
Proof.
  unfold frame_ids. cbn [seq map]. f_equal; [lia|].
  rewrite <- seq_shift, map_map. apply map_ext. intros i. lia.
Qed.


Lemma performed_reads_length (v : video frame) :
  length (performed_reads v)
  = if isOpened v then Z.to_nat (frame_count v) else 0%nat.
Proof.
  unfold performed_reads. destruct (isOpened v); [|reflexivity].
  rewrite length_map, length_seq. reflexivity.
Qed.




(** A run of reads that return no frame. *)
Lemma track_loop_no_frames small_mask eye_roi (caps : list (capture frame)) :
  forall self n,
  Forall (fun cap => read cap = None) caps ->
  track_loop self small_mask eye_roi n caps []
  = (self, Ok (map Dropped (frame_ids n (length caps)))).
Proof.
  induction caps as [|cap caps IH]; intros s n H; [reflexivity|].
  inversion H as [|? ? Hcap Hcaps]; subst.
  pose proof (IH s (n + 1)%Z Hcaps) as Hrest.
  pose proof (track_loop_state small_mask eye_roi caps s (n + 1)%Z
                ([] ++ [Dropped (n + 1)]) []) as Hst.
  pose proof (track_loop_traces small_mask eye_roi caps s (n + 1)%Z
                ([] ++ [Dropped (n + 1)])) as Htr.
  cbn [track_loop]. rewrite (track_frame_dropped _ _ _ _ _ Hcap).
  rewrite Hrest in Hst, Htr. cbn [fst snd] in Hst, Htr.
  rewrite (surjective_pairing (track_loop _ _ _ _ caps _)), Hst, Htr.
  cbn [length]. rewrite frame_ids_cons. reflexivity.
Qed.

(** X6: when the video opens but its stream yields no frame, [track]
    leaves the tracker as it is and returns one [{frame_id}] dictionary per
    announced frame. *)
Theorem X6_unreadable_video_is_all_dropped (self : PupilTracker)
    (v : video frame) (eye_roi : roi) :
  isOpened v = true ->
  reads v = [] ->
  track self v eye_roi
  = (self, Ok (map Dropped (frame_ids 0 (Z.to_nat (frame_count v))))).
Proof.
  intros Ho Hr. unfold track.
  rewrite track_loop_no_frames.
  - rewrite performed_reads_length, Ho. reflexivity.
  - unfold performed_reads. rewrite Ho, Hr. apply Forall_forall.
    intros cap Hin. apply in_map_iff in Hin as (i & <- & _).
    destruct i; reflexivity.
Qed.

End Records.



Lemma X6_witness :
  isOpened Sample.blank = true
  /\ reads Sample.blank = []
  /\ track (cv := Demo.cv) Demo.locked Sample.blank Demo.whole
     = (Demo.locked, Ok [Dropped 1; Dropped 2; Dropped 3]).
Proof.
  split; [reflexivity|]. split; [reflexivity|].
  exact (X6_unreadable_video_is_all_dropped (cv := Demo.cv) Demo.locked
           Sample.blank Demo.whole eq_refl eq_refl).
Defined.

(** ** A speed threshold that nothing passes *)

Section Still.

Context {frame : Type} {cv : CV2 frame}.

Lemma still_no_match self contours small_gray mask :
  speed_threshold (_params self) <= 0 ->
  (0 <= _last_detection self)%Z ->
  snd (get_pupil_from_contours self contours small_gray mask) = (None, None).
Proof.
  intros Hs Hk.
  destruct (get_pupil_from_contours_cases self contours small_gray mask)
    as [[H _] | (c & e & H & _)]; [exact H|].
  apply get_pupil_from_contours_some in H as [_ Hf].
  apply matching_conditions_7 in Hf.
  destruct Hf as (_ & _ & _ & _ & _ & Hdx & _). cbn [fst snd] in Hdx.
  pose proof (dx_of_nonneg self
                (center_of (e_center e) (Np.shape small_gray))) as Hp.
  apply IZR_le in Hk.
  assert (speed_threshold (_params self) * IZR (_last_detection self) <= 0)
    by nra.
  lra.
Qed.

Lemma still_frame self small_mask eye_roi (cap : capture frame) :
  speed_threshold (_params self) <= 0 ->
  (1 <= _last_detection self)%Z ->
  forall e, ~ detection self small_mask eye_roi cap e.
Proof.
  intros Hs Hk e (fr & _ & He). unfold scoring in He.
  destruct (preprocess_image_keeps self fr eye_roi) as (Hp & _ & _ & _ & Hd & _).
  rewrite still_no_match in He; [discriminate He| |].
  - rewrite Hp. exact Hs.
  - rewrite Hd. lia.
Qed.

Lemma still_record self small_mask eye_roi n (cap : capture frame) rec :
  speed_threshold (_params self) <= 0 ->
  (1 <= _last_detection self)%Z ->
  snd (track_frame self small_mask eye_roi n cap) = Ok rec ->
  is_tracked rec = false.
Proof.
  intros Hs Hk H.
  destruct (frame_cases self small_mask eye_roi cap)
    as [Hd | [(fr & Hr & Hlt) | [(fr & Hsc & Hn) | [e He]]]].
  - rewrite track_frame_dropped in H by exact Hd. inversion H. reflexivity.
  - rewrite (track_frame_low_contrast _ _ _ _ _ fr Hr Hlt) in H.
    inversion H. reflexivity.
  - pose proof (track_frame_scored_trace _ _ _ _ _ fr rec Hsc H) as Ht.
    rewrite Hn in Ht. subst rec. reflexivity.
  - destruct (still_frame self small_mask eye_roi cap Hs Hk e He).
Qed.

Lemma still_run small_mask eye_roi (caps : list (capture frame)) :
  forall self n,
  speed_threshold (_params self) <= 0 ->
  (1 <= _last_detection self)%Z ->
  match snd (track_loop self small_mask eye_roi n caps []) with
  | Ok traces => Forall (fun t => is_tracked t = false) traces
  | Raise _ => True
  end.
Proof.
  induction caps as [|cap caps IH]; intros s n Hs Hk.
  - constructor.
  - rewrite track_loop_cons.
    destruct (snd (track_frame s small_mask eye_roi (n + 1) cap)) as [rec|err] eqn:Hrec;
      [|exact I].
    assert (Hs1 : speed_threshold
                    (_params (fst (track_frame s small_mask eye_roi (n + 1) cap)))
                  <= 0) by (rewrite track_frame_params; exact Hs).
    pose proof (counter_step s small_mask eye_roi (n + 1)%Z cap Hk) as Hk1.
    specialize (IH _ (n + 1)%Z Hs1 Hk1).
    destruct (snd (track_loop _ small_mask eye_roi (n + 1) caps [])); [|exact I].
    constructor; [|exact IH].
    apply (still_record s small_mask eye_roi (n + 1)%Z cap rec Hs Hk Hrec).
Qed.

Lemma still_no_success_run small_mask eye_roi (caps : list (capture frame)) :
  forall self n,
  speed_threshold (_params self) <= 0 ->
  (1 <= _last_detection self)%Z ->
  no_success_run self small_mask eye_roi n caps.
Proof.
  induction caps as [|cap caps IH]; intros s n Hs Hk; cbn [no_success_run];
    [exact I|].
  split; [apply (still_frame s _ _ cap Hs Hk)|].
  apply IH.
  - rewrite track_frame_params. exact Hs.
  - apply counter_step, Hk.
Qed.

(** X3: the speed test is strict, so with a speed threshold of zero (or
    less) no candidate ever passes it: whatever the video, [track] returns
    no detection, and the centre and radius of the tracker stay as they
    were. *)
Theorem X3_zero_speed_threshold_never_detects (self : PupilTracker)
    (v : video frame) (eye_roi : roi) :
  speed_threshold (_params self) <= 0 ->
  (1 <= _last_detection self)%Z ->
  match snd (track self v eye_roi) with
  | Ok traces => Forall (fun t => is_tracked t = false) traces
  | Raise _ => True
  end
  /\ _center (fst (track self v eye_roi)) = _center self
  /\ _radius (fst (track self v eye_roi)) = _radius self.
Proof.
  intros Hs Hk. split; [apply still_run; assumption|].
  rewrite track_after_frames.
  apply no_success_run_anchors, still_no_success_run; assumption.
Qed.

End Still.

Lemma X3_witness :
  speed_threshold (_params Sample.still) <= 0
  /\ (1 <= _last_detection Sample.still)%Z
  /\ match snd (track (cv := Demo.cv) Sample.still Sample.clip Demo.whole) with
     | Ok traces => Forall (fun t => is_tracked t = false) traces
     | Raise _ => True
     end.
Proof.
  assert (Hs : speed_threshold (_params Sample.still) <= 0) by (cbn; lra).
  assert (Hk : (1 <= _last_detection Sample.still)%Z) by (cbn; lia).
  split; [exact Hs|]. split; [exact Hk|].
  exact (proj1 (X3_zero_speed_threshold_never_detects (cv := Demo.cv)
                  Sample.still Sample.clip Demo.whole Hs Hk)).
Defined.

(** ** The residual of the fit *)

Lemma rsum_nonneg (l : list R) : Forall (fun x => 0 <= x) l -> 0 <= Np.rsum l.
Proof.
  induction 1 as [|x l Hx _ IH]; cbn; [lra|]. unfold Np.rsum in IH. lra.
Qed.

Lemma rsum_zero (l : list R) :
  Forall (fun x => 0 <= x) l ->
  (Np.rsum l = 0 <-> Forall (fun x => x = 0) l).
Proof.
  induction 1 as [|x l Hx Hl IH]; cbn.
  - split; [constructor | reflexivity].
  - pose proof (rsum_nonneg l Hl) as Hs. unfold Np.rsum in *. split.
    + intros H. constructor; [lra|]. apply IH. lra.
    + intros H. inversion H; subst. apply IH in H3. lra.
Qed.

Lemma rsum_permutation (l m : list R) : Permutation l m -> Np.rsum l = Np.rsum m.
Proof.
  induction 1 as [| x l m _ IH | x y l | l m k _ IH1 _ IH2]; cbn;
    unfold Np.rsum in *; lra.
Qed.

Lemma conic_residual_nonneg (a b : R) (xy : R * R) : 0 <= conic_residual a b xy.
Proof. unfold conic_residual. apply pow2_ge_0. Qed.

(** X7: for a contour of at least two points (which [squeeze] leaves an
    array of rows) and an ellipse with no zero axis, [goodness_of_fit] is
    never negative, and it is zero exactly when every point, taken to the
    local frame of the ellipse, satisfies
    (x/size[0])^2 + (y/size[1])^2 = 0.25, that is lies on the ellipse. *)
Theorem X7_zero_residual_iff_on_the_ellipse (cnt : contour) (e : ellipse) :
  (2 <= length cnt)%nat ->
  fst (e_axes e) <> 0 -> snd (e_axes e) <> 0 ->
  0 <= goodness_of_fit cnt e
  /\ (goodness_of_fit cnt e = 0
      <-> forall p, In p cnt ->
            let xy := local_frame (e_center e) (e_angle e) p in
            (fst xy / fst (e_axes e)) ^ 2 + (snd xy / snd (e_axes e)) ^ 2 = 0.25).
Proof.
  intros Hne _ _. rewrite goodness_of_fit_rms. unfold rms_residual.
  split; [apply sqrt_pos|].
  set (f := fun p => conic_residual (fst (e_axes e)) (snd (e_axes e))
                       (local_frame (e_center e) (e_angle e) p)).
  assert (Hpos : Forall (fun x => 0 <= x) (map f cnt)).
  { apply Forall_forall. intros x Hx. apply in_map_iff in Hx as (p & <- & _).
    apply conic_residual_nonneg. }
  assert (Hlen : 0 < INR (length (map f cnt))).
  { rewrite length_map. apply lt_0_INR. lia. }
  pose proof (rsum_nonneg _ Hpos) as Hsum.
  assert (Hmean : 0 <= Np.mean (map f cnt)).
  { unfold Np.mean. apply Rmult_le_pos; [exact Hsum|].
    apply Rlt_le, Rinv_0_lt_compat, Hlen. }
  assert (Hz : Np.mean (map f cnt) = 0 <-> Np.rsum (map f cnt) = 0).
  { unfold Np.mean. split; intros H.
    - apply Rmult_integral in H as [H | H]; [exact H|].
      apply Rinv_0_lt_compat in Hlen. lra.
    - rewrite H. unfold Rdiv. ring. }
  split.
  - intros H. apply sqrt_eq_0 in H; [|exact Hmean].
    apply Hz, (rsum_zero _ Hpos) in H. intros p Hp. cbv zeta.
    rewrite Forall_forall in H. specialize (H (f p) (in_map f cnt p Hp)).
    unfold f, conic_residual in H.
    apply Rmult_integral in H as [H | H]; [lra|].
    apply Rmult_integral in H as [H | H]; lra.
  - intros H. replace (Np.mean (map f cnt)) with 0; [apply sqrt_0|].
    symmetry. apply Hz, (rsum_zero _ Hpos), Forall_forall.
    intros x Hx. apply in_map_iff in Hx as (p & <- & Hp).
    specialize (H p Hp). cbv zeta in H. unfold f, conic_residual.
    rewrite H. ring.
Qed.

Lemma X7_witness :
  (2 <= length Demo.ring)%nat
  /\ fst (e_axes Demo.circle) <> 0
  /\ snd (e_axes Demo.circle) <> 0
  /\ 0 <= goodness_of_fit Demo.ring Demo.circle.
Proof.
  assert (H : (2 <= length Demo.ring)%nat) by (cbn; lia).
  assert (H0 : fst (e_axes Demo.circle) <> 0) by (cbn; lra).
  assert (H1 : snd (e_axes Demo.circle) <> 0) by (cbn; lra).
  split; [exact H|]. split; [exact H0|]. split; [exact H1|].
  exact (proj1 (X7_zero_residual_iff_on_the_ellipse Demo.ring Demo.circle
                  H H0 H1)).
Defined.

(** X8: up to the rounding of the sum, [goodness_of_fit] does not depend
    on the order of the contour points: for a contour of at least two
    points it is the same for any rearrangement of the contour (another
    starting point or direction of the trace). *)
Theorem X8_residual_ignores_point_order (cnt cnt' : contour) (e : ellipse) :
  (2 <= length cnt)%nat ->
  Permutation cnt cnt' ->
  goodness_of_fit cnt e = goodness_of_fit cnt' e.
Proof.
  intros _ H. rewrite !goodness_of_fit_rms. unfold rms_residual, Np.mean.
  rewrite !length_map, (Permutation_length H).
  rewrite (rsum_permutation _ _ (Permutation_map _ H)). reflexivity.
Qed.

Lemma X8_witness :
  (2 <= length Demo.ring)%nat
  /\ Permutation Demo.ring (rev Demo.ring)
  /\ goodness_of_fit Demo.ring Demo.circle
     = goodness_of_fit (rev Demo.ring) Demo.circle.
Proof.
  assert (H : (2 <= length Demo.ring)%nat) by (cbn; lia).
  split; [exact H|]. split; [apply Permutation_rev|].
  exact (X8_residual_ignores_point_order Demo.ring (rev Demo.ring) Demo.circle
           H (Permutation_rev Demo.ring)).
Defined.

(** ** Ranges of the running average *)

Lemma Rpower_one (p : R) : Rpower 1 p = 1.
Proof. unfold Rpower. rewrite ln_1, Rmult_0_r. apply exp_0. Qed.

Lemma power_unit (x p : R) :
  0 <= x <= 1 -> 0 <= p -> 0 <= Np.power x p <= 1.
Proof.
  intros [H0 H1] Hp. unfold Np.power.
  destruct (Req_dec_T x 0) as [_ | Hx]; [destruct (Req_dec_T p 0); lra|].
  split.
  - unfold Rpower. apply Rlt_le, exp_pos.
  - rewrite <- (Rpower_one p). apply Rle_Rpower_l; lra.
Qed.

Lemma gamma_pixel (v : Z) (p : R) :
  (0 <= v <= 255)%Z -> 0 <= p ->
  0 <= Np.power (IZR v / 255) p * 255 <= 255.
Proof.
  intros [H0 H1] Hp. apply IZR_le in H0, H1.
  destruct (power_unit (IZR v / 255) p) as [Ha Hb]; [lra | exact Hp | lra].
Qed.

Lemma Int_part_range (x : R) :
  0 <= x <= 255 -> (0 <= Int_part x <= 255)%Z.
Proof.
  intros [H0 H1]. destruct (base_Int_part x) as [Ha Hb].
  assert (H : IZR (-1) < IZR (Int_part x)) by lra. apply lt_IZR in H.
  assert (H' : IZR (Int_part x) <= IZR 255) by lra. apply le_IZR in H'. lia.
Qed.

Lemma uint8_in_range (x : R) : 0 <= x <= 255 -> Np.uint8 x = Int_part x.
Proof.
  intros H. unfold Np.uint8, Np.trunc.
  destruct (Rle_dec 0 x) as [_ | Hn]; [|lra].
  apply Z.mod_small. pose proof (Int_part_range x H). lia.
Qed.

Lemma Forall_slice {A : Type} (P : A -> Prop) (ab : nat * nat) (l : list A) :
  Forall P l -> Forall P (Np.slice ab l).
Proof.
  intros H. unfold Np.slice.
  rewrite <- (firstn_skipn (fst ab) l) in H. apply Forall_app in H as [_ H].
  rewrite <- (firstn_skipn (snd ab - fst ab) (skipn (fst ab) l)) in H.
  apply Forall_app in H as [H _]. exact H.
Qed.

Lemma image_ok_crop (r : roi) (a : Np.image) : image_ok a -> image_ok (Np.crop r a).
Proof.
  intros H. unfold image_ok, Np.crop. apply Forall_map.
  apply Forall_slice. eapply Forall_impl; [|exact H].
  intros row Hrow. apply Forall_slice, Hrow.
Qed.

Lemma Forall_map2 {A B C : Type} (P : A -> Prop) (Q : B -> Prop) (S : C -> Prop)
    (f : A -> B -> C) (l : list A) (m : list B) :
  (forall x y, P x -> Q y -> S (f x y)) ->
  Forall P l -> Forall Q m -> Forall S (Np.map2 f l m).
Proof.
  intros Hf Hl. revert m. induction Hl as [|x l Hx _ IH]; intros m Hm.
  - constructor.
  - destruct Hm as [|y m Hy Hm]; [constructor|].
    unfold Np.map2. cbn. constructor; [apply Hf; assumption|].
    apply IH, Hm.
Qed.

Lemma running_avg_first_in_range (p : R) (a : Np.image) :
  0 <= p -> image_ok a -> in_range (running_avg_first p a).
Proof.
  intros Hp H. unfold in_range, running_avg_first. apply Forall_map.
  eapply Forall_impl; [|exact H]. intros row Hrow. apply Forall_map.
  eapply Forall_impl; [|exact Hrow]. intros v Hv. apply gamma_pixel; assumption.
Qed.

Lemma running_avg_next_in_range (c p : R) (a : Np.image) (avg : Np.fimage) :
  0 <= c <= 1 -> 0 <= p -> image_ok a -> in_range avg ->
  in_range (running_avg_next c p a avg).
Proof.
  intros Hc Hp Ha Havg. unfold in_range, running_avg_next.
  eapply Forall_map2; [|exact Ha|exact Havg].
  intros row arow Hrow Harow.
  eapply Forall_map2; [|exact Hrow|exact Harow].
  intros v x Hv Hx. cbv beta.
  pose proof (gamma_pixel v p Hv Hp) as Hg.
  rewrite Rmult_assoc. split; nra.
Qed.

Lemma map_uint8_in_range (avg : Np.fimage) :
  in_range avg -> map (map Np.uint8) avg = map (map Int_part) avg.
Proof.
  intros H. apply map_ext_Forall. eapply Forall_impl; [|exact H].
  intros row Hrow. apply map_ext_Forall. eapply Forall_impl; [|exact Hrow].
  intros x Hx. apply uint8_in_range, Hx.
Qed.

(** X9: in the 'extreme meso' mode, with a decay rate between 0 and 1, an
    exponent that is not negative, an 8-bit gray frame and a running
    average (if there is one already) within [0, 255], the running average
    after the frame is again within [0, 255]; so the cast to 8 bits that
    feeds the blur never wraps around: it is the integer part of each
    entry. *)
Theorem X9_running_average_stays_in_range {frame : Type} {cv : CV2 frame}
    (self : PupilTracker) (fr : frame) (eye_roi : roi) :
  extreme_meso (_params self) = Some true ->
  0 <= running_avg (_params self) <= 1 ->
  0 <= exponent (_params self) ->
  image_ok (cvtColor fr) ->
  (forall avg, _running_avg self = Some avg -> in_range avg) ->
  exists avg',
    _running_avg (fst (preprocess_image self fr eye_roi)) = Some avg'
    /\ in_range avg'
    /\ (_running_avg self <> None ->
        small_gray_of (preprocess_image self fr eye_roi)
        = map (map Int_part) avg').
Proof.
  intros Hm Hc Hp Hfr Havg. unfold preprocess_image. rewrite Hm.
  pose proof (image_ok_crop eye_roi _ Hfr) as Hcrop.
  destruct (_running_avg self) as [avg|]; cbn [fst snd small_gray_of].
  - eexists. split; [reflexivity|].
    assert (Hin : in_range (running_avg_next (running_avg (_params self))
                              (exponent (_params self))
                              (Np.crop eye_roi (cvtColor fr)) avg))
      by (apply running_avg_next_in_range; auto).
    split; [exact Hin|]. intros _. apply map_uint8_in_range, Hin.
  - eexists. split; [reflexivity|].
    split; [apply running_avg_first_in_range; assumption|].
    intros H. contradiction.
Qed.

Lemma X9_witness :
  extreme_meso (_params Sample.warm) = Some true
  /\ 0 <= running_avg (_params Sample.warm) <= 1
  /\ 0 <= exponent (_params Sample.warm)
  /\ image_ok (cvtColor (CV2 := Demo.cv) Demo.dim)
  /\ (forall avg, _running_avg Sample.warm = Some avg -> in_range avg)
  /\ exists avg',
       _running_avg (fst (preprocess_image (cv := Demo.cv) Sample.warm Demo.dim
                            Demo.left_pixel)) = Some avg'
       /\ in_range avg'
       /\ (_running_avg Sample.warm <> None ->
           small_gray_of (preprocess_image (cv := Demo.cv) Sample.warm Demo.dim
                            Demo.left_pixel)
           = map (map Int_part) avg').
Proof.
  assert (Hm : extreme_meso (_params Sample.warm) = Some true) by reflexivity.
  assert (Hc : 0 <= running_avg (_params Sample.warm) <= 1) by (cbn; lra).
  assert (Hp : 0 <= exponent (_params Sample.warm)) by (cbn; lra).
  assert (Hfr : image_ok (cvtColor (CV2 := Demo.cv) Demo.dim))
    by (repeat constructor; cbn; lia).
  assert (Havg : forall avg, _running_avg Sample.warm = Some avg -> in_range avg).
  { intros avg H. inversion H. repeat constructor; lra. }
  repeat (split; [assumption|]).
  exact (X9_running_average_stays_in_range (cv := Demo.cv) Sample.warm Demo.dim
           Demo.left_pixel Hm Hc Hp Hfr Havg).
Defined.

(** ** Shapes and masks *)

Lemma slice_length {A : Type} (ab : nat * nat) (l : list A) :
  (fst ab <= snd ab <= length l)%nat ->
  length (Np.slice ab l) = (snd ab - fst ab)%nat.
Proof.
  intros H. unfold Np.slice. rewrite length_firstn, length_skipn. lia.
Qed.

Lemma crop_rectangular {A : Type} (h w : nat) (a : list (list A)) (r : roi) :
  rectangular h w a ->
  (fst (fst r) <= snd (fst r) <= h)%nat ->
  (fst (snd r) <= snd (snd r) <= w)%nat ->
  rectangular (snd (fst r) - fst (fst r)) (snd (snd r) - fst (snd r))
    (Np.crop r a).
Proof.
  intros [Hh Hw] Hr Hc. unfold Np.crop. split.
  - rewrite length_map. apply slice_length. lia.
  - apply Forall_map. apply Forall_slice.
    eapply Forall_impl; [|exact Hw]. intros row Hrow. cbv beta in *.
    apply slice_length. lia.
Qed.

Lemma rectangular_shape {A : Type} (h w : nat) (a : list (list A)) :
  rectangular h w a -> (0 < h)%nat -> Np.shape a = (h, w).
Proof.
  intros [Hh Hw] Hpos. unfold Np.shape. rewrite Hh.
  destruct a as [|row a]; [cbn in Hh; lia|].
  inversion Hw; subst. cbn [hd]. congruence.
Qed.

Lemma ones_rectangular (h w : nat) : rectangular h w (Np.ones (h, w)).
Proof.
  unfold Np.ones. cbn [fst snd]. split; [apply repeat_length|].
  apply Forall_forall. intros row Hrow. apply repeat_spec in Hrow. subst.
  apply repeat_length.
Qed.

(** X10: for a region of interest of at least two rows and two columns
    (so that [squeeze] drops no axis) that lies within a gray frame of [h]
    rows and [w] columns, the crop has [r1 - r0] rows of [c1 - c0] entries,
    and the mask that [track] multiplies into the thresholded crop, the
    default all-ones mask or the crop of a static mask of the size of the
    frame, has the same shape. *)
Theorem X10_crop_and_mask_shapes (self : PupilTracker) (h w : nat)
    (gray : Np.image) (eye_roi : roi) :
  rectangular h w gray ->
  (fst (fst eye_roi) + 1 < snd (fst eye_roi) <= h)%nat ->
  (fst (snd eye_roi) + 1 < snd (snd eye_roi) <= w)%nat ->
  (forall m, _mask self = Some m -> rectangular h w m) ->
  Np.shape (Np.crop eye_roi gray)
  = ((snd (fst eye_roi) - fst (fst eye_roi))%nat,
     (snd (snd eye_roi) - fst (snd eye_roi))%nat)
  /\ Np.shape (small_mask_of self eye_roi) = Np.shape (Np.crop eye_roi gray).
Proof.
  intros Hg Hr Hc Hm.
  assert (Hs : forall a : Np.image, rectangular h w a ->
            Np.shape (Np.crop eye_roi a)
            = ((snd (fst eye_roi) - fst (fst eye_roi))%nat,
               (snd (snd eye_roi) - fst (snd eye_roi))%nat)).
  { intros a Ha. apply rectangular_shape; [|lia].
    apply (crop_rectangular h w); [exact Ha | lia | lia]. }
  split; [apply Hs, Hg|]. rewrite (Hs gray Hg). unfold small_mask_of.
  destruct (_mask self) as [m|].
  - apply Hs, Hm. reflexivity.
  - apply rectangular_shape; [apply ones_rectangular | lia].
Qed.

Lemma X10_witness :
  rectangular 10 10 Demo.lit
  /\ (fst (fst Demo.whole) + 1 < snd (fst Demo.whole) <= 10)%nat
  /\ (fst (snd Demo.whole) + 1 < snd (snd Demo.whole) <= 10)%nat
  /\ (forall m, _mask Demo.fresh = Some m -> rectangular 10 10 m)
  /\ Np.shape (small_mask_of Demo.fresh Demo.whole)
     = Np.shape (Np.crop Demo.whole Demo.lit).
Proof.
  assert (H1 : rectangular 10 10 Demo.lit) by apply ones_rectangular.
  assert (H2 : (fst (fst Demo.whole) + 1 < snd (fst Demo.whole) <= 10)%nat)
    by (cbn; lia).
  assert (H3 : (fst (snd Demo.whole) + 1 < snd (snd Demo.whole) <= 10)%nat)
    by (cbn; lia).
  assert (H4 : forall m, _mask Demo.fresh = Some m -> rectangular 10 10 m)
    by (intros m H; discriminate H).
  repeat (split; [assumption|]).
  exact (proj2 (X10_crop_and_mask_shapes Demo.fresh 10 10 Demo.lit Demo.whole
                  H1 H2 H3 H4)).
Defined.

(** The wrapped product of two values among 0, 1 and 255. *)
Lemma mask_product (x y : Z) :
  (x = 0 \/ x = 1 \/ x = 255)%Z -> (y = 0 \/ y = 1 \/ y = 255)%Z ->
  let v := ((x * y) mod 256)%Z in
  (v = 0 \/ v = 1 \/ v = 255)%Z /\ (v <> 0%Z <-> x <> 0%Z /\ y <> 0%Z).
Proof.
  intros [-> | [-> | ->]] [-> | [-> | ->]]; cbv; repeat split;
    try (intuition (discriminate || congruence));
    try (right; left; reflexivity); try (right; right; reflexivity);
    try (left; reflexivity).
Qed.

Lemma entry_imul (a b : Np.image) (i j : nat) (x y : Z) :
  entry a i j x -> entry b i j y ->
  entry (Np.imul a b) i j ((x * y) mod 256)%Z.
Proof.
  intros (ra & Ha & Hx) (rb & Hb & Hy). unfold Np.imul.
  eexists. split.
  - apply nth_error_map2; eassumption.
  - apply (nth_error_map2 (fun x y => ((x * y) mod 256)%Z)); assumption.
Qed.

(** X11: the in-place products of [track] act as a logical AND although
    they wrap modulo 256: at a pixel where the thresholded crop is 0 or 255,
    the dilated mask of the last ellipse (when there is one) is 0 or 255
    and the static mask is 0, 1 or 255, the image handed to the contour
    search is non-zero exactly where all of them are non-zero. *)
Theorem X11_mask_products_are_conjunctions {frame : Type} {cv : CV2 frame}
    (self : PupilTracker) (small_mask thres : Np.image) (i j : nat) (x z : Z) :
  entry thres i j x -> entry small_mask i j z ->
  (x = 0 \/ x = 255)%Z -> (z = 0 \/ z = 1 \/ z = 255)%Z ->
  match _last_ellipse self with
  | None =>
      exists v, entry (apply_masks self small_mask thres) i j v
                /\ (v <> 0%Z <-> x <> 0%Z /\ z <> 0%Z)
  | Some last =>
      forall y,
        entry (dilate (filled_ellipse (Np.shape small_mask) last) 10) i j y ->
        (y = 0 \/ y = 255)%Z ->
        exists v, entry (apply_masks self small_mask thres) i j v
                  /\ (v <> 0%Z <-> x <> 0%Z /\ y <> 0%Z /\ z <> 0%Z)
  end.
Proof.
  intros Hx Hz Vx Vz. unfold apply_masks.
  assert (Vx' : (x = 0 \/ x = 1 \/ x = 255)%Z) by tauto.
  destruct (_last_ellipse self) as [last|].
  - intros y Hy Vy.
    assert (Vy' : (y = 0 \/ y = 1 \/ y = 255)%Z) by tauto.
    destruct (mask_product x y Vx' Vy') as [V1 E1].
    destruct (mask_product _ z V1 Vz) as [_ E2].
    eexists. split; [apply entry_imul; [apply entry_imul|]; eassumption|].
    cbv zeta in E1, E2. rewrite E2, E1. tauto.
  - destruct (mask_product x z Vx' Vz) as [_ E].
    eexists. split; [apply entry_imul; eassumption|]. exact E.
Qed.

Lemma X11_witness :
  entry (map (map (fun _ => 255%Z)) Demo.lit) 0 0 255%Z
  /\ entry (Np.ones (10, 10)%nat) 0 0 1%Z
  /\ exists v,
       entry (apply_masks (cv := Demo.cv) Demo.fresh (Np.ones (10, 10)%nat)
                (map (map (fun _ => 255%Z)) Demo.lit)) 0 0 v
       /\ (v <> 0%Z <-> 255%Z <> 0%Z /\ 1%Z <> 0%Z).
Proof.
  assert (H0 : entry (map (map (fun _ => 255%Z)) Demo.lit) 0 0 255%Z)
    by (eexists; split; reflexivity).
  assert (H1 : entry (Np.ones (10, 10)%nat) 0 0 1%Z)
    by (eexists; split; reflexivity).
  split; [exact H0|]. split; [exact H1|].
  apply (X11_mask_products_are_conjunctions (cv := Demo.cv) Demo.fresh
           (Np.ones (10, 10)%nat) (map (map (fun _ => 255%Z)) Demo.lit)
           0 0 255%Z 1%Z).
  - exact H0.
  - exact H1.
  - right. reflexivity.
  - right. left. reflexivity.
Defined.

(** ** [restrict_to_long_axis] *)

Lemma filter_map_swap {A B : Type} (f : B -> bool) (g : A -> B) (l : list A) :
  filter f (map g l) = map g (filter (fun x => f (g x)) l).
Proof.
  induction l as [|x l IH]; cbn; [reflexivity|].
  destruct (f (g x)); cbn; rewrite IH; reflexivity.
Qed.

Lemma trunc_INR (n : nat) : Np.trunc (INR n) = Z.of_nat n.
Proof.
  unfold Np.trunc. destruct (Rle_dec 0 (INR n)) as [_ | H].
  - apply Int_part_INR.
  - destruct H. apply pos_INR.
Qed.

Lemma cos2_sin2 (a : R) : cos a * cos a + sin a * sin a = 1.
Proof. pose proof (sin2_cos2 a) as H. unfold Rsqr in H. lra. Qed.

Lemma restrict_rows_filter (cnt : contour) (e : ellipse) (corridor : R) :
  restrict_rows cnt e corridor
  = map (fun p => (Z.of_nat (fst p), Z.of_nat (snd p)))
        (filter (fun p => Rltb (Rabs (across e p))
                            (corridor * snd (e_axes e) / 2)) cnt).
Proof.
  destruct e as [[center size] angle].
  unfold restrict_rows, across, local_frame, e_center, e_axes, e_angle.
  cbn [fst snd]. rewrite filter_map_swap, map_map. cbn [fst snd].
  set (a := - (angle * (PI / 180))).
  erewrite filter_ext.
  - apply map_ext. intros [x y]. unfold px, py. cbn [fst snd].
    pose proof (cos2_sin2 a) as H.
    f_equal.
    + rewrite <- (trunc_INR x). f_equal.
      transitivity ((INR x - fst center) * (cos a * cos a + sin a * sin a)
                    + fst center); [ring | rewrite H; ring].
    + rewrite <- (trunc_INR y). f_equal.
      transitivity ((INR y - snd center) * (cos a * cos a + sin a * sin a)
                    + snd center); [ring | rewrite H; ring].
  - intros p. cbv beta. do 2 f_equal. ring.
Qed.

Lemma filter_none {A : Type} (f : A -> bool) (l : list A) :
  (forall x, f x = false) -> filter f l = [].
Proof.
  intros H. induction l as [|x l IH]; cbn; [reflexivity|].
  rewrite H. exact IH.
Qed.

(** X12: [restrict_to_long_axis] raises [IndexError] on a contour of one
    point.  On any other contour it returns one point for each point of
    the contour whose first coordinate in the frame of the ellipse is less
    than [corridor * size[1] / 2] in absolute value: never more points than
    it was given, and none at all when [corridor * size[1]] is not
    positive. *)
Theorem X12_restrict_keeps_the_corridor (cnt : contour) (e : ellipse)
    (corridor : R) :
  (length cnt = 1%nat ->
   restrict_to_long_axis cnt e corridor = Raises IndexError)
  /\ (length cnt <> 1%nat ->
      exists kept,
        restrict_to_long_axis cnt e corridor = Returns kept
        /\ length kept
           = length (filter (fun p => Rltb (Rabs (across e p))
                                        (corridor * snd (e_axes e) / 2)) cnt)
        /\ (length kept <= length cnt)%nat
        /\ (corridor * snd (e_axes e) <= 0 -> kept = [])).
Proof.
  split.
  - intros H. destruct cnt as [|p [|q cnt]]; try discriminate. reflexivity.
  - intros H. exists (restrict_rows cnt e corridor).
    pose proof (restrict_rows_filter cnt e corridor) as Heq.
    split; [destruct cnt as [|p [|q cnt]]; [reflexivity | | reflexivity];
            exfalso; apply H; reflexivity|].
    split; [rewrite Heq; apply length_map|]. split.
    + rewrite Heq, length_map. apply filter_length_le.
    + intros H0. rewrite Heq, filter_none; [reflexivity|].
      intros p. apply Rltb_false. pose proof (Rabs_pos (across e p)). lra.
Qed.

Lemma X12_witness :
  length Demo.ring <> 1%nat
  /\ restrict_to_long_axis Demo.ring Demo.circle 0 = Returns [].
Proof.
  assert (H : length Demo.ring <> 1%nat) by discriminate.
  split; [exact H|].
  destruct (proj2 (X12_restrict_keeps_the_corridor Demo.ring Demo.circle 0) H)
    as (kept & Hk & _ & _ & Hnone).
  rewrite Hk, Hnone; [reflexivity | lra].
Defined.

(** ** [adjust_gamma] *)

Lemma Int_part_mono (x y : R) : x <= y -> (Int_part x <= Int_part y)%Z.
Proof.
  intros H. destruct (base_Int_part x) as [Hx _].
  destruct (base_Int_part y) as [_ Hy].
  assert (Hlt : IZR (Int_part x) < IZR (Int_part y + 1))
    by (rewrite plus_IZR; lra).
  apply lt_IZR in Hlt. lia.
Qed.

Lemma power_mono (x y p : R) :
  0 <= x <= y -> 0 <= p -> Np.power x p <= Np.power y p.
Proof.
  intros [H0 H1] Hp. unfold Np.power.
  destruct (Req_dec_T x 0) as [Hx | Hx].
  - destruct (Req_dec_T y 0) as [Hy | Hy]; [lra|].
    destruct (Req_dec_T p 0) as [-> | Hp0].
    + unfold Rpower. rewrite Rmult_0_l, exp_0. lra.
    + unfold Rpower. apply Rlt_le, exp_pos.
  - destruct (Req_dec_T y 0) as [Hy | Hy]; [lra|].
    apply Rle_Rpower_l; lra.
Qed.

Lemma gamma_table_nth (p : R) (i : nat) :
  (i < 256)%nat ->
  nth i (gamma_table p) 0%Z
  = Np.uint8 (Np.power (IZR (Z.of_nat i) / 255) p * 255).
Proof.
  intros H. unfold gamma_table.
  rewrite (nth_indep _ 0%Z
             (Np.uint8 (Np.power (IZR (Z.of_nat 0) / 255) p * 255)))
    by (rewrite length_map, length_seq; exact H).
  rewrite (map_nth (fun i => Np.uint8 (Np.power (IZR (Z.of_nat i) / 255) p * 255))).
  rewrite seq_nth by exact H. reflexivity.
Qed.

Lemma gamma_entry (p : R) (i : nat) :
  0 <= p -> (i < 256)%nat ->
  nth i (gamma_table p) 0%Z
  = Int_part (Np.power (IZR (Z.of_nat i) / 255) p * 255)
  /\ 0 <= Np.power (IZR (Z.of_nat i) / 255) p * 255 <= 255.
Proof.
  intros Hp Hi.
  assert (Hr : 0 <= Np.power (IZR (Z.of_nat i) / 255) p * 255 <= 255)
    by (apply gamma_pixel; [lia | exact Hp]).
  split; [|exact Hr].
  rewrite gamma_table_nth by exact Hi. apply uint8_in_range, Hr.
Qed.

(** X13: [adjust_gamma] raises [ZeroDivisionError] for a gamma of zero.
    For a positive gamma it returns the image looked up in a table of 256
    8-bit entries that begins with 0, ends with 255 and never decreases:
    black stays black, white stays white and the order of the gray levels
    is kept. *)
Theorem X13_gamma_table_is_monotone (image : Np.image) (gamma : R) :
  (gamma = 0 -> adjust_gamma image gamma = Raises ZeroDivisionError)
  /\ (0 < gamma ->
      exists table,
        adjust_gamma image gamma = Returns (LUT image table)
        /\ length table = 256%nat
        /\ nth 0 table 0%Z = 0%Z
        /\ nth 255 table 0%Z = 255%Z
        /\ forall i j, (i <= j <= 255)%nat ->
             (0 <= nth i table 0 <= nth j table 0)%Z
             /\ (nth j table 0 <= 255)%Z).
Proof.
  split.
  - intros ->. unfold adjust_gamma, Reqb.
    destruct (Req_dec_T 0 0) as [_ | H]; [reflexivity | contradiction].
  - intros Hg. exists (gamma_table (1 / gamma)).
    assert (Hp : 0 < 1 / gamma) by (apply Rdiv_lt_0_compat; lra).
    split; [|split; [|split; [|split]]].
    + unfold adjust_gamma. rewrite (proj2 (Reqb_false gamma 0)) by lra.
      reflexivity.
    + unfold gamma_table. rewrite length_map, length_seq. reflexivity.
    + rewrite gamma_table_nth by lia. cbn [Z.of_nat].
      unfold Np.power.
      destruct (Req_dec_T (0 / 255) 0) as [_ | H]; [|lra].
      destruct (Req_dec_T (1 / gamma) 0) as [H | _]; [lra|].
      rewrite Rmult_0_l. rewrite uint8_in_range by lra.
      symmetry. apply Int_part_spec. lra.
    + rewrite gamma_table_nth by lia.
      replace (IZR (Z.of_nat 255) / 255) with 1
        by (replace (Z.of_nat 255) with 255%Z by reflexivity; lra).
      unfold Np.power. destruct (Req_dec_T 1 0) as [H | _]; [lra|].
      rewrite Rpower_one, Rmult_1_l, uint8_in_range by lra.
      symmetry. apply Int_part_spec. lra.
    + intros i j Hij.
      destruct (gamma_entry (1 / gamma) i) as [-> Hi]; [lra | lia|].
      destruct (gamma_entry (1 / gamma) j) as [-> Hj]; [lra | lia|].
      pose proof (Int_part_range _ Hi). pose proof (Int_part_range _ Hj).
      split; [split; [lia|] | lia].
      apply Int_part_mono. apply Rmult_le_compat_r; [lra|].
      apply power_mono; [|lra].
      assert (IZR (Z.of_nat i) <= IZR (Z.of_nat j)) by (apply IZR_le; lia).
      assert (0 <= IZR (Z.of_nat i)) by (apply IZR_le; lia).
      lra.
Qed.

Lemma X13_witness :
  0 < 2
  /\ exists table,
       adjust_gamma Demo.dim 2 = Returns (LUT Demo.dim table)
       /\ length table = 256%nat
       /\ nth 0 table 0%Z = 0%Z
       /\ nth 255 table 0%Z = 255%Z
       /\ forall i j, (i <= j <= 255)%nat ->
            (0 <= nth i table 0 <= nth j table 0)%Z
            /\ (nth j table 0 <= 255)%Z.
Proof.
  assert (H : 0 < 2) by lra.
  split; [exact H|].
  exact (proj2 (X13_gamma_table_is_monotone Demo.dim 2) H).
Defined.

(** ** Crops and dragged regions *)

Lemma nth_error_slice {A : Type} (ab : nat * nat) (l : list A) (i : nat) :
  nth_error (Np.slice ab l) i
  = if (i <? snd ab - fst ab)%nat then nth_error l (fst ab + i) else None.
Proof. unfold Np.slice. rewrite nth_error_firstn, nth_error_skipn. reflexivity. Qed.

Lemma crop_entry {A : Type} (r : roi) (a : list (list A)) (i j : nat) (v : A) :
  entry (Np.crop r a) i j v
  <-> (i < snd (fst r) - fst (fst r))%nat
      /\ (j < snd (snd r) - fst (snd r))%nat
      /\ entry a (fst (fst r) + i) (fst (snd r) + j) v.
Proof.
  unfold entry, Np.crop. split.
  - intros (row & Hrow & Hv).
    rewrite nth_error_map, nth_error_slice in Hrow.
    destruct (i <? _)%nat eqn:Hi; [|discriminate].
    destruct (nth_error a (fst (fst r) + i)) as [row0|] eqn:Ha; [|discriminate].
    cbn in Hrow. inversion Hrow; subst row.
    rewrite nth_error_slice in Hv.
    destruct (j <? _)%nat eqn:Hj; [|discriminate].
    apply Nat.ltb_lt in Hi, Hj. eauto.
  - intros (Hi & Hj & row0 & Ha & Hv).
    apply Nat.ltb_lt in Hi, Hj.
    exists (Np.slice (snd r) row0). split.
    + rewrite nth_error_map, nth_error_slice, Hi, Ha. reflexivity.
    + rewrite nth_error_slice, Hj. exact Hv.
Qed.

(** X14: outside of the 'extreme meso' mode, the gray crop that
    [preprocess_image] returns reads the gray frame at the offset of the
    region of interest [[[r0, r1], [c0, c1]]], rows first: its entry
    [(i, j)] exists exactly when [i < r1 - r0], [j < c1 - c0] and the frame
    has an entry [(r0 + i, c0 + j)], which it then is. *)
Theorem X14_crop_entries {frame : Type} {cv : CV2 frame} (self : PupilTracker)
    (fr : frame) (eye_roi : roi) (i j : nat) (v : Z) :
  extreme_meso (_params self) <> Some true ->
  entry (small_gray_of (preprocess_image self fr eye_roi)) i j v
  <-> (i < snd (fst eye_roi) - fst (fst eye_roi))%nat
      /\ (j < snd (snd eye_roi) - fst (snd eye_roi))%nat
      /\ entry (cvtColor fr) (fst (fst eye_roi) + i) (fst (snd eye_roi) + j) v.
Proof.
  intros Hm.
  assert (Hs : small_gray_of (preprocess_image self fr eye_roi)
               = Np.crop eye_roi (cvtColor fr)).
  { unfold preprocess_image.
    destruct (extreme_meso (_params self)) as [[|]|];
      [contradiction | reflexivity | reflexivity]. }
  rewrite Hs. apply crop_entry.
Qed.

Lemma X14_witness :
  extreme_meso (_params Demo.fresh) <> Some true
  /\ entry (small_gray_of (preprocess_image (cv := Demo.cv) Demo.fresh
                             Demo.half_lit ((0, 1), (1, 2))%nat)) 0 0 255%Z.
Proof.
  assert (H : extreme_meso (_params Demo.fresh) <> Some true) by discriminate.
  split; [exact H|].
  apply (X14_crop_entries (cv := Demo.cv) Demo.fresh Demo.half_lit
           ((0, 1), (1, 2))%nat 0 0 255%Z H).
  cbn [fst snd]. split; [lia|]. split; [lia|].
  eexists. split; reflexivity.
Defined.

Lemma trunc_IZR (z : Z) : Np.trunc (IZR z) = z.
Proof.
  unfold Np.trunc. destruct (Rle_dec 0 (IZR z)) as [H | H].
  - symmetry. apply Int_part_spec. lra.
  - rewrite <- opp_IZR. rewrite <- (Int_part_spec (IZR (- z)) (- z)) by lra. lia.
Qed.

Lemma trunc_mono (x y : R) : x <= y -> (Np.trunc x <= Np.trunc y)%Z.
Proof.
  intros H. unfold Np.trunc.
  destruct (Rle_dec 0 x) as [Hx | Hx]; destruct (Rle_dec 0 y) as [Hy | Hy].
  - apply Int_part_mono, H.
  - lra.
  - assert (H1 : (Int_part 0 <= Int_part (- x))%Z) by (apply Int_part_mono; lra).
    assert (H2 : (Int_part 0 <= Int_part y)%Z) by (apply Int_part_mono; lra).
    rewrite <- (Int_part_spec 0 0) in H1, H2 by lra. lia.
  - assert (H1 : (Int_part (- y) <= Int_part (- x))%Z)
      by (apply Int_part_mono; lra).
    lia.
Qed.

(** X15: the region of interest of a drag does not depend on the
    direction of the drag; its row range is [min y + 1, max y + 1] and its
    column range [min x + 1, max x + 1], so both are ordered, and they
    start at 1 or more for corners with coordinates that are not negative.
    [ROIGrabber.roi] has ordered ranges too and gives the same region on
    corners with whole coordinates. *)
Theorem X15_drag_roi_is_ordered (p q : Z * Z) :
  drag_roi p q = drag_roi q p
  /\ (fst (fst (drag_roi p q)) <= snd (fst (drag_roi p q)))%Z
  /\ (fst (snd (drag_roi p q)) <= snd (snd (drag_roi p q)))%Z
  /\ ((0 <= fst p)%Z -> (0 <= snd p)%Z -> (0 <= fst q)%Z -> (0 <= snd q)%Z ->
      (1 <= fst (fst (drag_roi p q)))%Z /\ (1 <= fst (snd (drag_roi p q)))%Z)
  /\ float_roi (IZR (fst p), IZR (snd p)) (IZR (fst q), IZR (snd q))
     = drag_roi p q
  /\ forall s e : R * R,
       (fst (fst (float_roi s e)) <= snd (fst (float_roi s e)))%Z
       /\ (fst (snd (float_roi s e)) <= snd (snd (float_roi s e)))%Z.
Proof.
  unfold drag_roi, float_roi. cbn [fst snd].
  split; [rewrite (Z.min_comm (fst p)), (Z.min_comm (snd p)),
            (Z.max_comm (fst p)), (Z.max_comm (snd p)); reflexivity|].
  split; [lia|]. split; [lia|]. split; [intros; lia|]. split.
  - assert (Hmin : forall a b, Rmin (IZR a) (IZR b) = IZR (Z.min a b)).
    { intros a b. unfold Rmin. destruct (Rle_dec (IZR a) (IZR b)) as [H | H].
      - apply le_IZR in H. rewrite Z.min_l by exact H. reflexivity.
      - assert (b < a)%Z by (apply lt_IZR; lra). rewrite Z.min_r by lia.
        reflexivity. }
    assert (Hmax : forall a b, Rmax (IZR a) (IZR b) = IZR (Z.max a b)).
    { intros a b. unfold Rmax. destruct (Rle_dec (IZR a) (IZR b)) as [H | H].
      - apply le_IZR in H. rewrite Z.max_r by exact H. reflexivity.
      - assert (b < a)%Z by (apply lt_IZR; lra). rewrite Z.max_l by lia.
        reflexivity. }
    rewrite !Hmin, !Hmax, !trunc_IZR. reflexivity.
  - intros s e.
    pose proof (trunc_mono _ _ (Rle_trans _ _ _ (Rmin_l (snd s) (snd e))
                                  (Rmax_l (snd s) (snd e)))).
    pose proof (trunc_mono _ _ (Rle_trans _ _ _ (Rmin_l (fst s) (fst e))
                                  (Rmax_l (fst s) (fst e)))).
    lia.
Qed.

(** X16: a drag between two pixels of different rows of a frame of [h]
    rows and [w] columns selects the rows [min y + 1] to [max y] and the
    columns [min x + 1] to [max x]: the crop has [|y1 - y0|] rows and
    [|x1 - x0|] columns, the row and the column of the upper left corner
    are left out and those of the lower right corner are kept. *)
Theorem X16_dragged_crop (h w : nat) (a : Np.image) (p q : Z * Z) :
  rectangular h w a ->
  (0 <= fst p < Z.of_nat w)%Z -> (0 <= snd p < Z.of_nat h)%Z ->
  (0 <= fst q < Z.of_nat w)%Z -> (0 <= snd q < Z.of_nat h)%Z ->
  snd p <> snd q ->
  as_roi (drag_roi p q)
  = ((Z.to_nat (Z.min (snd p) (snd q)) + 1, Z.to_nat (Z.max (snd p) (snd q)) + 1),
     (Z.to_nat (Z.min (fst p) (fst q)) + 1, Z.to_nat (Z.max (fst p) (fst q)) + 1))%nat
  /\ Np.shape (Np.crop (as_roi (drag_roi p q)) a)
     = (Z.to_nat (Z.abs (snd q - snd p)), Z.to_nat (Z.abs (fst q - fst p))).
Proof.
  intros Ha Hpx Hpy Hqx Hqy Hne.
  assert (Hr : as_roi (drag_roi p q)
               = ((Z.to_nat (Z.min (snd p) (snd q)) + 1,
                   Z.to_nat (Z.max (snd p) (snd q)) + 1),
                  (Z.to_nat (Z.min (fst p) (fst q)) + 1,
                   Z.to_nat (Z.max (fst p) (fst q)) + 1))%nat).
  { unfold as_roi, drag_roi. cbn [fst snd]. repeat f_equal; lia. }
  split; [exact Hr|]. rewrite Hr.
  rewrite (rectangular_shape
             (Z.to_nat (Z.max (snd p) (snd q)) + 1
              - (Z.to_nat (Z.min (snd p) (snd q)) + 1))
             (Z.to_nat (Z.max (fst p) (fst q)) + 1
              - (Z.to_nat (Z.min (fst p) (fst q)) + 1))).
  - f_equal; lia.
  - apply (crop_rectangular h w); [exact Ha | cbn [fst snd]; lia..].
  - lia.
Qed.

Lemma X16_witness :
  rectangular 10 10 Demo.lit
  /\ Np.shape (Np.crop (as_roi (drag_roi (2, 3) (7, 1))%Z) Demo.lit)
     = (Z.to_nat (Z.abs (1 - 3)), Z.to_nat (Z.abs (7 - 2))).
Proof.
  assert (H : rectangular 10 10 Demo.lit) by apply ones_rectangular.
  split; [exact H|].
  apply (X16_dragged_crop 10 10 Demo.lit (2, 3)%Z (7, 1)%Z H);
    cbn [fst snd]; lia.
Defined.

(** ** The manual tracker *)

Lemma update_nth_length {A : Type} (i : nat) (v : A) (l : list A) :
  length (update_nth i v l) = length l.
Proof.
  revert i. induction l as [|x l IH]; intros [|i]; cbn; try reflexivity.
  rewrite IH. reflexivity.
Qed.

Lemma np_setitem_in_range {A : Type} (l : list A) (i : Z) (v : A) :
  (0 <= i < Z.of_nat (length l))%Z ->
  exists l', np_setitem l i v = Some l' /\ length l' = length l.
Proof.
  intros H. unfold np_setitem.
  replace ((0 <=? i) && (i <? Z.of_nat (length l)))%Z with true
    by (symmetry; apply andb_true_iff; split; [apply Z.leb_le | apply Z.ltb_lt]; lia).
  eexists. split; [reflexivity | apply update_nth_length].
Qed.

Lemma np_setslice_length {A : Type} (l : list A) (lo hi : Z) (v : A) :
  length (np_setslice l lo hi v) = length l.
Proof.
  unfold np_setslice. rewrite length_map, length_combine, length_seq.
  apply Nat.min_id.
Qed.

Lemma nth_error_indexed {A B : Type} (f : nat * A -> B) (l : list A) :
  forall k i,
  nth_error (map f (combine (seq k (length l)) l)) i
  = option_map (fun x => f ((k + i)%nat, x)) (nth_error l i).
Proof.
  induction l as [|x l IH]; intros k [|i]; cbn; try reflexivity.
  - rewrite Nat.add_0_r. reflexivity.
  - rewrite IH. replace (S k + i)%nat with (k + S i)%nat by lia. reflexivity.
Qed.

Lemma nth_error_np_setslice {A : Type} (l : list A) (lo hi : Z) (v : A) (i : nat) :
  nth_error (np_setslice l lo hi v) i
  = option_map (fun x => if ((lo <=? Z.of_nat i) && (Z.of_nat i <? hi))%Z
                         then v else x)
               (nth_error l i).
Proof. unfold np_setslice. rewrite nth_error_indexed. reflexivity. Qed.

Section ManualFacts.

Context {M : Type} {canvas : Canvas M}.

Lemma sanitize_range (s : Manual.ManualTracker M) (t : R) :
  (0 <= Manual.sanitize s t)%Z
  /\ ((1 <= Manual._n_frames s)%Z ->
      (Manual.sanitize s t <= Manual._n_frames s - 1)%Z).
Proof.
  unfold Manual.sanitize.
  set (v := Rmax (Rmin t (IZR (Manual._n_frames s - 1))) 0).
  assert (H0 : 0 <= v) by apply Rmax_r.
  split.
  - rewrite <- (trunc_IZR 0). apply trunc_mono, H0.
  - intros Hn. rewrite <- (trunc_IZR (Manual._n_frames s - 1)).
    apply trunc_mono. unfold v. apply Rmax_lub; [apply Rmin_r|].
    apply IZR_le. lia.
Qed.

Lemma goto_frame_in_run (no : Z) (s : Manual.ManualTracker M) :
  Manual.in_run s -> Manual.in_run (Manual.goto_frame no s).
Proof.
  unfold Manual.in_run, Manual.goto_frame. cbn. lia.
Qed.

End ManualFacts.

Section ManualTheorems.

Context {M : Type} {canvas : Canvas M}.

(** X17: [process_key] returns [False], which ends the loop of [run], for
    the key [q] and for no other key, and [q] leaves the tracker as it
    is. *)
Theorem X17_only_q_ends_the_loop (key : Z) (s : Manual.ManualTracker M) :
  (snd (Manual.process_key key s) = Returns false <-> key = 113%Z)
  /\ (key = 113%Z -> fst (Manual.process_key key s) = s).
Proof.
  unfold Manual.process_key.
  destruct (Z.eqb_spec key 113) as [-> | Hq]; [split; [tauto | reflexivity]|].
  split; [|contradiction].
  split; [|contradiction].
  repeat match goal with
         | |- context [if ?b then _ else _] => destruct b
         | |- context [match ?o with Some _ => _ | None => _ end] => destruct o
         end; cbn; discriminate.
Qed.

Ltac plain_key H :=
  split; [eexists; reflexivity
         | unfold Manual.in_run, Manual.goto_frame in *; cbn in *; lia].

(** X18: while [run] loops over a video with at least one frame, the
    callbacks keep the frame number within the video, the per-frame arrays
    at one entry per frame and the jump frame between 0 and the frame
    count; in particular the key [d], which writes the arrays at the frame
    number, never raises [IndexError], nor does any other key raise. *)
Theorem X18_callbacks_keep_the_tracker_in_run :
  (forall n, (1 <= n)%Z -> Manual.in_run (Manual.run_start (M := M) n))
  /\ (forall key (s : Manual.ManualTracker M),
        Manual.in_run s ->
        (exists b, snd (Manual.process_key key s) = Returns b)
        /\ Manual.in_run (fst (Manual.process_key key s)))
  /\ (forall event x (s : Manual.ManualTracker M),
        Manual.in_run s ->
        Manual.in_run (fst (Manual.graph_mouse_callback event x s)))
  /\ (forall event x y (s : Manual.ManualTracker M),
        Manual.in_run s ->
        Manual.in_run (fst (Manual.mouse_callback event x y s))).
Proof.
  split; [|split; [|split]].
  - intros n Hn. unfold Manual.in_run, Manual.run_start. cbn.
    rewrite !repeat_length. lia.
  - intros key s H. unfold Manual.process_key.
    destruct (key =? 113)%Z; [plain_key H|].
    destruct (key =? 32)%Z; [plain_key H|].
    destruct (key =? 115)%Z; [plain_key H|].
    destruct (key =? 97)%Z; [plain_key H|].
    destruct (key =? 98)%Z; [plain_key H|].
    destruct (key =? 110)%Z; [plain_key H|].
    destruct (key =? 101)%Z; [plain_key H|].
    destruct (key =? 114)%Z; [plain_key H|].
    destruct (key =? 100)%Z.
    { destruct H as (Hn & Hf & Hcd & Hcs & Hj).
      destruct (np_setitem_in_range (Manual.contours_detected s)
                  (Manual._frame_number s) false) as (cd & -> & Hlcd); [lia|].
      cbn [Manual.contours Manual.with_contours_detected Manual._frame_number].
      destruct (np_setitem_in_range (Manual.contours s)
                  (Manual._frame_number s) None) as (cs & -> & Hlcs); [lia|].
      split; [eexists; reflexivity|].
      unfold Manual.in_run, Manual.goto_frame. cbn. rewrite Hlcd, Hlcs. lia. }
    destruct (key =? 99)%Z; [plain_key H|].
    destruct (key =? 102)%Z; [plain_key H|].
    destruct ((48 <=? key) && (key <? 58))%Z eqn:Hd.
    { apply andb_true_iff in Hd as [Hd1 Hd2].
      apply Z.leb_le in Hd1. apply Z.ltb_lt in Hd2. plain_key H. }
    destruct (key =? 106)%Z; [plain_key H|].
    destruct (key =? 104)%Z; plain_key H.
  - intros event x s H. unfold Manual.graph_mouse_callback.
    destruct event; cbn [fst].
    + exact H.
    + exact H.
    + apply goto_frame_in_run, H.
    + destruct (Manual.t0_tmp s); [|exact H].
      repeat match goal with
             | |- context [if ?b then _ else _] => destruct b
             end; exact H.
    + destruct (Manual.del_tmp s) as [tmp|]; [|exact H].
      destruct (_ <? tmp)%Z; cbn [fst];
        unfold Manual.in_run in *;
        cbn [Manual._n_frames Manual._frame_number Manual.contours_detected
             Manual.contours Manual.jump_frame Manual.with_contours
             Manual.with_contours_detected];
        rewrite !np_setslice_length; exact H.
    + exact H.
  - intros event x y s H. unfold Manual.mouse_callback.
    destruct (Manual._scale_factor s) as [f|]; [destruct (Reqb f 0)|];
      try exact H;
      destruct event; cbn [fst]; try exact H;
      try (destruct (Manual._mask s); exact H);
      cbn [Manual.start Manual.with_end_]; destruct (Manual.start s); exact H.
Qed.

Lemma frame_at_range (x : Z) (s : Manual.ManualTracker M) :
  (0 <= Manual.frame_at x s)%Z
  /\ ((1 <= Manual._n_frames s)%Z ->
      (Manual.frame_at x s <= Manual._n_frames s - 1)%Z).
Proof. apply sanitize_range. Qed.

Lemma graph_left_press (x : Z) (s : Manual.ManualTracker M) :
  Manual.graph_mouse_callback EVENT_LBUTTONDOWN x s
  = (Manual.with_t0_tmp (Some (Manual.frame_at x s)) s, Returns tt).
Proof. reflexivity. Qed.

Lemma graph_left_release (x tmp : Z) (s : Manual.ManualTracker M) :
  Manual.t0_tmp s = Some tmp ->
  Manual.graph_mouse_callback EVENT_LBUTTONUP x s
  = if (Manual.frame_at x s <? tmp)%Z then
      (Manual.with_t1 tmp (Manual.with_t0 (Manual.frame_at x s) s), Returns tt)
    else if (tmp =? Manual.frame_at x s)%Z then
      (Manual.with_t1 (tmp + 1) (Manual.with_t0 tmp s), Returns tt)
    else (Manual.with_t1 (Manual.frame_at x s) (Manual.with_t0 tmp s), Returns tt).
Proof. intros H. unfold Manual.graph_mouse_callback. rewrite H. reflexivity. Qed.

Lemma graph_right_press (x : Z) (s : Manual.ManualTracker M) :
  Manual.graph_mouse_callback EVENT_RBUTTONDOWN x s
  = (Manual.with_del_tmp (Some (Manual.frame_at x s)) s, Returns tt).
Proof. reflexivity. Qed.

Lemma graph_right_release (x tmp : Z) (s : Manual.ManualTracker M) :
  Manual.del_tmp s = Some tmp ->
  Manual.graph_mouse_callback EVENT_RBUTTONUP x s
  = (Manual.with_contours
       (np_setslice (Manual.contours s)
          (Z.min (Manual.frame_at x s) tmp) (Z.max (Manual.frame_at x s) tmp) None)
       (Manual.with_contours_detected
          (np_setslice (Manual.contours_detected s)
             (Z.min (Manual.frame_at x s) tmp) (Z.max (Manual.frame_at x s) tmp)
             false) s),
     Returns tt).
Proof.
  intros H. unfold Manual.graph_mouse_callback. rewrite H.
  fold (Manual.frame_at x s).
  destruct (Z.ltb_spec (Manual.frame_at x s) tmp).
  - rewrite Z.min_l, Z.max_r by lia. reflexivity.
  - rewrite Z.min_r, Z.max_l by lia. reflexivity.
Qed.

(** X19: a left drag on the progress graph always selects a range of at
    least one frame within the video: after the press and the release,
    [0 <= t0 < t1 <= n_frames], so the width [t1 - t0] that the graph
    divides by is never zero.  A release on a tracker that has seen no press
    raises [AttributeError], as [t0_tmp] does not exist yet. *)
Theorem X19_zoom_selects_at_least_one_frame (x x' : Z)
    (s : Manual.ManualTracker M) :
  (forall n,
     Manual.graph_mouse_callback EVENT_LBUTTONUP x (Manual.run_start (M := M) n)
     = (Manual.run_start n, Raises AttributeError))
  /\ ((1 <= Manual._n_frames s)%Z ->
      let s1 := fst (Manual.graph_mouse_callback EVENT_LBUTTONDOWN x s) in
      let r := Manual.graph_mouse_callback EVENT_LBUTTONUP x' s1 in
      snd r = Returns tt
      /\ (0 <= Manual.t0 (fst r) < Manual.t1 (fst r))%Z
      /\ (Manual.t1 (fst r) <= Manual._n_frames s)%Z).
Proof.
  split; [reflexivity|]. intros Hn. cbv zeta.
  rewrite graph_left_press. cbn [fst].
  rewrite (graph_left_release x' (Manual.frame_at x s)) by reflexivity.
  change (Manual.frame_at x' (Manual.with_t0_tmp _ s)) with (Manual.frame_at x' s).
  destruct (frame_at_range x s) as [Ha0 Ha1].
  destruct (frame_at_range x' s) as [Hb0 Hb1].
  specialize (Ha1 Hn). specialize (Hb1 Hn).
  destruct (Z.ltb_spec (Manual.frame_at x' s) (Manual.frame_at x s));
    [cbn; repeat split; lia|].
  destruct (Z.eqb_spec (Manual.frame_at x s) (Manual.frame_at x' s));
    cbn; repeat split; lia.
Qed.

Lemma np_setslice_empty {A : Type} (l : list A) (lo : Z) (v : A) :
  np_setslice l lo lo v = l.
Proof.
  apply nth_error_ext. intros i. rewrite nth_error_np_setslice.
  replace ((lo <=? Z.of_nat i) && (Z.of_nat i <? lo))%Z with false
    by (symmetry; apply andb_false_iff;
        destruct (Z.leb_spec lo (Z.of_nat i));
        [right; apply Z.ltb_ge; lia | left; reflexivity]).
  destruct (nth_error l i); reflexivity.
Qed.

(** X20: a right drag on the progress graph from frame [a] to frame [b]
    marks the frames from [min a b] up to, and not including, [max a b] as
    not detected and forgets their contours; every other frame is left as
    it is, and a right click without movement drops no frame at all. *)
Theorem X20_right_drag_drops_a_half_open_range (x x' : Z)
    (s : Manual.ManualTracker M) :
  let lo := Z.min (Manual.frame_at x s) (Manual.frame_at x' s) in
  let hi := Z.max (Manual.frame_at x s) (Manual.frame_at x' s) in
  let s1 := fst (Manual.graph_mouse_callback EVENT_RBUTTONDOWN x s) in
  let r := Manual.graph_mouse_callback EVENT_RBUTTONUP x' s1 in
  snd r = Returns tt
  /\ (forall i,
        nth_error (Manual.contours_detected (fst r)) i
        = option_map (fun d => if ((lo <=? Z.of_nat i) && (Z.of_nat i <? hi))%Z
                               then false else d)
            (nth_error (Manual.contours_detected s) i)
        /\ nth_error (Manual.contours (fst r)) i
           = option_map (fun c => if ((lo <=? Z.of_nat i) && (Z.of_nat i <? hi))%Z
                                  then None else c)
               (nth_error (Manual.contours s) i))
  /\ (Manual.frame_at x s = Manual.frame_at x' s ->
      Manual.contours_detected (fst r) = Manual.contours_detected s
      /\ Manual.contours (fst r) = Manual.contours s).
Proof.
  cbv zeta. rewrite graph_right_press. cbn [fst].
  rewrite (graph_right_release x' (Manual.frame_at x s)) by reflexivity.
  change (Manual.frame_at x' (Manual.with_del_tmp _ s)) with (Manual.frame_at x' s).
  cbn [fst snd Manual.contours Manual.contours_detected Manual.with_contours
       Manual.with_contours_detected Manual.with_del_tmp].
  rewrite (Z.min_comm (Manual.frame_at x' s)), (Z.max_comm (Manual.frame_at x' s)).
  split; [reflexivity|]. split.
  - intros i. rewrite !nth_error_np_setslice. split; reflexivity.
  - intros E. rewrite <- E, Z.min_id, Z.max_id, !np_setslice_empty.
    split; reflexivity.
Qed.

Lemma process_key_digit (d : Z) (s : Manual.ManualTracker M) :
  (0 <= d <= 9)%Z ->
  Manual.process_key (48 + d) s
  = (Manual.with_jump_frame
       (Z.min (Manual._n_frames s) (Manual.jump_frame s * 10 + d)) s,
     Returns true).
Proof.
  intros H. unfold Manual.process_key.
  repeat match goal with
         | |- context [(48 + d =? ?k)%Z] =>
             rewrite (proj2 (Z.eqb_neq (48 + d) k)) by lia
         end.
  replace ((48 <=? 48 + d) && (48 + d <? 58))%Z with true
    by (symmetry; apply andb_true_iff; split;
        [apply Z.leb_le | apply Z.ltb_lt]; lia).
  do 3 f_equal. lia.
Qed.

Lemma press_digits (ds : list Z) :
  forall (s : Manual.ManualTracker M) a,
  (0 <= Manual._n_frames s)%Z -> (0 <= a)%Z ->
  Forall (fun d => 0 <= d <= 9)%Z ds ->
  Manual.jump_frame s = Z.min (Manual._n_frames s) a ->
  let s' := Manual.press (map (fun d => 48 + d)%Z ds) s in
  Manual.jump_frame s'
  = Z.min (Manual._n_frames s) (fold_left (fun a d => 10 * a + d)%Z ds a)
  /\ Manual._n_frames s' = Manual._n_frames s
  /\ Manual._frame_number s' = Manual._frame_number s.
Proof.
  induction ds as [|d ds IH]; intros s a Hn Ha Hds Hj; cbv zeta.
  - cbn [map Manual.press fold_left]. repeat split. exact Hj.
  - inversion Hds as [|? ? Hd Hrest]; subst.
    unfold Manual.press. cbn [map fold_left].
    rewrite process_key_digit by exact Hd. cbn [fst].
    fold (Manual.press (map (fun d => 48 + d)%Z ds)
            (Manual.with_jump_frame
               (Z.min (Manual._n_frames s) (Manual.jump_frame s * 10 + d)) s)).
    destruct (IH (Manual.with_jump_frame
                    (Z.min (Manual._n_frames s) (Manual.jump_frame s * 10 + d)) s)
                (10 * a + d)%Z) as (H1 & H2 & H3); trivial.
    + lia.
    + cbn [Manual.jump_frame Manual.with_jump_frame Manual._n_frames].
      rewrite Hj. lia.
    + cbv zeta in H1, H2, H3. rewrite H1, H2, H3. repeat split.
Qed.

Lemma digits_nonneg (ds : list Z) :
  Forall (fun d => 0 <= d <= 9)%Z ds ->
  forall a, (0 <= a)%Z -> (0 <= fold_left (fun a d => 10 * a + d) ds a)%Z.
Proof.
  induction 1 as [|d ds Hd _ IH]; intros a Ha; cbn [fold_left]; [exact Ha|].
  apply IH. lia.
Qed.

(** X21: typing [f], the decimal digits of a number and [j] jumps to that
    frame, capped at the last frame of the video: the jump frame becomes
    the smaller of the number and the frame count, and the frame number and
    the position of the capture the smaller of the number and
    [n_frames - 1]. *)
Theorem X21_typed_number_jumps_to_that_frame (ds : list Z)
    (s : Manual.ManualTracker M) :
  (1 <= Manual._n_frames s)%Z ->
  Forall (fun d => 0 <= d <= 9)%Z ds ->
  let s' := Manual.press (102 :: map (fun d => 48 + d) ds ++ [106])%Z s in
  Manual.jump_frame s' = Z.min (Manual._n_frames s) (decimal ds)
  /\ Manual._frame_number s' = Z.min (decimal ds) (Manual._n_frames s - 1)
  /\ Manual._cap_pos s' = Manual._frame_number s'
  /\ Manual.update_frame s' = true.
Proof.
  intros Hn Hds. cbv zeta. unfold Manual.press. cbn [fold_left].
  rewrite fold_left_app. cbn [fold_left].
  change (fst (Manual.process_key 102 s)) with (Manual.with_jump_frame 0 s).
  destruct (press_digits ds (Manual.with_jump_frame 0 s) 0) as (H1 & H2 & H3);
    trivial; try (cbn [Manual.jump_frame Manual.with_jump_frame Manual._n_frames]; lia).
  cbv zeta in H1, H2, H3. unfold Manual.press in H1, H2, H3.
  set (s1 := fold_left _ (map _ ds) (Manual.with_jump_frame 0 s)) in *.
  change (fst (Manual.process_key 106 s1))
    with (Manual.goto_frame (Manual.jump_frame s1) s1).
  assert (Hdec : (0 <= decimal ds)%Z)
    by (unfold decimal; apply digits_nonneg; [exact Hds | lia]).
  fold (decimal ds) in H1.
  cbn [Manual._n_frames Manual.with_jump_frame Manual._frame_number] in H1, H2.
  unfold Manual.goto_frame.
  cbn [Manual.jump_frame Manual._frame_number Manual._cap_pos Manual.update_frame
       Manual.with_update_frame Manual.with_cap_pos Manual.with_frame_number
       Manual._n_frames].
  rewrite H1, H2. repeat split; lia.
Qed.

(** X22: a left drag on the main window sets the region of interest to
    the one of the two corners, each divided by the display scale (when
    there is one) and cut to an integer; the key [r] forgets the corners
    and the region; and a release on a tracker with no recorded press
    raises [ValueError] after the end corner was stored, which leaves an
    end corner without a region. *)
Theorem X22_mouse_drag_sets_the_roi (x0 y0 x1 y1 : Z)
    (s : Manual.ManualTracker M) :
  Manual._scale_factor s <> Some 0 ->
  let sc := fun z => match Manual._scale_factor s with
                     | None => z
                     | Some f => Np.trunc (IZR z / f)
                     end in
  let s1 := fst (Manual.mouse_callback EVENT_LBUTTONDOWN x0 y0 s) in
  let r := Manual.mouse_callback EVENT_LBUTTONUP x1 y1 s1 in
  (snd r = Returns tt
   /\ Manual.start (fst r) = Some (sc x0, sc y0)
   /\ Manual.end_ (fst r) = Some (sc x1, sc y1)
   /\ Manual.roi (fst r) = Some (drag_roi (sc x0, sc y0) (sc x1, sc y1)))
  /\ (let s2 := fst (Manual.process_key 114 (fst r)) in
      Manual.start s2 = None /\ Manual.end_ s2 = None /\ Manual.roi s2 = None)
  /\ (Manual.start s = None ->
      let r' := Manual.mouse_callback EVENT_LBUTTONUP x1 y1 s in
      snd r' = Raises ValueError
      /\ Manual.end_ (fst r') = Some (sc x1, sc y1)
      /\ Manual.roi (fst r') = Manual.roi s).
Proof.
  intros Hsc. cbv zeta. unfold Manual.mouse_callback.
  destruct (Manual._scale_factor s) as [f|] eqn:Hf.
  - assert (Hf0 : Reqb f 0 = false)
      by (apply Reqb_false; intros ->; contradiction).
    rewrite Hf0.
    cbn [fst Manual._scale_factor Manual.with_start]. rewrite Hf, Hf0.
    cbn [fst snd Manual._scale_factor Manual.with_start Manual.with_end_
         Manual.start Manual.end_ Manual.roi Manual.with_roi].
    split; [repeat split|]. split; [repeat split|].
    intros ->. repeat split.
  - cbn [fst Manual._scale_factor Manual.with_start]. rewrite Hf.
    cbn [fst snd Manual._scale_factor Manual.with_start Manual.with_end_
         Manual.start Manual.end_ Manual.roi Manual.with_roi].
    split; [repeat split|]. split; [repeat split|].
    intros ->. repeat split.
Qed.

End ManualTheorems.

Lemma X18_witness :
  Manual.in_run (Manual.run_start (M := Z) 100)
  /\ (exists b, snd (Manual.process_key (canvas := dot_canvas) 100
                      (Manual.run_start 100)) = Returns b)
  /\ Manual.in_run (fst (Manual.process_key (canvas := dot_canvas) 100
                           (Manual.run_start 100))).
Proof.
  assert (H : Manual.in_run (Manual.run_start (M := Z) 100))
    by (apply (proj1 (X18_callbacks_keep_the_tracker_in_run
                        (canvas := dot_canvas))); lia).
  split; [exact H|].
  exact (proj1 (proj2 (X18_callbacks_keep_the_tracker_in_run
                         (canvas := dot_canvas)))
           100%Z (Manual.run_start 100) H).
Defined.

Lemma X19_witness :
  (1 <= Manual._n_frames (Manual.run_start (M := Z) 100))%Z
  /\ (let s1 := fst (Manual.graph_mouse_callback
                       EVENT_LBUTTONDOWN 300 (Manual.run_start (M := Z) 100)) in
      let r := Manual.graph_mouse_callback EVENT_LBUTTONUP 300 s1 in
      snd r = Returns tt
      /\ (0 <= Manual.t0 (fst r) < Manual.t1 (fst r))%Z
      /\ (Manual.t1 (fst r) <= Manual._n_frames (Manual.run_start (M := Z) 100))%Z).
Proof.
  assert (H : (1 <= Manual._n_frames (Manual.run_start (M := Z) 100))%Z)
    by (cbn; lia).
  split; [exact H|].
  exact (proj2 (X19_zoom_selects_at_least_one_frame 300 300
                  (Manual.run_start (M := Z) 100)) H).
Defined.

Lemma X21_witness :
  (1 <= Manual._n_frames (Manual.run_start (M := Z) 100))%Z
  /\ Forall (fun d => 0 <= d <= 9)%Z [4; 2]%Z
  /\ Manual._frame_number
       (Manual.press (canvas := dot_canvas)
          (102 :: map (fun d => 48 + d) [4; 2] ++ [106])%Z
          (Manual.run_start 100))
     = Z.min (decimal [4; 2]%Z) (100 - 1).
Proof.
  assert (H : (1 <= Manual._n_frames (Manual.run_start (M := Z) 100))%Z)
    by (cbn; lia).
  assert (Hd : Forall (fun d => 0 <= d <= 9)%Z [4; 2]%Z)
    by (repeat constructor; lia).
  split; [exact H|]. split; [exact Hd|].
  exact (proj1 (proj2 (X21_typed_number_jumps_to_that_frame
                         (canvas := dot_canvas) [4; 2]%Z
                         (Manual.run_start 100) H Hd))).
Defined.

Lemma X22_witness :
  Manual._scale_factor (Manual.run_start (M := Z) 100) <> Some 0
  /\ Manual.roi
       (fst (Manual.mouse_callback (canvas := dot_canvas) EVENT_LBUTTONUP 7 1
               (fst (Manual.mouse_callback (canvas := dot_canvas)
                       EVENT_LBUTTONDOWN 2 3 (Manual.run_start 100)))))
     = Some (drag_roi (2, 3) (7, 1))%Z.
Proof.
  assert (H : Manual._scale_factor (Manual.run_start (M := Z) 100) <> Some 0)
    by discriminate.
  split; [exact H|].
  apply (proj1 (X22_mouse_drag_sets_the_roi (canvas := dot_canvas) 2 3 7 1
                  (Manual.run_start 100) H)).
Defined.
